(** * User-management service: store, aggregate and endpoint model

    A shallow embedding of the user store (MongoDB queries over the users
    collection), the temp-token store, the session-token renewal endpoint,
    the profile endpoints, account deletion and the temp-token endpoints,
    followed by the properties the specification states about them. *)

From Stdlib Require Import ZArith Lia Ascii String List.
From stdpp Require Import gmap strings list fin_maps.
Open Scope string_scope.
Open Scope Z_scope.

(** ** Go's int64 *)

Module Int64.
Definition min : Z := - 2 ^ 63.
Definition max : Z := 2 ^ 63 - 1.
Definition InRange (z : Z) : Prop := min <= z <= max.
(** two's-complement wrap-around of an integer result *)
Definition wrap (z : Z) : Z := (z + 2 ^ 63) mod 2 ^ 64 - 2 ^ 63.
Definition add (a b : Z) : Z := wrap (a + b).
End Int64.

(** ** Results *)

(** A Go [(value, error)] pair whose value is only read when the error is nil. *)
Inductive result (E A : Type) : Type :=
| Ok (a : A)
| Err (e : E).
Arguments Ok {E A} a.
Arguments Err {E A} e.

(** gRPC status codes the endpoints use *)
Inductive Code := InvalidArgument | PermissionDenied | Internal.

Record Status := mkStatus { code : Code; message : string }.

(** ** Data model (pkg/models) *)

(** A Mongo ObjectID, kept in its lower-case hex form. *)
Abbreviation ObjectID := string (only parsing).

Definition NilObjectID : ObjectID := "000000000000000000000000".

Definition isHexDigit (c : ascii) : bool :=
  let n := nat_of_ascii c in
  ((48 <=? n) && (n <=? 57) || (97 <=? n) && (n <=? 102) || (65 <=? n) && (n <=? 70))%nat.

Definition lowerHex (c : ascii) : ascii :=
  let n := nat_of_ascii c in
  if ((65 <=? n) && (n <=? 70))%nat then ascii_of_nat (n + 32) else c.

(** [primitive.ObjectIDFromHex] with its error dropped, as every caller in
    the store does ([_id, _ := ...]): a string that is not 24 hex digits
    gives the zero id. *)
Definition ObjectIDFromHex (s : string) : ObjectID :=
  let cs := list_ascii_of_string s in
  if (Nat.eqb (List.length cs) 24 && forallb isHexDigit cs)%bool
  then string_of_list_ascii (List.map lowerHex cs)
  else NilObjectID.

(** Modelled from the spec: the structs of pkg/models are not among the
    sources; section 3 gives their fields: a profile
    [{id, alias, avatarId, consentConfirmedAt, mainProfile, createdAt}]. *)
Record Profile := mkProfile {
  pID : ObjectID;
  Alias : string;
  AvatarID : string;
  ConsentConfirmedAt : Z;
  MainProfile : bool;
  pCreatedAt : Z
}.

(** Modelled from the spec: [models.Account], section 3; the refresh
    tokens are the list of opaque strings the renewal endpoint works on. *)
Record Account := mkAccount {
  Type_ : string;
  AccountID : string;
  AccountConfirmedAt : Z;
  Password : string;
  PreferredLanguage : string;
  RefreshTokens : list string;
  FailedLoginAttempts : list Z;
  PasswordResetTriggers : list Z
}.

(** Modelled from the spec: [models.Timestamps], section 3; all unix
    seconds (int64), 0 for never. *)
Record Timestamps := mkTimestamps {
  CreatedAt : Z;
  UpdatedAt : Z;
  LastLogin : Z;
  LastTokenRefresh : Z;
  LastPasswordChange : Z;
  ReminderToConfirmSentAt : Z;
  MarkedForDeletion : Z
}.

(** Modelled from the spec: [models.User], section 3, with the parts the
    embedded code reads or writes. The fields [Account] and [Timestamps]
    are written [account] and [timestamps], their types keep the names. *)
Record User := mkUser {
  ID : ObjectID;
  account : Account;
  Roles : list string;
  Profiles : list Profile;
  timestamps : Timestamps
}.

(** Modelled from the spec: [models.TempToken], section 3. *)
Record TempToken := mkTempToken {
  Token : string;
  UserID : string;
  InstanceID : string;
  Purpose : string;
  Info : list (string * string);
  Expiration : Z
}.

Definition setID (k : ObjectID) (u : User) : User :=
  mkUser k (account u) (Roles u) (Profiles u) (timestamps u).

Definition setAccount (a : Account) (u : User) : User :=
  mkUser (ID u) a (Roles u) (Profiles u) (timestamps u).

Definition setProfiles (ps : list Profile) (u : User) : User :=
  mkUser (ID u) (account u) (Roles u) ps (timestamps u).

Definition setTimestamps (t : Timestamps) (u : User) : User :=
  mkUser (ID u) (account u) (Roles u) (Profiles u) t.

Definition setRefreshTokens (l : list string) (a : Account) : Account :=
  mkAccount (Type_ a) (AccountID a) (AccountConfirmedAt a) (Password a)
    (PreferredLanguage a) l (FailedLoginAttempts a) (PasswordResetTriggers a).

Definition setPasswordResetTriggers (l : list Z) (a : Account) : Account :=
  mkAccount (Type_ a) (AccountID a) (AccountConfirmedAt a) (Password a)
    (PreferredLanguage a) (RefreshTokens a) (FailedLoginAttempts a) l.

Definition setUpdatedAt (z : Z) (t : Timestamps) : Timestamps :=
  mkTimestamps (CreatedAt t) z (LastLogin t) (LastTokenRefresh t)
    (LastPasswordChange t) (ReminderToConfirmSentAt t) (MarkedForDeletion t).

Definition setLastTokenRefresh (z : Z) (t : Timestamps) : Timestamps :=
  mkTimestamps (CreatedAt t) (UpdatedAt t) (LastLogin t) z
    (LastPasswordChange t) (ReminderToConfirmSentAt t) (MarkedForDeletion t).

Definition setMarkedForDeletion (z : Z) (t : Timestamps) : Timestamps :=
  mkTimestamps (CreatedAt t) (UpdatedAt t) (LastLogin t) (LastTokenRefresh t)
    (LastPasswordChange t) (ReminderToConfirmSentAt t) z.

(** ** Documents, field paths and query operators (the bson the store sends) *)

Module Bson.

(** Split a dotted field path into its segments. *)
Fixpoint splitDots (acc : string) (s : string) : list string :=
  match s with
  | EmptyString => [acc]
  | String c s' =>
      if Ascii.eqb c "."%char then acc :: splitDots "" s'
      else splitDots (String.append acc (String c "")) s'
  end.

(** The int64 fields of the embedded [timestamps] document, by the bson
    names the queries, updates and indexes of the store use for them. *)
Definition timestampsInt (name : string) (t : Timestamps) : option Z :=
  if String.eqb name "createdAt" then Some (CreatedAt t)
  else if String.eqb name "updatedAt" then Some (UpdatedAt t)
  else if String.eqb name "lastLogin" then Some (LastLogin t)
  else if String.eqb name "lastTokenRefresh" then Some (LastTokenRefresh t)
  else if String.eqb name "lastPasswordChange" then Some (LastPasswordChange t)
  else if String.eqb name "reminderToConfirmSentAt" then Some (ReminderToConfirmSentAt t)
  else if String.eqb name "markedForDeletion" then Some (MarkedForDeletion t)
  else None.

(** The value a dotted path reaches in the document of a user, for the
    int64 fields; [None] when the document has no field there. *)
Definition fieldInt (path : string) (u : User) : option Z :=
  match splitDots "" path with
  | [top; name] =>
      if String.eqb top "timestamps" then timestampsInt name (timestamps u)
      else if String.eqb top "account" then
        if String.eqb name "accountConfirmedAt"
        then Some (AccountConfirmedAt (account u)) else None
      else None
  | _ => None
  end.

(** The same for the string fields the queries name. *)
Definition fieldStr (path : string) (u : User) : option string :=
  match splitDots "" path with
  | [top; name] =>
      if String.eqb top "account" then
        if String.eqb name "accountID" then Some (AccountID (account u))
        else if String.eqb name "password" then Some (Password (account u))
        else if String.eqb name "preferredLanguage"
             then Some (PreferredLanguage (account u))
        else None
      else None
  | _ => None
  end.

(** Query operators on one field. *)
Inductive qop :=
| QEq (z : Z)          (* {path: z} *)
| QGt (z : Z)          (* {"$gt": z} *)
| QLt (z : Z)          (* {"$lt": z} *)
| QNot (q : qop).      (* {"$not": q} *)

(** A comparison never matches a missing field; [$not] negates, so it
    does match one. *)
Fixpoint evalQ (q : qop) (v : option Z) : bool :=
  match q with
  | QEq z => match v with Some x => Z.eqb x z | None => false end
  | QGt z => match v with Some x => Z.ltb z x | None => false end
  | QLt z => match v with Some x => Z.ltb x z | None => false end
  | QNot q' => negb (evalQ q' v)
  end.

#[warnings="-register-all"] Inductive filter :=
| FId (id : ObjectID)                 (* bson.M{"_id": id} *)
| FInt (path : string) (q : qop)      (* bson.M{path: q} *)
| FStr (path : string) (s : string)   (* bson.M{path: s} *)
| FAnd (fs : list filter).            (* bson.M{"$and": bson.A{...}} *)

(** Does the document with [_id = k] and body [u] match the filter? *)
Fixpoint matches (f : filter) (k : ObjectID) (u : User) : bool :=
  match f with
  | FId id => String.eqb k id
  | FInt path q => evalQ q (fieldInt path u)
  | FStr path s =>
      match fieldStr path u with Some x => String.eqb x s | None => false end
  | FAnd fs => forallb (fun f' => matches f' k u) fs
  end.

(** Update documents: [$set] of an int64 field, [$push] onto an array
    of int64. *)
Inductive update :=
| USet (path : string) (z : Z)
| UPush (path : string) (z : Z).

Definition setTimestampsInt (name : string) (z : Z) (t : Timestamps) : Timestamps :=
  if String.eqb name "markedForDeletion" then setMarkedForDeletion z t
  else if String.eqb name "updatedAt" then setUpdatedAt z t
  else if String.eqb name "lastTokenRefresh" then setLastTokenRefresh z t
  else t.

(** A [$set] on a path outside the struct adds a field no decode reads:
    the user is unchanged. *)
Definition applyUpdate (up : update) (u : User) : User :=
  match up with
  | USet path z =>
      match splitDots "" path with
      | [top; name] =>
          if String.eqb top "timestamps"
          then setTimestamps (setTimestampsInt name z (timestamps u)) u
          else u
      | _ => u
      end
  | UPush path z =>
      match splitDots "" path with
      | [top; name] =>
          if String.eqb top "account" then
            if String.eqb name "passwordResetTriggers"
            then setAccount (setPasswordResetTriggers
                               (PasswordResetTriggers (account u) ++ [z])%list
                               (account u)) u
            else u
          else u
      | _ => u
      end
  end.

(** *** Update documents with several fields, queries on the roles array *)

Definition setLastLogin (z : Z) (t : Timestamps) : Timestamps :=
  mkTimestamps (CreatedAt t) (UpdatedAt t) z (LastTokenRefresh t)
    (LastPasswordChange t) (ReminderToConfirmSentAt t) (MarkedForDeletion t).

Definition setLastPasswordChange (z : Z) (t : Timestamps) : Timestamps :=
  mkTimestamps (CreatedAt t) (UpdatedAt t) (LastLogin t) (LastTokenRefresh t)
    z (ReminderToConfirmSentAt t) (MarkedForDeletion t).

Definition setReminderToConfirmSentAt (z : Z) (t : Timestamps) : Timestamps :=
  mkTimestamps (CreatedAt t) (UpdatedAt t) (LastLogin t) (LastTokenRefresh t)
    (LastPasswordChange t) z (MarkedForDeletion t).

Definition setPassword (p : string) (a : Account) : Account :=
  mkAccount (Type_ a) (AccountID a) (AccountConfirmedAt a) p
    (PreferredLanguage a) (RefreshTokens a) (FailedLoginAttempts a)
    (PasswordResetTriggers a).

Definition setPreferredLanguage (l : string) (a : Account) : Account :=
  mkAccount (Type_ a) (AccountID a) (AccountConfirmedAt a) (Password a)
    l (RefreshTokens a) (FailedLoginAttempts a) (PasswordResetTriggers a).

Definition setFailedLoginAttempts (l : list Z) (a : Account) : Account :=
  mkAccount (Type_ a) (AccountID a) (AccountConfirmedAt a) (Password a)
    (PreferredLanguage a) (RefreshTokens a) l (PasswordResetTriggers a).

(** One entry of an update document: [$set] of an int64 or of a string
    field, [$push] of an int64 onto an array. *)
Inductive fieldUpdate :=
| SetInt (path : string) (z : Z)
| SetStr (path : string) (v : string)
| PushInt (path : string) (z : Z).

(** The entry applied to the document of a user; an entry on a path
    outside the struct adds a field no decode reads. *)
Definition applyField (f : fieldUpdate) (u : User) : User :=
  match f with
  | SetInt path z =>
      match splitDots "" path with
      | [top; name] =>
          if String.eqb top "timestamps" then
            let t := timestamps u in
            if String.eqb name "updatedAt" then setTimestamps (setUpdatedAt z t) u
            else if String.eqb name "lastLogin" then setTimestamps (setLastLogin z t) u
            else if String.eqb name "lastTokenRefresh"
                 then setTimestamps (setLastTokenRefresh z t) u
            else if String.eqb name "lastPasswordChange"
                 then setTimestamps (setLastPasswordChange z t) u
            else if String.eqb name "reminderToConfirmSentAt"
                 then setTimestamps (setReminderToConfirmSentAt z t) u
            else if String.eqb name "markedForDeletion"
                 then setTimestamps (setMarkedForDeletion z t) u
            else u
          else u
      | _ => u
      end
  | SetStr path v =>
      match splitDots "" path with
      | [top; name] =>
          if String.eqb top "account" then
            if String.eqb name "password"
            then setAccount (setPassword v (account u)) u
            else if String.eqb name "preferredLanguage"
                 then setAccount (setPreferredLanguage v (account u)) u
            else u
          else u
      | _ => u
      end
  | PushInt path z =>
      match splitDots "" path with
      | [top; name] =>
          if String.eqb top "account" then
            if String.eqb name "failedLoginAttempts"
            then setAccount (setFailedLoginAttempts
                               (FailedLoginAttempts (account u) ++ [z])%list
                               (account u)) u
            else if String.eqb name "passwordResetTriggers"
                 then setAccount (setPasswordResetTriggers
                                    (PasswordResetTriggers (account u) ++ [z])%list
                                    (account u)) u
            else u
          else u
      | _ => u
      end
  end.

(** An update document: its entries name different fields. *)
Definition applyFields (fs : list fieldUpdate) (u : User) : User :=
  fold_left (fun u f => applyField f u) fs u.

(** Operators on the [roles] array of a user. *)
Inductive rolesOp :=
| RolesNin (l : list string)            (* {"$nin": bson.A{...}} *)
| RolesElemMatchIn (l : list string).   (* {"$elemMatch": {"$in": bson.A{...}}} *)

Definition inList (x : string) (l : list string) : bool :=
  existsb (String.eqb x) l.

(** On an array field [$nin] matches when no element is one of the listed
    values; [$elemMatch] with [$in] when some element is. *)
Definition evalRoles (op : rolesOp) (roles : list string) : bool :=
  match op with
  | RolesNin l => negb (existsb (fun r => inList r l) roles)
  | RolesElemMatchIn l => existsb (fun r => inList r l) roles
  end.

(** Filters that also look at the roles. *)
#[warnings="-register-all"] Inductive query :=
| QFilter (f : filter)
| QRoles (op : rolesOp)                 (* bson.M{"roles": op} *)
| QAll (qs : list query).               (* bson.M{"$and": bson.A{...}} *)

Fixpoint matchesQ (q : query) (k : ObjectID) (u : User) : bool :=
  match q with
  | QFilter f => matches f k u
  | QRoles op => evalRoles op (Roles u)
  | QAll qs => forallb (fun q' => matchesQ q' k u) qs
  end.

End Bson.

(** ** The user store (pkg/dbs/userdb) *)

(** Database errors are Go [error] values; only their text is kept. *)
Abbreviation dberror := string (only parsing).

Definition ErrNoDocuments : dberror := "mongo: no documents in result".

(** The users collections of all instances: a document is addressed by
    the instance whose database holds it and by its [_id], which is unique
    within a collection. *)
Abbreviation UserDB := (gmap (string * ObjectID) User) (only parsing).

Module UserDBService.
Import Bson.

(** [collectionRefUsers(instanceID)]: the documents of one instance, in
    cursor order. *)
Definition collectionRefUsers (instanceID : string) (db : UserDB)
  : list (ObjectID * User) :=
  omap (fun kv : (string * ObjectID) * User =>
          if String.eqb (fst (fst kv)) instanceID
          then Some (snd (fst kv), snd kv) else None)
       (map_to_list db).

Definition docMatches (f : filter) (d : ObjectID * User) : bool :=
  matches f (fst d) (snd d).

(** Decoding a document into [models.User] reads [_id] into [ID]. *)
Definition Decode (d : ObjectID * User) : User := setID (fst d) (snd d).

(** *** Driver operations

    The store is taken to be reachable: an operation fails only with the
    error it defines itself (no document found), so the branches the source
    takes on a driver error after [UpdateOne], [DeleteOne] or [Find] have no
    counterpart here. *)

Definition FindOne (instanceID : string) (f : filter) (db : UserDB)
  : option (ObjectID * User) :=
  List.find (docMatches f) (collectionRefUsers instanceID db).

Definition Find (instanceID : string) (f : filter) (db : UserDB)
  : list (ObjectID * User) :=
  List.filter (docMatches f) (collectionRefUsers instanceID db).

Record UpdateResult := { MatchedCount : Z }.
Record DeleteResult := { DeletedCount : Z }.

Definition UpdateOne (instanceID : string) (f : filter) (up : update) (db : UserDB)
  : UserDB * UpdateResult :=
  match FindOne instanceID f db with
  | Some (k, u) => (<[(instanceID, k) := applyUpdate up u]> db, {| MatchedCount := 1 |})
  | None => (db, {| MatchedCount := 0 |})
  end.

Definition DeleteOne (instanceID : string) (f : filter) (db : UserDB)
  : UserDB * DeleteResult :=
  match FindOne instanceID f db with
  | Some (k, _) => (delete (instanceID, k) db, {| DeletedCount := 1 |})
  | None => (db, {| DeletedCount := 0 |})
  end.

(** [FindOneAndReplace] with [ReturnDocument: After]. *)
Definition FindOneAndReplace (instanceID : string) (f : filter) (doc : User) (db : UserDB)
  : UserDB * result dberror User :=
  match FindOne instanceID f db with
  | Some (k, _) => (<[(instanceID, k) := doc]> db, Ok (Decode (k, doc)))
  | None => (db, Err ErrNoDocuments)
  end.

(** *** Service methods *)

Definition _updateUserInDB (orgID : string) (user : User) (db : UserDB)
  : UserDB * result dberror User :=
  let filter := FId (ID user) in
  FindOneAndReplace orgID filter user db.

Definition UpdateUser (now : Z) (instanceID : string) (updatedUser : User) (db : UserDB)
  : UserDB * result dberror User :=
  let updatedUser :=
    setTimestamps (setUpdatedAt now (timestamps updatedUser)) updatedUser in
  _updateUserInDB instanceID updatedUser db.

Definition GetUserByID (instanceID : string) (id : string) (db : UserDB)
  : result dberror User :=
  let _id := ObjectIDFromHex id in
  let filter := FId _id in
  match FindOne instanceID filter db with
  | Some d => Ok (Decode d)
  | None => Err ErrNoDocuments
  end.

Definition GetUserByAccountID (instanceID : string) (username : string) (db : UserDB)
  : result dberror User :=
  let filter := FStr "account.accountID" username in
  match FindOne instanceID filter db with
  | Some d => Ok (Decode d)
  | None => Err ErrNoDocuments
  end.

Definition UpdateMarkedForDeletionTime (now : Z)
    (instanceID : string) (id : string) (dT2 : Z) (reset : bool) (db : UserDB)
  : UserDB * (bool * option dberror) :=
  let _id := ObjectIDFromHex id in
  if reset then
    let filter := FId _id in
    let update := USet "timestamps.markedForDeletion" 0 in
    let '(db', res) := UpdateOne instanceID filter update db in
    if 0 <? MatchedCount res then (db', (true, None)) else (db', (false, None))
  else
    let filter :=
      FAnd [ FId _id;
             FInt "timestamps.markedForDeletion" (QNot (QGt 0)) ] in
    let update := USet "timestamps.markedForDeletion" (Int64.add now dT2) in
    let '(db', res) := UpdateOne instanceID filter update db in
    if 0 <? MatchedCount res then (db', (true, None)) else (db', (false, None)).

Definition SavePasswordResetTrigger (now : Z) (instanceID : string) (userID : string)
    (db : UserDB) : UserDB * option dberror :=
  let _id := ObjectIDFromHex userID in
  let filter := FId _id in
  let update := UPush "account.passwordResetTriggers" now in
  let '(db', _) := UpdateOne instanceID filter update db in
  (db', None).

Definition DeleteUser (instanceID : string) (id : string) (db : UserDB)
  : UserDB * option dberror :=
  let _id := ObjectIDFromHex id in
  let filter := FId _id in
  let '(db', res) := DeleteOne instanceID filter db in
  if DeletedCount res <? 1 then (db', Some "no user found with the given id")
  else (db', None).

Definition FindUsersMarkedForDeletion (now : Z) (instanceID : string) (db : UserDB)
  : list User * option dberror :=
  let filter :=
    FAnd [ FInt "timestamps.timestamps.markedForDeletion" (QGt 0);
           FInt "timestamps.timestamps.markedForDeletion" (QLt now) ] in
  let cur := Find instanceID filter db in
  (List.map Decode cur, None).

(** *** Further driver operations *)

Definition docMatchesQ (q : query) (d : ObjectID * User) : bool :=
  matchesQ q (fst d) (snd d).

Definition FindQ (instanceID : string) (q : query) (db : UserDB)
  : list (ObjectID * User) :=
  List.filter (docMatchesQ q) (collectionRefUsers instanceID db).

Definition CountDocuments (instanceID : string) (f : filter) (db : UserDB) : Z :=
  Z.of_nat (List.length (Find instanceID f db)).

(** [UpdateOne] with an update document of several entries. *)
Definition UpdateOneFields (instanceID : string) (f : filter) (fs : list fieldUpdate)
    (db : UserDB) : UserDB * UpdateResult :=
  match FindOne instanceID f db with
  | Some (k, u) => (<[(instanceID, k) := applyFields fs u]> db, {| MatchedCount := 1 |})
  | None => (db, {| MatchedCount := 0 |})
  end.

(** [FindOneAndUpdate] with [ReturnDocument: After]. *)
Definition FindOneAndUpdate (instanceID : string) (f : filter) (fs : list fieldUpdate)
    (db : UserDB) : UserDB * result dberror User :=
  match FindOne instanceID f db with
  | Some (k, u) =>
      (<[(instanceID, k) := applyFields fs u]> db, Ok (Decode (k, applyFields fs u)))
  | None => (db, Err ErrNoDocuments)
  end.

Definition DeleteMany (instanceID : string) (f : filter) (db : UserDB)
  : UserDB * DeleteResult :=
  let ds := Find instanceID f db in
  (foldr (fun d m => delete (instanceID, fst d) m) db ds,
   {| DeletedCount := Z.of_nat (List.length ds) |}).

Record UpsertResult := { UpsertedCount : Z; UpsertedID : ObjectID }.

Definition ErrDuplicateKey : dberror := "E11000 duplicate key error".

(** [UpdateOne] with [Upsert] and an update of [$setOnInsert] only: a
    matching document is left as it is; without one the document is
    inserted under [newID], the [_id] it gets. *)
Definition UpsertSetOnInsert (newID : ObjectID) (instanceID : string) (f : filter)
    (doc : User) (db : UserDB) : UserDB * result dberror UpsertResult :=
  match FindOne instanceID f db with
  | Some _ => (db, Ok {| UpsertedCount := 0; UpsertedID := NilObjectID |})
  | None =>
      match db !! (instanceID, newID) with
      | Some _ => (db, Err ErrDuplicateKey)
      | None => (<[(instanceID, newID) := doc]> db,
                 Ok {| UpsertedCount := 1; UpsertedID := newID |})
      end
  end.

(** *** Further service methods *)

Definition AddUser (newID : ObjectID) (instanceID : string) (user : User) (db : UserDB)
  : UserDB * result dberror string :=
  let filter := FStr "account.accountID" (AccountID (account user)) in
  match UpsertSetOnInsert newID instanceID filter user db with
  | (db', Err e) => (db', Err e)
  | (db', Ok res) =>
      if UpsertedCount res <? 1 then (db', Err "user already exists")
      else (db', Ok (UpsertedID res))
  end.

Definition UpdateUserPassword (now : Z) (instanceID userID newPassword : string)
    (db : UserDB) : UserDB * option dberror :=
  let _id := ObjectIDFromHex userID in
  let filter := FId _id in
  let update := [ SetStr "account.password" newPassword;
                  SetInt "timestamps.lastPasswordChange" now ] in
  let '(db', _) := UpdateOneFields instanceID filter update db in
  (db', None).

Definition SaveFailedLoginAttempt (now : Z) (instanceID userID : string) (db : UserDB)
  : UserDB * option dberror :=
  let _id := ObjectIDFromHex userID in
  let filter := FId _id in
  let update := [ PushInt "account.failedLoginAttempts" now ] in
  let '(db', _) := UpdateOneFields instanceID filter update db in
  (db', None).

Definition UpdateAccountPreferredLang (now : Z) (instanceID userID lang : string)
    (db : UserDB) : UserDB * result dberror User :=
  let _id := ObjectIDFromHex userID in
  let filter := FId _id in
  let update := [ SetStr "account.preferredLanguage" lang;
                  SetInt "timestamps.updatedAt" now ] in
  FindOneAndUpdate instanceID filter update db.

Definition UpdateLoginTime (now : Z) (instanceID id : string) (db : UserDB)
  : UserDB * option dberror :=
  let _id := ObjectIDFromHex id in
  let filter := FId _id in
  let update := [ SetInt "timestamps.lastLogin" now ] in
  let '(db', _) := UpdateOneFields instanceID filter update db in
  match UpdateMarkedForDeletionTime now instanceID id 0 true db' with
  | (db'', (_, Some err)) => (db'', Some err)
  | (db'', (_, None)) => (db'', None)
  end.

Definition UpdateReminderToConfirmSentAtTime (now : Z) (instanceID id : string)
    (db : UserDB) : UserDB * option dberror :=
  let _id := ObjectIDFromHex id in
  let filter := FId _id in
  let update := [ SetInt "timestamps.reminderToConfirmSentAt" now ] in
  let '(db', _) := UpdateOneFields instanceID filter update db in
  (db', None).

Definition sub64 (a b : Z) : Z := Int64.wrap (a - b).

Definition CountRecentlyCreatedUsers (now : Z) (instanceID : string) (interval : Z)
    (db : UserDB) : Z * option dberror :=
  let filter := FInt "timestamps.createdAt" (QGt (sub64 now interval)) in
  (CountDocuments instanceID filter db, None).

Definition DeleteUnverfiedUsers (instanceID : string) (createdBefore : Z) (db : UserDB)
  : UserDB * (Z * option dberror) :=
  let filter :=
    FAnd [ FInt "account.accountConfirmedAt" (QEq 0);
           FInt "timestamps.createdAt" (QLt createdBefore) ] in
  let '(db', res) := DeleteMany instanceID filter db in
  (db', (DeletedCount res, None)).

(** The role names of go-utils' constants package. *)
Definition USER_ROLE_SERVICE_ACCOUNT : string := "SERVICE_ACCOUNT".
Definition USER_ROLE_RESEARCHER : string := "RESEARCHER".
Definition USER_ROLE_ADMIN : string := "ADMIN".

Definition FindNonParticipantUsers (instanceID : string) (db : UserDB)
  : list User * option dberror :=
  let filter :=
    QRoles (RolesElemMatchIn [ USER_ROLE_SERVICE_ACCOUNT;
                               USER_ROLE_RESEARCHER;
                               USER_ROLE_ADMIN ]) in
  let cur := FindQ instanceID filter db in
  (List.map Decode cur, None).

(** The filter reads the clock twice, once for each of its two bounds. *)
Definition FindInactiveUsers (now1 now2 : Z) (instanceID : string) (dT1 : Z) (db : UserDB)
  : list User * option dberror :=
  let filter :=
    QAll [ QRoles (RolesNin [ USER_ROLE_SERVICE_ACCOUNT;
                              USER_ROLE_RESEARCHER;
                              USER_ROLE_ADMIN ]);
           QFilter (FInt "timestamps.lastLogin" (QLt (sub64 now1 dT1)));
           QFilter (FInt "timestamps.lastTokenRefresh" (QLt (sub64 now2 dT1)));
           QFilter (FInt "timestamps.markedForDeletion" (QNot (QGt 0))) ] in
  let cur := FindQ instanceID filter db in
  (List.map Decode cur, None).

(** [SendReminderToConfirmAccountLoop]. The context is what [ctx.Err()]
    answers when the loop reaches a row; the callback acts on a world of
    its own (the emails it sends) and reports an error or none; the clock
    is what [time.Now().Unix()] answers to the update of a row. The cursor
    holds the documents that matched when the query ran. *)
Section ReminderLoop.
Context {W : Type}.
Variable ctxErr : nat -> option dberror.
Variable cbk : string -> User -> W -> W * option dberror.
Variable clock : nat -> Z.
Variable instanceID : string.

Fixpoint reminderRows (row : nat) (cur : list (ObjectID * User)) (db : UserDB) (w : W)
  : UserDB * W * option dberror :=
  match cur with
  | [] => (db, w, None)
  | d :: cur' =>
      match ctxErr row with
      | Some e => (db, w, Some e)
      | None =>
          let result := Decode d in
          match cbk instanceID result w with
          | (w', Some _) => reminderRows (S row) cur' db w'
          | (w', None) =>
              match UpdateReminderToConfirmSentAtTime (clock row) instanceID
                      (ID result) db with
              | (db', Some _) => reminderRows (S row) cur' db' w'
              | (db', None) => reminderRows (S row) cur' db' w'
              end
          end
      end
  end.

Definition SendReminderToConfirmAccountLoop (createdBefore : Z) (db : UserDB) (w : W)
  : UserDB * W * option dberror :=
  let filter :=
    FAnd [ FInt "account.accountConfirmedAt" (QLt 1);
           FInt "timestamps.reminderToConfirmSentAt" (QLt 1);
           FInt "timestamps.createdAt" (QLt createdBefore) ] in
  let cur := Find instanceID filter db in
  reminderRows 0 cur db w.

End ReminderLoop.

End UserDBService.


(** ** User aggregate logic (methods of [models.User]) *)

Module Models.

(** The last [n] elements of a list: the newest [n] of a list kept in
    insertion order. *)
Definition lastN {A} (n : nat) (l : list A) : list A :=
  skipn (List.length l - n) l.

(** Modelled from the spec: [User.AddRefreshToken] lives in pkg/models,
    which is not among the sources. Section 4.G: append, then retain only
    the newest 10 by insertion order. *)
Definition AddRefreshToken (token : string) (u : User) : User :=
  let l := (RefreshTokens (account u) ++ [token])%list in
  setAccount (setRefreshTokens (lastN 10 l) (account u)) u.

(** The list without the first entry equal to [t]; nothing when there is
    no such entry. *)
Fixpoint removeFirst (t : string) (l : list string) : option (list string) :=
  match l with
  | [] => None
  | x :: l' =>
      if String.eqb x t then Some l'
      else match removeFirst t l' with
           | Some r => Some (x :: r)
           | None => None
           end
  end.

(** Modelled from the spec: [User.RemoveRefreshToken] (pkg/models, not
    among the sources). Section 4.G: returns wrong-refresh-token if the
    token is not present; otherwise the slot holding it is freed. *)
Definition RemoveRefreshToken (token : string) (u : User) : result string User :=
  match removeFirst token (RefreshTokens (account u)) with
  | Some l => Ok (setAccount (setRefreshTokens l (account u)) u)
  | None => Err "wrong-refresh-token"
  end.

Definition setMain (b : bool) (p : Profile) : Profile :=
  mkProfile (pID p) (Alias p) (AvatarID p) (ConsentConfirmedAt p) b (pCreatedAt p).

Definition promoteHead (l : list Profile) : list Profile :=
  match l with
  | [] => []
  | p :: l' => setMain true p :: l'
  end.

(** Modelled from the spec: [User.AddProfile] (pkg/models, not among the
    sources). Sections 3 and 4.G: the profile gets an id of its own and
    its creation time; the main profile is the first profile created, so
    the new one is main only when the user has no main profile yet. *)
Definition AddProfile (newID : ObjectID) (now : Z) (p : Profile) (u : User) : User :=
  let p' := mkProfile newID (Alias p) (AvatarID p) (ConsentConfirmedAt p)
              (negb (existsb MainProfile (Profiles u))) now in
  setProfiles (Profiles u ++ [p'])%list u.

(** The list with the data of [p] written into the entry of the same id;
    nothing when no entry has that id. *)
Fixpoint updateProfileIn (p : Profile) (l : list Profile) : option (list Profile) :=
  match l with
  | [] => None
  | q :: l' =>
      if String.eqb (pID q) (pID p)
      then Some (mkProfile (pID q) (Alias p) (AvatarID p) (ConsentConfirmedAt p)
                   (MainProfile q) (pCreatedAt q) :: l')
      else match updateProfileIn p l' with
           | Some r => Some (q :: r)
           | None => None
           end
  end.

(** Modelled from the spec: [User.UpdateProfile] (pkg/models, not among
    the sources). Section 4.G: the profile with the given id takes the new
    data; its id and its place as main or other profile stay (main profile
    invariant); an unknown id is an error. *)
Definition UpdateProfile (p : Profile) (u : User) : result string User :=
  match updateProfileIn p (Profiles u) with
  | Some l => Ok (setProfiles l u)
  | None => Err "profile with given ID not found"
  end.

(** The list without the entry of the given id, the entry after it
    promoted when the removed one was the main profile; nothing when no
    entry has that id. *)
Fixpoint removeProfileFrom (id : string) (l : list Profile) : option (list Profile) :=
  match l with
  | [] => None
  | q :: l' =>
      if String.eqb (pID q) id
      then Some (if MainProfile q then promoteHead l' else l')
      else match removeProfileFrom id l' with
           | Some r => Some (q :: r)
           | None => None
           end
  end.

(** Modelled from the spec: [User.RemoveProfile] (pkg/models, not among
    the sources). Section 4.G: the profile list stays non-empty; removing
    the main profile promotes the next one (the first one when the main
    profile was the last of the list); an unknown id is an error. *)
Definition RemoveProfile (id : string) (u : User) : result string User :=
  if (List.length (Profiles u) <=? 1)%nat then Err "cannot remove the last profile"
  else
    match removeProfileFrom id (Profiles u) with
    | Some l =>
        Ok (setProfiles (if existsb MainProfile l then l else promoteHead l) u)
    | None => Err "profile with given ID not found"
    end.

End Models.

(** ** Access tokens (pkg/tokens) *)

Module Tokens.

Definition Second : Z := 1000000000.
Definition Minute : Z := 60 * Second.
Definition Hour : Z := 60 * Minute.

(** Modelled from the spec: [tokens.GetExpirationTime] (pkg/tokens, not
    among the sources): the unix second that lies the given validity
    period (a [time.Duration], in nanoseconds) after now. *)
Definition GetExpirationTime (now : Z) (validityPeriod : Z) : Z :=
  now + validityPeriod / Second.

(** Modelled from the spec: the payload of the claims, section 4.B:
    [payload{roles, username}]. *)
Record Payload := mkPayload { roles : list string; username : string }.

(** Modelled from the spec: the claims of section 4.B,
    [{id, instanceId, profileId, otherProfileIds, accountConfirmed,
      payload{roles, username}, tempToken?, issuedAt, expiresAt}]. *)
Record UserClaims := mkUserClaims {
  cID : string;
  cInstanceID : string;
  cProfileID : string;
  cAccountConfirmed : bool;
  cPayload : Payload;
  cTempTokenInfos : option TempToken;
  cOtherProfileIDs : list string;
  cIssuedAt : Z;
  cExpiresAt : Z
}.

(** Modelled from the spec: the signed compact encoding is kept abstract.
    A token string either verifies and decodes to the claims it was signed
    over, or it does not; the empty string is of the second kind. *)
Inductive AccessToken :=
| Unsigned (s : string)
| Signed (c : UserClaims).

Definition isEmpty (t : AccessToken) : bool :=
  match t with
  | Unsigned s => String.eqb s ""
  | Signed _ => false
  end.

Inductive tokenError :=
| ErrExpired     (* "token is expired by ..." *)
| ErrInvalid.    (* malformed or wrongly signed *)

Definition zeroClaims : UserClaims :=
  mkUserClaims "" "" "" false (mkPayload [] "") None [] 0 0.

(** Modelled from the spec: [tokens.ValidateToken]; section 4.B: returns
    [(claims, ok, err)] where [err] tells an expired token from a
    malformed or invalid one. *)
Definition ValidateToken (now : Z) (t : AccessToken)
  : UserClaims * bool * option tokenError :=
  match t with
  | Unsigned _ => (zeroClaims, false, Some ErrInvalid)
  | Signed c =>
      if cExpiresAt c <? now then (c, false, Some ErrExpired)
      else (c, true, None)
  end.

(** Modelled from the spec: [tokens.GetRolesFromPayload] and
    [tokens.GetUsernameFromPayload] read the two parts of the payload. *)
Definition GetRolesFromPayload (p : Payload) : list string := roles p.

Definition GetUsernameFromPayload (p : Payload) : string := username p.

(** Modelled from the spec: [tokens.GenerateNewToken]; section 4.B: a
    signed token over the given claims, issued now and expiring after the
    given interval. *)
Definition GenerateNewToken (now : Z)
    (userID : string) (accountConfirmed : bool) (profileID : string)
    (userRoles : list string) (instanceID : string) (experiresIn : Z)
    (uname : string) (tempTokenInfos : option TempToken)
    (otherProfileIDs : list string) : result string AccessToken :=
  Ok (Signed (mkUserClaims userID instanceID profileID accountConfirmed
                (mkPayload userRoles uname) tempTokenInfos otherProfileIDs
                now (GetExpirationTime now experiresIn))).

End Tokens.

(** ** pkg/utils *)

Module Utils.

(** The fields of [api_types.TokenInfos] the endpoints read. *)
Record TokenInfos := mkTokenInfos { tiId : string; tiInstanceId : string }.

(** Modelled from the spec: [utils.IsTokenEmpty] (pkg/utils, not among
    the sources): the caller's token infos are missing, or name no user or
    no instance. *)
Definition IsTokenEmpty (t : option TokenInfos) : bool :=
  match t with
  | None => true
  | Some t => String.eqb (tiId t) "" || String.eqb (tiInstanceId t) ""
  end.

(** Modelled from the spec: [utils.GetMainAndOtherProfiles] (pkg/utils,
    not among the sources): the id of the profile flagged main, and the
    ids of the others, in list order. *)
Definition GetMainAndOtherProfiles (u : User) : string * list string :=
  fold_left
    (fun (acc : string * list string) (p : Profile) =>
       if MainProfile p then (pID p, snd acc)
       else (fst acc, (snd acc ++ [pID p])%list))
    (Profiles u) ("", []).

End Utils.

(** ** The temp-token store (pkg/dbs/globaldb) *)

Module GlobalDBService.

(** The [temp-tokens] collection of the global database, in insertion
    order. *)
Abbreviation TempTokens := (list TempToken) (only parsing).

Definition setToken (tok : string) (t : TempToken) : TempToken :=
  mkTempToken tok (UserID t) (InstanceID t) (Purpose t) (Info t) (Expiration t).

Definition setExpiration (e : Z) (t : TempToken) : TempToken :=
  mkTempToken (Token t) (UserID t) (InstanceID t) (Purpose t) (Info t) e.

(** The documents of one user in one instance, narrowed to a purpose when
    one is given. *)
Definition forUser (instanceID userID purpose : string) (t : TempToken) : bool :=
  String.eqb (InstanceID t) instanceID && String.eqb (UserID t) userID
  && (String.eqb purpose "" || String.eqb (Purpose t) purpose).

(** Modelled from the spec: [GlobalDBService.AddTempToken] (the temp-token
    file of pkg/dbs/globaldb is not among the sources). Section 4.E:
    [Add(token) -> tokenString] generates the string with the random
    generator and stores the token under it. *)
Definition AddTempToken (generated : result string string) (t : TempToken)
    (store : TempTokens) : TempTokens * result dberror string :=
  match generated with
  | Err e => (store, Err e)
  | Ok tok => ((store ++ [setToken tok t])%list, Ok tok)
  end.

(** Modelled from the spec: [GlobalDBService.GetTempTokenForUser], section
    4.E: [GetForUser(instance, userId, purpose?)]. *)
Definition GetTempTokenForUser (instanceID userID purpose : string)
    (store : TempTokens) : result dberror (list TempToken) :=
  Ok (List.filter (forUser instanceID userID purpose) store).

(** Modelled from the spec: [GlobalDBService.DeleteAllTempTokenForUser],
    section 4.E: [DeleteAllForUser(instance, userId, purpose?)]. *)
Definition DeleteAllTempTokenForUser (instanceID userID purpose : string)
    (store : TempTokens) : TempTokens * option dberror :=
  (List.filter (fun t => negb (forUser instanceID userID purpose t)) store, None).

End GlobalDBService.

(** ** The gRPC service (pkg/grpc/service) *)

Module Service.
Import Bson UserDBService GlobalDBService Models Tokens Utils.

Inductive LogEventType := LogEventType_LOG | LogEventType_SECURITY.

Inductive LogEventName :=
| LOG_EVENT_TOKEN_REFRESH_SUCCESS
| LOG_EVENT_TOKEN_REFRESH_FAILED
| LOG_EVENT_PROFILE_SAVED
| LOG_EVENT_PROFILE_REMOVED
| LOG_EVENT_ACCOUNT_DELETED
| LOG_EVENT_PASSWORD_RESET_INITIATED.

Record LogEvent := mkLogEvent {
  leInstanceID : string;
  leUserID : string;
  leType : LogEventType;
  leName : LogEventName;
  leMsg : string
}.

Inductive EmailType := EMAIL_TYPE_ACCOUNT_DELETED | EMAIL_TYPE_PASSWORD_RESET.

Record SendEmailReq := mkSendEmailReq {
  seInstanceId : string;
  seTo : list string;
  seMessageType : EmailType;
  seContentInfos : list (string * string);
  sePreferredLanguage : string;
  seUseLowPrio : bool
}.

(** A goroutine the service started and does not wait for. *)
Inductive Goroutine :=
| CleanExpiredTemptokens (offset : Z).

(** The server with the package variable [lastTempTokenDeleteTime], the two
    stores it writes to, and what it handed to its collaborators: the audit
    events, the emails, the goroutines it started (each with the second it
    was started at). *)
Record Server := mkServer {
  userDBservice : UserDB;
  globalDBService : TempTokens;
  instanceIDs : list string;
  TokenExpiryInterval : Z;
  lastTempTokenDeleteTime : Z;
  logEvents : list LogEvent;
  sentEmails : list SendEmailReq;
  started : list (Z * Goroutine)
}.

Definition withUserDB (db : UserDB) (s : Server) : Server :=
  mkServer db (globalDBService s) (instanceIDs s) (TokenExpiryInterval s)
    (lastTempTokenDeleteTime s) (logEvents s) (sentEmails s) (started s).

Definition withGlobalDB (tt : TempTokens) (s : Server) : Server :=
  mkServer (userDBservice s) tt (instanceIDs s) (TokenExpiryInterval s)
    (lastTempTokenDeleteTime s) (logEvents s) (sentEmails s) (started s).

Definition withLastTempTokenDeleteTime (z : Z) (s : Server) : Server :=
  mkServer (userDBservice s) (globalDBService s) (instanceIDs s)
    (TokenExpiryInterval s) z (logEvents s) (sentEmails s) (started s).

Definition go (now : Z) (g : Goroutine) (s : Server) : Server :=
  mkServer (userDBservice s) (globalDBService s) (instanceIDs s)
    (TokenExpiryInterval s) (lastTempTokenDeleteTime s) (logEvents s)
    (sentEmails s) (started s ++ [(now, g)])%list.

(** Modelled from the spec: [userManagementServer.SaveLogEvent] is
    declared in a file that is not among the sources; section 6: it hands
    [{instanceId, actor, eventType, eventName, detail}] to the logging
    service. *)
Definition SaveLogEvent (instanceID userID : string) (ty : LogEventType)
    (name : LogEventName) (msg : string) (s : Server) : Server :=
  mkServer (userDBservice s) (globalDBService s) (instanceIDs s)
    (TokenExpiryInterval s) (lastTempTokenDeleteTime s)
    (logEvents s ++ [mkLogEvent instanceID userID ty name msg])%list
    (sentEmails s) (started s).

(** The messaging client's [SendInstantEmail]; the endpoints log its error
    and go on. *)
Definition SendInstantEmail (m : SendEmailReq) (s : Server) : Server :=
  mkServer (userDBservice s) (globalDBService s) (instanceIDs s)
    (TokenExpiryInterval s) (lastTempTokenDeleteTime s) (logEvents s)
    (sentEmails s ++ [m])%list (started s).

(** What one call reads from outside the server: the clock (unix seconds,
    one reading per call), the random token generator
    ([tokens.GenerateUniqueTokenString]) and [primitive.NewObjectID]. *)
Record Env := mkEnv {
  now : Z;
  GenerateUniqueTokenString : result string string;
  NewObjectID : ObjectID
}.

(** Reading through a pointer the endpoint has checked against nil. *)
Definition deref (t : option TokenInfos) : TokenInfos :=
  match t with
  | Some t => t
  | None => mkTokenInfos "" ""
  end.

Definition int32 (z : Z) : Z := (z + 2 ^ 31) mod 2 ^ 32 - 2 ^ 31.

Definition isInstanceIDAllowed (s : Server) (instanceID : string) : bool :=
  existsb (fun id => String.eqb id instanceID) (instanceIDs s).

(** *** endpoints_jwt.go *)

(** The messages of pkg/api, with the fields the endpoints read or fill. *)
Record RefreshJWTRequest := mkRefreshJWTRequest {
  rjAccessToken : AccessToken;
  rjRefreshToken : string
}.

Record TokenResponse := mkTokenResponse {
  trAccessToken : AccessToken;
  trRefreshToken : string;
  trAccountConfirmed : bool;
  trExpiresIn : Z;
  trSelectedProfileId : string;
  trProfiles : list Profile;
  trPreferredLanguage : string
}.

Definition RenewJWT (env : Env) (req : option RefreshJWTRequest) (s : Server)
  : Server * result Status TokenResponse :=
  match req with
  | None => (s, Err (mkStatus InvalidArgument "missing arguments"))
  | Some req =>
  if isEmpty (rjAccessToken req) || String.eqb (rjRefreshToken req) ""
  then (s, Err (mkStatus InvalidArgument "missing arguments"))
  else
  let '(parsedToken, _, err) := ValidateToken (now env) (rjAccessToken req) in
  match err with
  | Some ErrInvalid => (s, Err (mkStatus PermissionDenied "wrong access token"))
  | _ =>
  match GetUserByID (cInstanceID parsedToken) (cID parsedToken) (userDBservice s) with
  | Err _ => (s, Err (mkStatus Internal "user not found"))
  | Ok user =>
  match RemoveRefreshToken (rjRefreshToken req) user with
  | Err _ =>
      (SaveLogEvent (cInstanceID parsedToken) (cID parsedToken) LogEventType_SECURITY
         LOG_EVENT_TOKEN_REFRESH_FAILED "wrong refresh token, cannot renew" s,
       Err (mkStatus Internal "wrong refresh token"))
  | Ok user =>
  let user := setTimestamps (setLastTokenRefresh (now env) (timestamps user)) user in
  let roles := GetRolesFromPayload (cPayload parsedToken) in
  let username := GetUsernameFromPayload (cPayload parsedToken) in
  let '(mainProfileID, otherProfileIDs) := GetMainAndOtherProfiles user in
  match GenerateNewToken (now env) (cID parsedToken)
          (0 <? AccountConfirmedAt (account user)) mainProfileID roles
          (cInstanceID parsedToken) (TokenExpiryInterval s) username None
          otherProfileIDs with
  | Err e => (s, Err (mkStatus Internal e))
  | Ok newToken =>
  match GenerateUniqueTokenString env with
  | Err e => (s, Err (mkStatus Internal e))
  | Ok newRefreshToken =>
  let user := AddRefreshToken newRefreshToken user in
  match UpdateUser (now env) (cInstanceID parsedToken) user (userDBservice s) with
  | (db', Err e) => (withUserDB db' s, Err (mkStatus Internal e))
  | (db', Ok user) =>
  let s := SaveLogEvent (cInstanceID parsedToken) (cID parsedToken) LogEventType_LOG
             LOG_EVENT_TOKEN_REFRESH_SUCCESS "" (withUserDB db' s) in
  (s, Ok {| trAccessToken := newToken;
            trRefreshToken := newRefreshToken;
            trAccountConfirmed := 0 <? AccountConfirmedAt (account user);
            trExpiresIn := int32 (Z.quot (TokenExpiryInterval s) Minute);
            trSelectedProfileId := cProfileID parsedToken;
            trProfiles := Profiles user;
            trPreferredLanguage := PreferredLanguage (account user) |})
  end end end end end end
  end.

(** *** account_management_endpoints.go *)

Inductive ServiceStatus_Status := ServiceStatus_NORMAL.

Record ServiceStatus := mkServiceStatus {
  ssStatus : ServiceStatus_Status;
  ssMsg : string
}.

Record UserReference := mkUserReference {
  urToken : option TokenInfos;
  urUserId : string
}.

Definition DeleteAccount (env : Env) (req : option UserReference) (s : Server)
  : Server * result Status ServiceStatus :=
  match req with
  | None => (s, Err (mkStatus InvalidArgument "missing argument"))
  | Some req =>
  if IsTokenEmpty (urToken req) || String.eqb (urUserId req) ""
  then (s, Err (mkStatus InvalidArgument "missing argument"))
  else
  let token := deref (urToken req) in
  if negb (String.eqb (tiId token) (urUserId req))
  then (s, Err (mkStatus PermissionDenied "not authorized"))
  else
  match GetUserByID (tiInstanceId token) (urUserId req) (userDBservice s) with
  | Err e => (s, Err (mkStatus Internal e))
  | Ok user =>
  let s := SendInstantEmail
             {| seInstanceId := tiInstanceId token;
                seTo := [AccountID (account user)];
                seMessageType := EMAIL_TYPE_ACCOUNT_DELETED;
                seContentInfos := [];
                sePreferredLanguage := PreferredLanguage (account user);
                seUseLowPrio := true |} s in
  match DeleteUser (tiInstanceId token) (urUserId req) (userDBservice s) with
  | (db', Some e) => (withUserDB db' s, Err (mkStatus Internal e))
  | (db', None) =>
  let s := withUserDB db' s in
  (* a failure of the purge is logged and does not fail the call *)
  let '(tt', _) := DeleteAllTempTokenForUser (tiInstanceId token) (tiId token) ""
                     (globalDBService s) in
  let s := withGlobalDB tt' s in
  let s := SaveLogEvent (tiInstanceId token) (tiId token) LogEventType_LOG
             LOG_EVENT_ACCOUNT_DELETED (AccountID (account user)) s in
  (s, Ok {| ssStatus := ServiceStatus_NORMAL; ssMsg := "user deleted" |})
  end end
  end.

Record ApiProfile := mkApiProfile {
  apId : string;
  apAlias : string;
  apAvatarId : string;
  apConsentConfirmedAt : Z;
  apMainProfile : bool;
  apCreatedAt : Z
}.

Record ProfileRequest := mkProfileRequest {
  prToken : option TokenInfos;
  prProfile : option ApiProfile
}.

(** Modelled from the spec: [models.ProfileFromAPI] (pkg/models, not among
    the sources): the profile of section 3 with the fields of the message. *)
Definition ProfileFromAPI (p : ApiProfile) : Profile :=
  mkProfile (ObjectIDFromHex (apId p)) (apAlias p) (apAvatarId p)
    (apConsentConfirmedAt p) (apMainProfile p) (apCreatedAt p).

Definition derefProfile (p : option ApiProfile) : ApiProfile :=
  match p with
  | Some p => p
  | None => mkApiProfile "" "" "" 0 false 0
  end.

Section ProfileLimit.

(** The package constant [maximumProfilesAllowed] is declared in a file
    that is not among the sources. *)
Variable maximumProfilesAllowed : nat.

Definition SaveProfile (env : Env) (req : option ProfileRequest) (s : Server)
  : Server * result Status User :=
  match req with
  | None => (s, Err (mkStatus InvalidArgument "missing argument"))
  | Some req =>
  if IsTokenEmpty (prToken req) || match prProfile req with None => true | Some _ => false end
  then (s, Err (mkStatus InvalidArgument "missing argument"))
  else
  let token := deref (prToken req) in
  let profile := derefProfile (prProfile req) in
  match GetUserByID (tiInstanceId token) (tiId token) (userDBservice s) with
  | Err _ => (s, Err (mkStatus Internal "user not found"))
  | Ok user =>
  (* the statements after the if/else, shared by its two branches *)
  let save (user : User) : Server * result Status User :=
    match UpdateUser (now env) (tiInstanceId token) user (userDBservice s) with
    | (db', Err e) => (withUserDB db' s, Err (mkStatus Internal e))
    | (db', Ok updUser) =>
        let s := SaveLogEvent (tiInstanceId token) (tiId token) LogEventType_LOG
                   LOG_EVENT_PROFILE_SAVED (apAlias profile) (withUserDB db' s) in
        (s, Ok updUser)
    end in
  if String.eqb (apId profile) "" then
    if (maximumProfilesAllowed <? List.length (Profiles user))%nat
    then
      (SaveLogEvent (tiInstanceId token) (tiId token) LogEventType_SECURITY
         LOG_EVENT_PROFILE_SAVED
         (String.append "too many profiles added" (apAlias profile)) s,
       Err (mkStatus Internal "reached profile limit"))
    else save (AddProfile (NewObjectID env) (now env) (ProfileFromAPI profile) user)
  else
    match UpdateProfile (ProfileFromAPI profile) user with
    | Err _ => (s, Err (mkStatus Internal "profile not found"))
    | Ok user => save user
    end
  end
  end.

End ProfileLimit.

Definition RemoveProfile (env : Env) (req : option ProfileRequest) (s : Server)
  : Server * result Status User :=
  match req with
  | None => (s, Err (mkStatus InvalidArgument "missing argument"))
  | Some req =>
  if IsTokenEmpty (prToken req) || match prProfile req with None => true | Some _ => false end
  then (s, Err (mkStatus InvalidArgument "missing argument"))
  else
  let token := deref (prToken req) in
  let profile := derefProfile (prProfile req) in
  match GetUserByID (tiInstanceId token) (tiId token) (userDBservice s) with
  | Err _ => (s, Err (mkStatus Internal "user not found"))
  | Ok user =>
  if Nat.eqb (List.length (Profiles user)) 1
  then (s, Err (mkStatus Internal "can't delete last profile"))
  else
  match Models.RemoveProfile (apId profile) user with
  | Err e => (s, Err (mkStatus Internal e))
  | Ok user =>
  match UpdateUser (now env) (tiInstanceId token) user (userDBservice s) with
  | (db', Err e) => (withUserDB db' s, Err (mkStatus Internal e))
  | (db', Ok updUser) =>
  let s := SaveLogEvent (tiInstanceId token) (tiId token) LogEventType_LOG
             LOG_EVENT_PROFILE_REMOVED (String.append "id: " (apId profile))
             (withUserDB db' s) in
  (s, Ok updUser)
  end end end
  end.

(** *** endpoints_temptoken.go *)

Definition deleteTempTokensMinInterval : Z := 10 * 60.

Record TempTokenInfo := mkTempTokenInfo {
  tUserId : string;
  tInstanceId : string;
  tPurpose : string;
  tInfo : list (string * string);
  tExpiration : Z
}.

Record ApiTempToken := mkApiTempToken { atToken : string }.

Definition GetOrCreateTemptoken (env : Env) (t : option TempTokenInfo) (s : Server)
  : Server * result Status ApiTempToken :=
  match t with
  | None => (s, Err (mkStatus InvalidArgument "missing argument"))
  | Some t =>
  if String.eqb (tPurpose t) "" || String.eqb (tUserId t) ""
     || String.eqb (tInstanceId t) ""
  then (s, Err (mkStatus InvalidArgument "missing argument"))
  else
  (* Cleanup temptokens if this was not done recently: *)
  let now := now env in
  let s :=
    if Int64.add (lastTempTokenDeleteTime s) deleteTempTokensMinInterval <? now
    then withLastTempTokenDeleteTime now (go now (CleanExpiredTemptokens 3600) s)
    else s in
  match GetTempTokenForUser (tInstanceId t) (tUserId t) (tPurpose t)
          (globalDBService s) with
  | Err e => (s, Err (mkStatus Internal e))
  | Ok tList =>
  match tList with
  | [] =>   (* len(tList) < 1 *)
      let tempToken :=
        mkTempToken "" (tUserId t) (tInstanceId t) (tPurpose t) (tInfo t)
          (tExpiration t) in
      let tempToken :=
        if Expiration tempToken =? 0
        then setExpiration (GetExpirationTime now (Hour * 24 * 10)) tempToken
        else tempToken in
      match AddTempToken (GenerateUniqueTokenString env) tempToken
              (globalDBService s) with
      | (tt', Err e) => (withGlobalDB tt' s, Err (mkStatus Internal e))
      | (tt', Ok token) => (withGlobalDB tt' s, Ok {| atToken := token |})
      end
  | t0 :: _ => (s, Ok {| atToken := Token t0 |})
  end end
  end.

Definition GenerateTempToken (env : Env) (t : option TempTokenInfo) (s : Server)
  : Server * result Status ApiTempToken :=
  match t with
  | None => (s, Err (mkStatus InvalidArgument "missing argument"))
  | Some t =>
  if String.eqb (tPurpose t) ""
  then (s, Err (mkStatus InvalidArgument "missing argument"))
  else
  (* Cleanup temptokens if this was not done recently: *)
  let now := now env in
  let s :=
    if Int64.add (lastTempTokenDeleteTime s) deleteTempTokensMinInterval <? now
    then withLastTempTokenDeleteTime now (go now (CleanExpiredTemptokens 3600) s)
    else s in
  let tempToken :=
    mkTempToken "" (tUserId t) (tInstanceId t) (tPurpose t) (tInfo t)
      (tExpiration t) in
  let tempToken :=
    if Expiration tempToken =? 0
    then setExpiration (GetExpirationTime now (Hour * 24 * 10)) tempToken
    else tempToken in
  match AddTempToken (GenerateUniqueTokenString env) tempToken
          (globalDBService s) with
  | (tt', Err e) => (withGlobalDB tt' s, Err (mkStatus Internal e))
  | (tt', Ok token) => (withGlobalDB tt' s, Ok {| atToken := token |})
  end
  end.

(** *** Password reset *)

Record InitiateResetPasswordMsg := mkInitiateResetPasswordMsg {
  irInstanceId : string;
  irAccountId : string
}.

(** Modelled from the spec: [User.CanTriggerPasswordReset] (pkg/models, not
    among the sources). Section 4.G: true iff fewer than 5 triggers within
    the last hour. *)
Definition CanTriggerPasswordReset (now : Z) (u : User) : bool :=
  Nat.ltb
    (List.length
       (List.filter (fun t => now - 3600 <? t) (PasswordResetTriggers (account u))))
    5.

(** Modelled from the spec: [InitiatePasswordReset]; the endpoint file is
    not among the sources, only its test is. Section 4.H: if the user exists
    and [CanTriggerPasswordReset], mint a password-reset temp-token with
    15-minute lifetime, append a trigger timestamp, send the email; do not
    reveal whether the account exists, always return OK. Section 3: only
    registered instance ids are accepted. The endpoint test adds: a missing
    request or field is answered "missing argument", and the path of an
    existing account writes one audit event. *)
Definition InitiatePasswordReset (env : Env) (req : option InitiateResetPasswordMsg)
    (s : Server) : Server * result Status ServiceStatus :=
  match req with
  | None => (s, Err (mkStatus InvalidArgument "missing argument"))
  | Some req =>
  if String.eqb (irAccountId req) "" || String.eqb (irInstanceId req) ""
  then (s, Err (mkStatus InvalidArgument "missing argument"))
  else if negb (isInstanceIDAllowed s (irInstanceId req))
  then (s, Err (mkStatus InvalidArgument "invalid instance id"))
  else
  let OK := {| ssStatus := ServiceStatus_NORMAL; ssMsg := "" |} in
  match GetUserByAccountID (irInstanceId req) (irAccountId req) (userDBservice s) with
  | Err _ => (s, Ok OK)
  | Ok user =>
  if CanTriggerPasswordReset (now env) user then
    let tempTokenInfos :=
      mkTempToken "" (ID user) (irInstanceId req) "password-reset" []
        (GetExpirationTime (now env) (Minute * 15)) in
    match AddTempToken (GenerateUniqueTokenString env) tempTokenInfos
            (globalDBService s) with
    | (tt', Err _) => (withGlobalDB tt' s, Ok OK)
    | (tt', Ok token) =>
        let s := withGlobalDB tt' s in
        let '(db', _) := SavePasswordResetTrigger (now env) (irInstanceId req)
                           (ID user) (userDBservice s) in
        let s := withUserDB db' s in
        let s := SendInstantEmail
                   {| seInstanceId := irInstanceId req;
                      seTo := [AccountID (account user)];
                      seMessageType := EMAIL_TYPE_PASSWORD_RESET;
                      seContentInfos := [("token", token)];
                      sePreferredLanguage := PreferredLanguage (account user);
                      seUseLowPrio := false |} s in
        let s := SaveLogEvent (irInstanceId req) (ID user) LogEventType_LOG
                   LOG_EVENT_PASSWORD_RESET_INITIATED "" s in
        (s, Ok OK)
    end
  else (s, Ok OK)
  end
  end.

(** *** Further endpoints of endpoints_jwt.go *)

Record RevokeRefreshTokensReq := mkRevokeRefreshTokensReq {
  rrToken : option TokenInfos
}.

(** The [Version] field of the response, a package constant declared in a
    file that is not among the sources, is left out. *)
Definition RevokeAllRefreshTokens (env : Env) (req : option RevokeRefreshTokensReq)
    (s : Server) : Server * result Status ServiceStatus :=
  match req with
  | None => (s, Err (mkStatus InvalidArgument "missing arguments"))
  | Some req =>
  if IsTokenEmpty (rrToken req)
  then (s, Err (mkStatus InvalidArgument "missing arguments"))
  else
  let token := deref (rrToken req) in
  match GetUserByID (tiInstanceId token) (tiId token) (userDBservice s) with
  | Err _ => (s, Err (mkStatus Internal "user not found"))
  | Ok user =>
  let user := setAccount (setRefreshTokens [] (account user)) user in
  match UpdateUser (now env) (tiInstanceId token) user (userDBservice s) with
  | (db', Err _) => (withUserDB db' s, Err (mkStatus Internal "user not found"))
  | (db', Ok _) =>
  (withUserDB db' s,
   Ok {| ssStatus := ServiceStatus_NORMAL; ssMsg := "refresh tokens revoked" |})
  end end
  end.

(** *** Further endpoints of account_management_endpoints.go *)

(** The two endpoints answer with [user.ToAPI()]; the conversion to the
    message type is declared in pkg/models, which is not among the sources,
    and the response is kept here as the user it is applied to. *)
Definition GetUser (req : option UserReference) (s : Server)
  : Server * result Status User :=
  match req with
  | None => (s, Err (mkStatus InvalidArgument "missing argument"))
  | Some req =>
  if IsTokenEmpty (urToken req)
  then (s, Err (mkStatus InvalidArgument "missing argument"))
  else
  let token := deref (urToken req) in
  let UserId := if String.eqb (urUserId req) "" then tiId token else urUserId req in
  if negb (String.eqb (tiId token) UserId)
  then (s, Err (mkStatus PermissionDenied "not authorized"))
  else
  match GetUserByID (tiInstanceId token) UserId (userDBservice s) with
  | Err _ => (s, Err (mkStatus Internal "not found"))
  | Ok user => (s, Ok user)
  end
  end.

Record LanguageChangeMsg := mkLanguageChangeMsg {
  lcToken : option TokenInfos;
  lcLanguageCode : string
}.

Definition ChangePreferredLanguage (env : Env) (req : option LanguageChangeMsg)
    (s : Server) : Server * result Status User :=
  match req with
  | None => (s, Err (mkStatus InvalidArgument "missing argument"))
  | Some req =>
  if IsTokenEmpty (lcToken req) || String.eqb (lcLanguageCode req) ""
  then (s, Err (mkStatus InvalidArgument "missing argument"))
  else
  let token := deref (lcToken req) in
  match UpdateAccountPreferredLang (now env) (tiInstanceId token) (tiId token)
          (lcLanguageCode req) (userDBservice s) with
  | (db', Err e) => (withUserDB db' s, Err (mkStatus Internal e))
  | (db', Ok user) => (withUserDB db' s, Ok user)
  end
  end.

(** *** Further endpoints of endpoints_temptoken.go *)

Definition GetTempTokens (t : option TempTokenInfo) (s : Server)
  : Server * result Status (list TempToken) :=
  match t with
  | None => (s, Err (mkStatus InvalidArgument "missing argument"))
  | Some t =>
  if String.eqb (tUserId t) "" || String.eqb (tInstanceId t) ""
  then (s, Err (mkStatus InvalidArgument "missing argument"))
  else
  match GetTempTokenForUser (tInstanceId t) (tUserId t) (tPurpose t)
          (globalDBService s) with
  | Err e => (s, Err (mkStatus Internal e))
  | Ok tokens => (s, Ok tokens)
  end
  end.

Definition PurgeUserTempTokens (t : option TempTokenInfo) (s : Server)
  : Server * result Status ServiceStatus :=
  match t with
  | None => (s, Err (mkStatus InvalidArgument "missing argument"))
  | Some t =>
  if String.eqb (tUserId t) "" || String.eqb (tInstanceId t) ""
  then (s, Err (mkStatus InvalidArgument "missing argument"))
  else
  match DeleteAllTempTokenForUser (tInstanceId t) (tUserId t) (tPurpose t)
          (globalDBService s) with
  | (tt', Some e) => (withGlobalDB tt' s, Err (mkStatus Internal e))
  | (tt', None) =>
      (withGlobalDB tt' s,
       Ok {| ssStatus := ServiceStatus_NORMAL; ssMsg := "deleted" |})
  end
  end.

End Service.


(** ** Statements: auxiliary definitions *)

(** *** The user store *)

(** A filter that only documents with [_id = id] can match selects by key. *)
Definition pins (f : Bson.filter) (id : ObjectID) : Prop :=
  forall k u, Bson.matches f k u = true -> k = id.

Definition withMarkedForDeletion (z : Z) (u : User) : User :=
  setTimestamps (setMarkedForDeletion z (timestamps u)) u.

(** *** Token renewal *)

(** The user [RenewJWT] writes back: the refresh-token list [l] left by
    the removal, the refresh time, the new refresh token [t], and the
    update time set by [UpdateUser]. *)
Definition renewedUser (now : Z) (k : ObjectID) (l : list string) (t : string)
    (u : User) : User :=
  let user := setAccount (setRefreshTokens l (account u)) (setID k u) in
  let user := setTimestamps (setLastTokenRefresh now (timestamps user)) user in
  let user := Models.AddRefreshToken t user in
  setTimestamps (setUpdatedAt now (timestamps user)) user.

(** The claims [RenewJWT] signs for a caller who presented the claims [c],
    when the stored user is [u]. *)
Definition renewedClaims (now : Z) (interval : Z) (c : Tokens.UserClaims) (u : User)
  : Tokens.UserClaims :=
  Tokens.mkUserClaims (Tokens.cID c) (Tokens.cInstanceID c)
    (fst (Utils.GetMainAndOtherProfiles u))
    (0 <? AccountConfirmedAt (account u))
    (Tokens.mkPayload (Tokens.roles (Tokens.cPayload c))
       (Tokens.username (Tokens.cPayload c)))
    None
    (snd (Utils.GetMainAndOtherProfiles u))
    now (Tokens.GetExpirationTime now interval).

(** "The presented token's claims are carried over, except [issuedAt],
    [expiresAt] and [accountConfirmed]": what the renewed claims [c'] would
    have to share with the presented claims [c]. *)
Definition claimsCarriedOver (c c' : Tokens.UserClaims) : Prop :=
  Tokens.cID c' = Tokens.cID c
  /\ Tokens.cInstanceID c' = Tokens.cInstanceID c
  /\ Tokens.cProfileID c' = Tokens.cProfileID c
  /\ Tokens.cOtherProfileIDs c' = Tokens.cOtherProfileIDs c
  /\ Tokens.cPayload c' = Tokens.cPayload c
  /\ Tokens.cTempTokenInfos c' = Tokens.cTempTokenInfos c.

(** *** Profiles *)

(** The number of profiles flagged main. *)
Definition countMain (l : list Profile) : nat :=
  List.length (List.filter MainProfile l).

(** The profile invariant of section 3: the list is non-empty and exactly
    one profile is the main one. *)
Definition profilesOK (l : list Profile) : bool :=
  negb (Nat.eqb (List.length l) 0) && Nat.eqb (countMain l) 1.

Definition dbProfilesOK (db : UserDB) : Prop :=
  map_Forall (fun _ u => profilesOK (Profiles u) = true) db.

(** One call of a profile endpoint, with any request and environment. *)
Inductive profileStep (maximumProfilesAllowed : nat)
  : Service.Server -> Service.Server -> Prop :=
| step_SaveProfile env req s :
    profileStep maximumProfilesAllowed s
      (fst (Service.SaveProfile maximumProfilesAllowed env req s))
| step_RemoveProfile env req s :
    profileStep maximumProfilesAllowed s (fst (Service.RemoveProfile env req s)).

(** *** Temp-token endpoints *)

(** The cleanup check both temp-token endpoints start with. *)
Definition throttled (now : Z) (s : Service.Server) : Service.Server :=
  if Int64.add (Service.lastTempTokenDeleteTime s) Service.deleteTempTokensMinInterval <? now
  then Service.withLastTempTokenDeleteTime now
         (Service.go now (Service.CleanExpiredTemptokens 3600) s)
  else s.

(** What the cleanup check reads and writes. *)
Definition throttleState (s : Service.Server) : Z * list (Z * Service.Goroutine) :=
  (Service.lastTempTokenDeleteTime s, Service.started s).

Definition cleanupAt (t : Z) : Z * Service.Goroutine :=
  (t, Service.CleanExpiredTemptokens 3600).

(** Calls of the two temp-token endpoints that run the cleanup check. *)
Inductive TempTokenCall :=
| CallGenerateTempToken (env : Service.Env) (t : option Service.TempTokenInfo)
| CallGetOrCreateTemptoken (env : Service.Env) (t : option Service.TempTokenInfo).

Definition callTime (c : TempTokenCall) : Z :=
  match c with
  | CallGenerateTempToken env _ => Service.now env
  | CallGetOrCreateTemptoken env _ => Service.now env
  end.

Definition runCall (s : Service.Server) (c : TempTokenCall) : Service.Server :=
  match c with
  | CallGenerateTempToken env t => fst (Service.GenerateTempToken env t s)
  | CallGetOrCreateTemptoken env t => fst (Service.GetOrCreateTemptoken env t s)
  end.

Definition runCalls (cs : list TempTokenCall) (s : Service.Server) : Service.Server :=
  fold_left runCall cs s.

(** Each time of the list lies more than the minimum interval after the
    one before it, the first one after [last]. *)
Fixpoint spaced (last : Z) (l : list Z) : Prop :=
  match l with
  | [] => True
  | t :: l' => last + Service.deleteTempTokensMinInterval < t /\ spaced t l'
  end.

(** Clock readings for which [lastTempTokenDeleteTime + interval] stays
    within int64. *)
Definition clockOK (z : Z) : Prop :=
  Int64.min <= z <= Int64.max - Service.deleteTempTokensMinInterval.

(** The expiration the temp-token endpoints store for a request. *)
Definition storedExpiration (now : Z) (t : Service.TempTokenInfo) : Z :=
  if Service.tExpiration t =? 0 then now + 240 * 3600 else Service.tExpiration t.

(** *** Password reset *)

(** The OK response of the password-reset endpoint. *)
Definition statusOK : Service.ServiceStatus :=
  Service.mkServiceStatus Service.ServiceStatus_NORMAL "".

(** ** Sample data *)

Definition someTimestamps (marked : Z) : Timestamps :=
  mkTimestamps 1600000000 1600000000 1600000000 1600000000 0 0 marked.

Definition someUser (id : ObjectID) (marked : Z) : User :=
  mkUser id
    (mkAccount "email" "user@example.org" 1600000100 "hash" "en" ["r1"; "r2"] [] [])
    ["PARTICIPANT"]
    [mkProfile "5f00000000000000000000a1" "main" "" 0 true 1600000000]
    (someTimestamps marked).

Definition oneUserDB (id : ObjectID) (marked : Z) : UserDB :=
  {[ ("inst1", id) := someUser id marked ]}.

Definition sampleEnv (now : Z) (tok : string) : Service.Env :=
  Service.mkEnv now (Ok tok) "5f00000000000000000000b7".

(** A user with a main profile and a second profile. *)
Definition twoProfileUser : User :=
  mkUser "5f0000000000000000000001"
    (mkAccount "email" "user@example.org" 1600000100 "hash" "en" ["r1"; "r2"] [] [])
    ["PARTICIPANT"]
    [ mkProfile "5f00000000000000000000a1" "main" "" 0 true 1600000000;
      mkProfile "5f00000000000000000000a2" "child" "" 0 false 1600000500 ]
    (someTimestamps 0).

(** A user who holds six profiles. *)
Definition sixProfileUser : User :=
  setProfiles
    (Profiles twoProfileUser ++
     [ mkProfile "5f00000000000000000000a3" "p3" "" 0 false 1600000600;
       mkProfile "5f00000000000000000000a4" "p4" "" 0 false 1600000700;
       mkProfile "5f00000000000000000000a5" "p5" "" 0 false 1600000800;
       mkProfile "5f00000000000000000000a6" "p6" "" 0 false 1600000900 ])
    twoProfileUser.

Definition sampleServer (u : User) : Service.Server :=
  Service.mkServer {[ ("inst1", ID u) := u ]} [] ["inst1"] (5 * Tokens.Minute) 0 [] [] [].

(** A server that knows the instance but stores no user. *)
Definition emptyServer : Service.Server :=
  Service.mkServer ∅ [] ["inst1"] (5 * Tokens.Minute) 0 [] [] [].

(** Claims of a caller who had selected the second profile. *)
Definition secondProfileClaims : Tokens.UserClaims :=
  Tokens.mkUserClaims "5f0000000000000000000001" "inst1" "5f00000000000000000000a2"
    true (Tokens.mkPayload ["PARTICIPANT"] "") None ["5f00000000000000000000a1"]
    1700000000 1700000300.

(** The response to the sample renewal: a caller of [twoProfileUser] who
    presents [secondProfileClaims] and the refresh token "r1" at second
    1700000400, when the generator delivers "r3". *)
Definition sampleRenewResponse : Service.TokenResponse :=
  Service.mkTokenResponse
    (Tokens.Signed (renewedClaims 1700000400 (5 * Tokens.Minute) secondProfileClaims
                      twoProfileUser))
    "r3" true 5 "5f00000000000000000000a2" (Profiles twoProfileUser) "en".

Definition callerOf (u : User) : Utils.TokenInfos :=
  Utils.mkTokenInfos (ID u) "inst1".

Definition newProfile (alias : string) : Service.ApiProfile :=
  Service.mkApiProfile "" alias "" 0 false 0.

Definition sampleToken (tok user instance purpose : string) (expiration : Z) : TempToken :=
  mkTempToken tok user instance purpose [] expiration.

(** A server whose temp-token store holds two tokens of the sample user
    and one of another user. *)
Definition serverWithTokens : Service.Server :=
  Service.withGlobalDB
    [ sampleToken "t1" "5f0000000000000000000001" "inst1" "password-reset" 1700000900;
      sampleToken "t2" "5f0000000000000000000002" "inst1" "invitation" 1700000900;
      sampleToken "t3" "5f0000000000000000000001" "inst1" "contact-verification" 1700000900 ]
    (sampleServer twoProfileUser).

Definition sampleRequest (expiration : Z) : Service.TempTokenInfo :=
  Service.mkTempTokenInfo "5f0000000000000000000001" "inst1" "survey-login" [] expiration.


(** ** Further statements: auxiliary definitions *)

Section FurtherDefinitions.
Import Bson UserDBService Service.

(** Within an instance no two documents carry the same account id. *)
Definition accountsUnique (db : UserDB) : Prop :=
  forall (i : string) (k1 k2 : ObjectID) (u1 u2 : User),
    db !! (i, k1) = Some u1 -> db !! (i, k2) = Some u2 ->
    AccountID (account u1) = AccountID (account u2) -> k1 = k2.

(** Every key is an object id in the hex form of the driver, as the ids
    are that the database hands out. *)
Definition validKeys (db : UserDB) : Prop :=
  map_Forall (fun key _ => ObjectIDFromHex (snd key) = snd key) db.

(** The three roles the two role queries list. *)
Definition staffRoles : list string :=
  [USER_ROLE_SERVICE_ACCOUNT; USER_ROLE_RESEARCHER; USER_ROLE_ADMIN].

Definition hasStaffRole (u : User) : bool :=
  existsb (fun r => inList r staffRoles) (Roles u).

(** An account never confirmed and created before the given second. *)
Definition unverifiedBefore (createdBefore : Z) (u : User) : bool :=
  (AccountConfirmedAt (account u) =? 0) && (CreatedAt (timestamps u) <? createdBefore).

(** An account not confirmed, not reminded yet and created before the
    given second. *)
Definition needsReminder (createdBefore : Z) (u : User) : bool :=
  (AccountConfirmedAt (account u) <? 1)
  && (ReminderToConfirmSentAt (timestamps u) <? 1)
  && (CreatedAt (timestamps u) <? createdBefore).

(** The document with the time of the reminder written into it. *)
Definition reminded (t : Z) (u : User) : User :=
  setTimestamps (setReminderToConfirmSentAt t (timestamps u)) u.

(** The document [RevokeAllRefreshTokens] writes back for the stored
    document [v] of key [k]. *)
Definition revoked (now : Z) (k : ObjectID) (v : User) : User :=
  setTimestamps (setUpdatedAt now (timestamps v))
    (setAccount (setRefreshTokens [] (account v)) (setID k v)).

(** The document [UpdateLoginTime] leaves for the stored document [u]. *)
Definition loggedIn (now : Z) (u : User) : User :=
  setTimestamps (setMarkedForDeletion 0 (setLastLogin now (timestamps u))) u.

(** No user holds more than [n] profiles. *)
Definition dbProfilesBounded (n : nat) (db : UserDB) : Prop :=
  map_Forall (fun _ u => (List.length (Profiles u) <= n)%nat) db.

(** *** Further sample data *)

(** An account that was never confirmed. *)
Definition unverifiedUser : User :=
  mkUser "5f0000000000000000000002"
    (mkAccount "email" "new@example.org" 0 "hash" "en" [] [] [])
    ["PARTICIPANT"]
    [mkProfile "5f00000000000000000000c1" "main" "" 0 true 1650000000]
    (mkTimestamps 1650000000 1650000000 0 0 0 0 0).

(** A participant who is an administrator as well. *)
Definition staffUser : User :=
  mkUser "5f0000000000000000000003"
    (mkAccount "email" "admin@example.org" 1600000100 "hash" "en" [] [] [])
    ["PARTICIPANT"; "ADMIN"]
    [mkProfile "5f00000000000000000000d1" "main" "" 0 true 1600000000]
    (someTimestamps 0).

Definition threeUserDB : UserDB :=
  <[("inst1", ID twoProfileUser) := twoProfileUser]>
    (<[("inst1", ID unverifiedUser) := unverifiedUser]>
       (<[("inst1", ID staffUser) := staffUser]> ∅)).

(** A context that is never cancelled. *)
Definition neverCancelled (row : nat) : option dberror := None.

(** A callback that records the users it is called with. *)
Definition recordingCallback (instanceID : string) (u : User) (w : list ObjectID)
  : list ObjectID * option dberror :=
  ((w ++ [ID u])%list, None).

(** A callback that fails for every user. *)
Definition failingCallback (instanceID : string) (u : User) (w : list ObjectID)
  : list ObjectID * option dberror :=
  (w, Some "mail server unreachable").

Definition constantClock (t : Z) (row : nat) : Z := t.

End FurtherDefinitions.
(** ** Facts about the store *)

Lemma Int64_wrap_small (z : Z) : Int64.InRange z -> Int64.wrap z = z.
Proof.
  unfold Int64.InRange, Int64.min, Int64.max, Int64.wrap. intros H.
  rewrite Z.mod_small; lia.
Qed.

Lemma Int64_add_small (a b : Z) : Int64.InRange (a + b) -> Int64.add a b = a + b.
Proof. apply Int64_wrap_small. Qed.

Section StoreFacts.
Import Bson UserDBService.

Lemma elem_of_collection (instanceID : string) (db : UserDB) (k : ObjectID) (u : User) :
  (k, u) ∈ collectionRefUsers instanceID db <-> db !! (instanceID, k) = Some u.
Proof.
  unfold collectionRefUsers. rewrite list_elem_of_omap. split.
  - intros [[[i k'] u'] [Hin Hf]]. simpl in Hf.
    destruct (String.eqb i instanceID) eqn:E; [|discriminate].
    apply String.eqb_eq in E. inversion Hf; subst.
    by apply elem_of_map_to_list in Hin.
  - intros H. exists ((instanceID, k), u). split.
    + by apply elem_of_map_to_list.
    + simpl. by rewrite String.eqb_refl.
Qed.

Lemma pins_FId id : pins (FId id) id.
Proof. intros k u H. simpl in H. by apply String.eqb_eq in H. Qed.

Lemma pins_FAnd id fs : pins (FAnd (FId id :: fs)) id.
Proof.
  intros k u H. simpl in H. apply andb_prop in H as [H _].
  by apply String.eqb_eq in H.
Qed.

Lemma FindOne_pinned (instanceID : string) (f : filter) (id : ObjectID) (db : UserDB) :
  pins f id ->
  FindOne instanceID f db =
    match db !! (instanceID, id) with
    | Some u => if matches f id u then Some (id, u) else None
    | None => None
    end.
Proof.
  intros Hp. unfold FindOne.
  destruct (List.find _ _) as [[k v]|] eqn:Hf.
  - apply List.find_some in Hf as [Hin Hm]. unfold docMatches in Hm. simpl in Hm.
    pose proof (Hp _ _ Hm) as ->.
    apply list_elem_of_In, elem_of_collection in Hin. by rewrite Hin, Hm.
  - destruct (db !! (instanceID, id)) as [u|] eqn:Hl; [|done].
    apply elem_of_collection, list_elem_of_In in Hl.
    pose proof (List.find_none _ _ Hf _ Hl) as Hm. unfold docMatches in Hm.
    simpl in Hm. by rewrite Hm.
Qed.

Lemma FindOne_FId (instanceID : string) (id : ObjectID) (db : UserDB) :
  FindOne instanceID (FId id) db = (fun u => (id, u)) <$> db !! (instanceID, id).
Proof.
  rewrite (FindOne_pinned _ _ id) by apply pins_FId.
  destruct (db !! (instanceID, id)); simpl; [|done]. by rewrite String.eqb_refl.
Qed.

Lemma GetUserByID_lookup (instanceID id : string) (db : UserDB) :
  GetUserByID instanceID id db =
    match db !! (instanceID, ObjectIDFromHex id) with
    | Some u => Ok (setID (ObjectIDFromHex id) u)
    | None => Err ErrNoDocuments
    end.
Proof.
  unfold GetUserByID. rewrite FindOne_FId.
  by destruct (db !! (instanceID, ObjectIDFromHex id)).
Qed.

Lemma UpdateUser_lookup (now : Z) (instanceID : string) (user : User) (db : UserDB) :
  UpdateUser now instanceID user db =
    let user' := setTimestamps (setUpdatedAt now (timestamps user)) user in
    match db !! (instanceID, ID user) with
    | Some _ => (<[(instanceID, ID user) := user']> db, Ok user')
    | None => (db, Err ErrNoDocuments)
    end.
Proof.
  unfold UpdateUser, _updateUserInDB, FindOneAndReplace. simpl.
  rewrite FindOne_FId.
  destruct (db !! (instanceID, ID user)); simpl; [|done].
  by destruct user.
Qed.

Lemma DeleteUser_lookup (instanceID id : string) (db : UserDB) :
  DeleteUser instanceID id db =
    match db !! (instanceID, ObjectIDFromHex id) with
    | Some _ => (delete (instanceID, ObjectIDFromHex id) db, None)
    | None => (db, Some "no user found with the given id")
    end.
Proof.
  unfold DeleteUser, DeleteOne. rewrite FindOne_FId.
  by destruct (db !! (instanceID, ObjectIDFromHex id)).
Qed.

(** No document has a field at the doubled path. *)
Lemma fieldInt_doubled_prefix u :
  fieldInt "timestamps.timestamps.markedForDeletion" u = None.
Proof. reflexivity. Qed.

Lemma fieldInt_markedForDeletion u :
  fieldInt "timestamps.markedForDeletion" u = Some (MarkedForDeletion (timestamps u)).
Proof. reflexivity. Qed.

Lemma FindUsersMarkedForDeletion_nil (now : Z) (instanceID : string) (db : UserDB) :
  FindUsersMarkedForDeletion now instanceID db = ([], None).
Proof.
  unfold FindUsersMarkedForDeletion, Find.
  assert (H : forall l, List.filter
    (docMatches (FAnd [ FInt "timestamps.timestamps.markedForDeletion" (QGt 0);
                        FInt "timestamps.timestamps.markedForDeletion" (QLt now) ]))
    l = []).
  { induction l as [|d l IH]; [done|].
    cbn [List.filter]. unfold docMatches at 1. cbn [matches forallb].
    rewrite fieldInt_doubled_prefix. simpl. exact IH. }
  by rewrite H.
Qed.

End StoreFacts.

(** ** The deletion clock in the user store *)

Section MarkedForDeletion.
Import Bson UserDBService.

Lemma applyUpdate_markedForDeletion (z : Z) (u : User) :
  applyUpdate (USet "timestamps.markedForDeletion" z) u = withMarkedForDeletion z u.
Proof. reflexivity. Qed.

Lemma matches_not_marked (k : ObjectID) (u : User) :
  matches (FAnd [FId k; FInt "timestamps.markedForDeletion" (QNot (QGt 0))]) k u
  = negb (0 <? MarkedForDeletion (timestamps u)).
Proof.
  cbn [matches forallb]. rewrite String.eqb_refl, fieldInt_markedForDeletion.
  cbn [evalQ]. by rewrite andb_true_r.
Qed.

Lemma UpdateMarkedForDeletionTime_reset (now : Z) (instanceID id : string) (dT2 : Z)
    (db : UserDB) :
  UpdateMarkedForDeletionTime now instanceID id dT2 true db =
    match db !! (instanceID, ObjectIDFromHex id) with
    | Some u => (<[(instanceID, ObjectIDFromHex id) := withMarkedForDeletion 0 u]> db,
                 (true, None))
    | None => (db, (false, None))
    end.
Proof.
  unfold UpdateMarkedForDeletionTime, UpdateOne. rewrite FindOne_FId.
  by destruct (db !! (instanceID, ObjectIDFromHex id)).
Qed.

Lemma UpdateMarkedForDeletionTime_mark (now : Z) (instanceID id : string) (dT2 : Z)
    (db : UserDB) :
  UpdateMarkedForDeletionTime now instanceID id dT2 false db =
    match db !! (instanceID, ObjectIDFromHex id) with
    | Some u =>
        if 0 <? MarkedForDeletion (timestamps u) then (db, (false, None))
        else (<[(instanceID, ObjectIDFromHex id) :=
                  withMarkedForDeletion (Int64.add now dT2) u]> db, (true, None))
    | None => (db, (false, None))
    end.
Proof.
  unfold UpdateMarkedForDeletionTime, UpdateOne.
  rewrite (FindOne_pinned _ _ (ObjectIDFromHex id)) by apply pins_FAnd.
  destruct (db !! (instanceID, ObjectIDFromHex id)) as [u|]; [|done].
  rewrite matches_not_marked.
  by destruct (0 <? MarkedForDeletion (timestamps u)).
Qed.

(** C4. [UpdateMarkedForDeletionTime] on a stored user: with [reset] it
    sets [timestamps.markedForDeletion] to 0 whatever the value was and
    reports true; without [reset] it sets it to [now + dT2] (Go's int64
    sum, the plain sum whenever that fits) and reports true when the stored
    value is not greater than 0, and leaves the store as it is and reports
    false when it is greater than 0. So once a mark greater than 0 is
    stored, a further call without [reset] changes nothing and reports
    false. *)
Theorem UpdateMarkedForDeletionTime_spec
    (now : Z) (instanceID id : string) (dT2 : Z) (db : UserDB) (u : User) :
  db !! (instanceID, ObjectIDFromHex id) = Some u ->
  let key := (instanceID, ObjectIDFromHex id) in
  let marked := <[key := withMarkedForDeletion (Int64.add now dT2) u]> db in
  UpdateMarkedForDeletionTime now instanceID id dT2 true db
    = (<[key := withMarkedForDeletion 0 u]> db, (true, None))
  /\ (~ MarkedForDeletion (timestamps u) > 0 ->
      UpdateMarkedForDeletionTime now instanceID id dT2 false db
        = (marked, (true, None)))
  /\ (MarkedForDeletion (timestamps u) > 0 ->
      UpdateMarkedForDeletionTime now instanceID id dT2 false db
        = (db, (false, None)))
  /\ (Int64.InRange (now + dT2) -> Int64.add now dT2 = now + dT2)
  /\ (Int64.add now dT2 > 0 ->
      forall now' dT2',
        UpdateMarkedForDeletionTime now' instanceID id dT2' false marked
          = (marked, (false, None))).
Proof.
  intros Hu key marked. repeat split.
  - rewrite UpdateMarkedForDeletionTime_reset. by rewrite Hu.
  - intros Hn. rewrite UpdateMarkedForDeletionTime_mark, Hu.
    destruct (0 <? MarkedForDeletion (timestamps u)) eqn:E; [|done].
    apply Z.ltb_lt in E. lia.
  - intros Hp. rewrite UpdateMarkedForDeletionTime_mark, Hu.
    destruct (0 <? MarkedForDeletion (timestamps u)) eqn:E; [done|].
    apply Z.ltb_ge in E. lia.
  - apply Int64_add_small.
  - intros Hp now' dT2'. rewrite UpdateMarkedForDeletionTime_mark.
    subst marked key. rewrite lookup_insert_eq. simpl.
    destruct (0 <? Int64.add now dT2) eqn:E; [done|].
    apply Z.ltb_ge in E. lia.
Qed.

Lemma UpdateMarkedForDeletionTime_spec_witness :
  let db := oneUserDB "5f0000000000000000000001" 0 in
  let u := someUser "5f0000000000000000000001" 0 in
  let marked := <[("inst1", "5f0000000000000000000001") :=
                    withMarkedForDeletion 1700000100 u]> db in
  UpdateMarkedForDeletionTime 1700000000 "inst1" "5f0000000000000000000001" 100 false db
    = (marked, (true, None))
  /\ UpdateMarkedForDeletionTime 1700000050 "inst1" "5f0000000000000000000001" 100 false
       marked = (marked, (false, None)).
Proof.
  intros db u marked.
  assert (Hu : db !! ("inst1", ObjectIDFromHex "5f0000000000000000000001") = Some u)
    by reflexivity.
  destruct (UpdateMarkedForDeletionTime_spec 1700000000 "inst1"
              "5f0000000000000000000001" 100 db u Hu) as (_ & Hmark & _ & _ & Hagain).
  split.
  - apply Hmark. vm_compute. discriminate.
  - apply (Hagain ltac:(reflexivity) 1700000050 100).
Defined.

(** C3. [FindUsersMarkedForDeletion] filters on the path
    [timestamps.timestamps.markedForDeletion], at which no user document
    has a field, so it returns no user for any store and any time; the user
    below, stored with [0 < markedForDeletion < now], is not returned. *)
Theorem FindUsersMarkedForDeletion_misses_marked_user :
  (forall (now : Z) (instanceID : string) (db : UserDB),
     FindUsersMarkedForDeletion now instanceID db = ([], None))
  /\ oneUserDB "5f0000000000000000000001" 5 !! ("inst1", "5f0000000000000000000001")
       = Some (someUser "5f0000000000000000000001" 5)
  /\ 0 < MarkedForDeletion (timestamps (someUser "5f0000000000000000000001" 5)) < 10
  /\ FindUsersMarkedForDeletion 10 "inst1" (oneUserDB "5f0000000000000000000001" 5)
       = ([], None).
Proof.
  split; [apply FindUsersMarkedForDeletion_nil|].
  split; [reflexivity|]. split; [simpl; lia|]. apply FindUsersMarkedForDeletion_nil.
Qed.

(** The same query on the path the other store methods and the index use
    does return that user. *)
Lemma Find_by_schema_path_returns_marked_user :
  List.map Decode
    (Find "inst1"
       (FAnd [ FInt "timestamps.markedForDeletion" (QGt 0);
               FInt "timestamps.markedForDeletion" (QLt 10) ])
       (oneUserDB "5f0000000000000000000001" 5))
  = [someUser "5f0000000000000000000001" 5].
Proof. vm_compute. reflexivity. Qed.

End MarkedForDeletion.

(** ** Token renewal *)

Section Renewal.
Import Bson UserDBService GlobalDBService Models Tokens Utils Service.

Lemma removeFirst_None (t : string) (l : list string) :
  removeFirst t l = None <-> t ∉ l.
Proof.
  induction l as [|x l IH]; simpl.
  - split; [intros _; apply not_elem_of_nil | done].
  - destruct (String.eqb x t) eqn:E.
    + apply String.eqb_eq in E as ->. split; [done|]. intros H. destruct H. left.
    + apply String.eqb_neq in E. rewrite not_elem_of_cons.
      destruct (removeFirst t l); split; try done.
      * intros [_ H]. by apply IH in H.
      * intros _. split; [congruence | by apply IH].
Qed.

Lemma removeFirst_Some (t : string) (l l' : list string) :
  removeFirst t l = Some l' -> NoDup l ->
  (t ∈ l) /\ (t ∉ l') /\ (forall x, x ∈ l' -> x ∈ l).
Proof.
  revert l'. induction l as [|x l IH]; simpl; intros l' H Hnd; [done|].
  apply NoDup_cons in Hnd as [Hx Hnd].
  destruct (String.eqb x t) eqn:E.
  - apply String.eqb_eq in E as ->. inversion H; subst.
    split; [left|]. split; [done|]. intros y Hy. by right.
  - apply String.eqb_neq in E.
    destruct (removeFirst t l) as [r|] eqn:Hr; [|done]. inversion H; subst.
    destruct (IH r eq_refl Hnd) as (Hin & Hout & Hsub).
    split; [by right|]. split.
    + rewrite not_elem_of_cons. split; [congruence | done].
    + intros y Hy. apply elem_of_cons in Hy as [->|Hy]; [left | right; auto].
Qed.

Lemma elem_of_lastN {A} (n : nat) (l : list A) (x : A) :
  x ∈ lastN n l -> x ∈ l.
Proof.
  unfold lastN. intros H.
  rewrite <- (firstn_skipn (List.length l - n) l). apply elem_of_app. by right.
Qed.

Lemma lastN_snoc {A} (n : nat) (l : list A) (x : A) :
  (0 < n)%nat -> x ∈ lastN n (l ++ [x]).
Proof.
  unfold lastN. intros Hn. rewrite List.length_app. simpl.
  rewrite List.skipn_app.
  replace (List.length l + 1 - n - List.length l)%nat with 0%nat by lia.
  simpl. apply elem_of_app. right. left.
Qed.

Lemma GetMainAndOtherProfiles_Profiles (u v : User) :
  Profiles u = Profiles v -> GetMainAndOtherProfiles u = GetMainAndOtherProfiles v.
Proof. unfold GetMainAndOtherProfiles. by intros ->. Qed.

(** [RenewJWT] on a signed access token of a stored user. *)
Lemma RenewJWT_signed (env : Env) (c : UserClaims) (r : string) (s : Server) (u : User) :
  r <> "" ->
  userDBservice s !! (cInstanceID c, ObjectIDFromHex (cID c)) = Some u ->
  RenewJWT env (Some (mkRefreshJWTRequest (Signed c) r)) s =
    match removeFirst r (RefreshTokens (account u)) with
    | None =>
        (SaveLogEvent (cInstanceID c) (cID c) LogEventType_SECURITY
           LOG_EVENT_TOKEN_REFRESH_FAILED "wrong refresh token, cannot renew" s,
         Err (mkStatus Internal "wrong refresh token"))
    | Some l =>
        match GenerateUniqueTokenString env with
        | Err e => (s, Err (mkStatus Internal e))
        | Ok t =>
            (SaveLogEvent (cInstanceID c) (cID c) LogEventType_LOG
               LOG_EVENT_TOKEN_REFRESH_SUCCESS ""
               (withUserDB
                  (<[(cInstanceID c, ObjectIDFromHex (cID c)) :=
                       renewedUser (now env) (ObjectIDFromHex (cID c)) l t u]>
                     (userDBservice s)) s),
             Ok (mkTokenResponse
                   (Signed (renewedClaims (now env) (TokenExpiryInterval s) c u))
                   t (0 <? AccountConfirmedAt (account u))
                   (int32 (Z.quot (TokenExpiryInterval s) Minute))
                   (cProfileID c) (Profiles u) (PreferredLanguage (account u))))
        end
    end.
Proof.
  intros Hr Hu. unfold RenewJWT. cbn [isEmpty rjAccessToken rjRefreshToken orb].
  apply String.eqb_neq in Hr. rewrite Hr.
  assert (Hv : exists b e,
             ValidateToken (now env) (Signed c) = (c, b, e) /\ e <> Some ErrInvalid).
  { unfold ValidateToken. destruct (cExpiresAt c <? now env); eauto. }
  destruct Hv as (b & e & -> & He).
  assert (Hgo : forall (X : Type) (x y : X),
             match e with Some ErrInvalid => x | _ => y end = y).
  { intros. destruct e as [[]|]; congruence. }
  rewrite Hgo. clear Hgo.
  rewrite GetUserByID_lookup, Hu. unfold RemoveRefreshToken.
  cbn [account setID RefreshTokens].
  destruct (removeFirst r (RefreshTokens (account u))) as [l|]; [|done].
  destruct (GetMainAndOtherProfiles _) as [mainProfileID otherProfileIDs] eqn:Hm.
  unfold GenerateNewToken.
  destruct (GenerateUniqueTokenString env) as [t|e']; [|done].
  rewrite UpdateUser_lookup. cbn zeta.
  rewrite (GetMainAndOtherProfiles_Profiles _ u) in Hm by reflexivity.
  unfold renewedClaims, renewedUser. rewrite Hm.
  cbn [ID AddRefreshToken setAccount setTimestamps setID fst snd].
  rewrite Hu. reflexivity.
Qed.

(** What a successful [RenewJWT] call tells about its input. *)
Lemma RenewJWT_success_inv (env : Env) (a : AccessToken) (r : string)
    (s s' : Server) (resp : TokenResponse) :
  RenewJWT env (Some (mkRefreshJWTRequest a r)) s = (s', Ok resp) ->
  exists c u l t,
    a = Signed c /\ r <> ""
    /\ userDBservice s !! (cInstanceID c, ObjectIDFromHex (cID c)) = Some u
    /\ removeFirst r (RefreshTokens (account u)) = Some l
    /\ GenerateUniqueTokenString env = Ok t
    /\ userDBservice s' =
         <[(cInstanceID c, ObjectIDFromHex (cID c)) :=
             renewedUser (now env) (ObjectIDFromHex (cID c)) l t u]> (userDBservice s)
    /\ resp = mkTokenResponse
                (Signed (renewedClaims (now env) (TokenExpiryInterval s) c u))
                t (0 <? AccountConfirmedAt (account u))
                (int32 (Z.quot (TokenExpiryInterval s) Minute))
                (cProfileID c) (Profiles u) (PreferredLanguage (account u)).
Proof.
  intros H. destruct a as [x|c].
  - unfold RenewJWT in H. cbn [isEmpty rjAccessToken rjRefreshToken] in H.
    destruct (String.eqb x "" || String.eqb r "")%bool; [discriminate|].
    simpl in H. discriminate.
  - destruct (String.eqb r "") eqn:Hr.
    { unfold RenewJWT in H. cbn [isEmpty rjAccessToken rjRefreshToken orb] in H.
      rewrite Hr in H. discriminate. }
    apply String.eqb_neq in Hr.
    destruct (userDBservice s !! (cInstanceID c, ObjectIDFromHex (cID c))) as [u|] eqn:Hu.
    + rewrite (RenewJWT_signed env c r s u Hr Hu) in H.
      destruct (removeFirst r (RefreshTokens (account u))) as [l|] eqn:Hl; [|discriminate].
      destruct (GenerateUniqueTokenString env) as [t|e] eqn:Ht; [|discriminate].
      inversion H; subst. exists c, u, l, t. by repeat split.
    + unfold RenewJWT in H. cbn [isEmpty rjAccessToken rjRefreshToken orb] in H.
      apply String.eqb_neq in Hr. rewrite Hr in H.
      unfold ValidateToken in H.
      destruct (cExpiresAt c <? now env);
        rewrite GetUserByID_lookup, Hu in H; discriminate.
Qed.

(** C1. For a stored user whose refresh tokens (pairwise distinct) contain
    [r], [RenewJWT] presenting [r] with a signed access token of that user
    succeeds when the generator delivers a token [t] not yet on the list;
    the stored list then no longer contains [r] and contains [t]. A second
    [RenewJWT] with the same access token and the same [r] fails with
    "wrong refresh token" and leaves the user store as it is. *)
Theorem RenewJWT_rotates_refresh_token
    (env env2 : Env) (c : UserClaims) (r t : string) (s : Server) (u : User) :
  let key := (cInstanceID c, ObjectIDFromHex (cID c)) in
  let req := Some (mkRefreshJWTRequest (Signed c) r) in
  userDBservice s !! key = Some u ->
  r <> "" ->
  r ∈ RefreshTokens (account u) ->
  NoDup (RefreshTokens (account u)) ->
  GenerateUniqueTokenString env = Ok t ->
  t ∉ RefreshTokens (account u) ->
  exists s' resp u',
    RenewJWT env req s = (s', Ok resp)
    /\ trRefreshToken resp = t
    /\ userDBservice s' !! key = Some u'
    /\ (r ∉ RefreshTokens (account u'))
    /\ (t ∈ RefreshTokens (account u'))
    /\ exists s'',
         RenewJWT env2 req s' = (s'', Err (mkStatus Internal "wrong refresh token"))
         /\ userDBservice s'' = userDBservice s'.
Proof.
  intros key req Hu Hr Hin Hnd Ht Hfresh. subst req.
  rewrite (RenewJWT_signed env c r s u Hr Hu).
  destruct (removeFirst r (RefreshTokens (account u))) as [l|] eqn:Hl.
  2: { apply removeFirst_None in Hl. contradiction. }
  rewrite Ht.
  destruct (removeFirst_Some _ _ _ Hl Hnd) as (_ & Hout & Hsub).
  set (u' := renewedUser (now env) (ObjectIDFromHex (cID c)) l t u).
  assert (Htok : RefreshTokens (account u') = lastN 10 (l ++ [t])) by reflexivity.
  assert (Hr' : r ∉ RefreshTokens (account u')).
  { rewrite Htok. intros H%elem_of_lastN. apply elem_of_app in H as [H|H].
    - contradiction.
    - apply list_elem_of_singleton in H. subst. contradiction. }
  set (s1 := SaveLogEvent (cInstanceID c) (cID c) LogEventType_LOG
               LOG_EVENT_TOKEN_REFRESH_SUCCESS ""
               (withUserDB (<[key := u']> (userDBservice s)) s)).
  assert (Hs1 : userDBservice s1 !! key = Some u') by apply lookup_insert_eq.
  exists s1. eexists. exists u'. split; [reflexivity|]. split; [reflexivity|].
  split; [exact Hs1|]. split; [exact Hr'|].
  split; [rewrite Htok; apply lastN_snoc; lia|].
  eexists. split.
  - rewrite (RenewJWT_signed env2 c r s1 u' Hr Hs1).
    apply removeFirst_None in Hr'. rewrite Hr'. reflexivity.
  - reflexivity.
Qed.

Lemma RenewJWT_rotates_refresh_token_witness :
  exists s' resp u',
    RenewJWT (sampleEnv 1700000400 "r3")
      (Some (mkRefreshJWTRequest (Signed secondProfileClaims) "r1"))
      (sampleServer twoProfileUser) = (s', Ok resp)
    /\ trRefreshToken resp = "r3"
    /\ userDBservice s' !! ("inst1", "5f0000000000000000000001") = Some u'
    /\ ("r1" ∉ RefreshTokens (account u'))
    /\ ("r3" ∈ RefreshTokens (account u'))
    /\ exists s'',
         RenewJWT (sampleEnv 1700000460 "r4")
           (Some (mkRefreshJWTRequest (Signed secondProfileClaims) "r1")) s'
         = (s'', Err (mkStatus Internal "wrong refresh token"))
         /\ userDBservice s'' = userDBservice s'.
Proof.
  apply (RenewJWT_rotates_refresh_token (sampleEnv 1700000400 "r3")
           (sampleEnv 1700000460 "r4") secondProfileClaims "r1" "r3"
           (sampleServer twoProfileUser) twoProfileUser).
  - reflexivity.
  - discriminate.
  - apply (bool_decide_unpack _). vm_compute. reflexivity.
  - apply (bool_decide_unpack _). vm_compute. reflexivity.
  - reflexivity.
  - apply (bool_decide_unpack _). vm_compute. reflexivity.
Defined.

(** C2, as the code has it. After every successful [RenewJWT] the new
    access token carries the presented token's [id], [instanceId], roles
    and username; its [profileId] and [otherProfileIds] are the main
    profile and the other profiles of the stored user, it carries no
    temp-token, [accountConfirmed] is read from the stored user, and it is
    issued now and expires after the configured interval. *)
Theorem RenewJWT_new_claims
    (env : Env) (a : AccessToken) (r : string) (s s' : Server) (resp : TokenResponse) :
  RenewJWT env (Some (mkRefreshJWTRequest a r)) s = (s', Ok resp) ->
  exists c c' u,
    a = Signed c /\ trAccessToken resp = Signed c'
    /\ userDBservice s !! (cInstanceID c, ObjectIDFromHex (cID c)) = Some u
    /\ cID c' = cID c
    /\ cInstanceID c' = cInstanceID c
    /\ roles (cPayload c') = roles (cPayload c)
    /\ username (cPayload c') = username (cPayload c)
    /\ cProfileID c' = fst (GetMainAndOtherProfiles u)
    /\ cOtherProfileIDs c' = snd (GetMainAndOtherProfiles u)
    /\ cTempTokenInfos c' = None
    /\ cAccountConfirmed c' = (0 <? AccountConfirmedAt (account u))
    /\ cIssuedAt c' = now env
    /\ cExpiresAt c' = GetExpirationTime (now env) (TokenExpiryInterval s)
    /\ trSelectedProfileId resp = cProfileID c.
Proof.
  intros H.
  destruct (RenewJWT_success_inv _ _ _ _ _ _ H)
    as (c & u & l & t & -> & _ & Hu & _ & _ & _ & ->).
  exists c, (renewedClaims (now env) (TokenExpiryInterval s) c u), u.
  by repeat split.
Qed.

Lemma RenewJWT_new_claims_witness :
  exists c c' u,
    Signed secondProfileClaims = Signed c
    /\ trAccessToken sampleRenewResponse = Signed c'
    /\ userDBservice (sampleServer twoProfileUser)
         !! (cInstanceID c, ObjectIDFromHex (cID c)) = Some u
    /\ cID c' = cID c
    /\ cInstanceID c' = cInstanceID c
    /\ roles (cPayload c') = roles (cPayload c)
    /\ username (cPayload c') = username (cPayload c)
    /\ cProfileID c' = fst (GetMainAndOtherProfiles u)
    /\ cOtherProfileIDs c' = snd (GetMainAndOtherProfiles u)
    /\ cTempTokenInfos c' = None
    /\ cAccountConfirmed c' = (0 <? AccountConfirmedAt (account u))
    /\ cIssuedAt c' = now (sampleEnv 1700000400 "r3")
    /\ cExpiresAt c' =
         GetExpirationTime (now (sampleEnv 1700000400 "r3"))
           (TokenExpiryInterval (sampleServer twoProfileUser))
    /\ trSelectedProfileId sampleRenewResponse = cProfileID c.
Proof.
  eapply (RenewJWT_new_claims (sampleEnv 1700000400 "r3") (Signed secondProfileClaims)
            "r1" (sampleServer twoProfileUser)).
  vm_compute. reflexivity.
Defined.

(** C2 as stated fails: a caller who presents a token for the second
    profile gets, from a successful call, a token for the main profile. *)
Lemma RenewJWT_does_not_carry_profileId :
  exists s' resp c',
    RenewJWT (sampleEnv 1700000400 "r3")
      (Some (mkRefreshJWTRequest (Signed secondProfileClaims) "r1"))
      (sampleServer twoProfileUser) = (s', Ok resp)
    /\ trAccessToken resp = Signed c'
    /\ cProfileID secondProfileClaims = "5f00000000000000000000a2"
    /\ cProfileID c' = "5f00000000000000000000a1"
    /\ ~ claimsCarriedOver secondProfileClaims c'.
Proof.
  eexists _, _, _. split; [vm_compute; reflexivity|].
  split; [reflexivity|]. split; [reflexivity|]. split; [reflexivity|].
  intros (_ & _ & H & _). vm_compute in H. discriminate.
Qed.

End Renewal.

(** ** Profiles *)

Section Profiles.
Import Bson UserDBService GlobalDBService Models Tokens Utils Service.

Lemma countMain_app (l1 l2 : list Profile) :
  countMain (l1 ++ l2) = (countMain l1 + countMain l2)%nat.
Proof. unfold countMain. by rewrite List.filter_app, List.length_app. Qed.

Lemma existsb_countMain (l : list Profile) :
  existsb MainProfile l = negb (Nat.eqb (countMain l) 0).
Proof.
  induction l as [|p l IH]; [done|]. unfold countMain in *. simpl.
  destruct (MainProfile p); simpl; [done | exact IH].
Qed.

Lemma profilesOK_spec (l : list Profile) :
  profilesOK l = true <-> l <> [] /\ countMain l = 1%nat.
Proof.
  unfold profilesOK. rewrite andb_true_iff, negb_true_iff, Nat.eqb_neq, Nat.eqb_eq.
  split; intros [H1 H2]; split; try done.
  - intros ->. by apply H1.
  - destruct l; [done | simpl; lia].
Qed.

Lemma AddProfile_ok (newID : ObjectID) (now : Z) (p : Profile) (u : User) :
  profilesOK (Profiles u) = true ->
  profilesOK (Profiles (AddProfile newID now p u)) = true.
Proof.
  rewrite !profilesOK_spec. intros [Hne Hc]. unfold AddProfile. simpl. split.
  - by destruct (Profiles u).
  - rewrite countMain_app, existsb_countMain, Hc. simpl. unfold countMain. simpl. lia.
Qed.

Lemma updateProfileIn_ok (p : Profile) (l l' : list Profile) :
  updateProfileIn p l = Some l' ->
  List.length l' = List.length l /\ countMain l' = countMain l.
Proof.
  revert l'. induction l as [|q l IH]; intros l' H; simpl in H; [done|].
  destruct (String.eqb (pID q) (pID p)).
  - inversion H; subst. unfold countMain. simpl. by destruct (MainProfile q).
  - destruct (updateProfileIn p l) as [r|]; [|done]. inversion H; subst.
    destruct (IH r eq_refl) as [H1 H2]. unfold countMain in *. simpl.
    destruct (MainProfile q); simpl; lia.
Qed.

Lemma UpdateProfile_ok (p : Profile) (u u' : User) :
  UpdateProfile p u = Ok u' ->
  profilesOK (Profiles u) = true -> profilesOK (Profiles u') = true.
Proof.
  unfold UpdateProfile. destruct (updateProfileIn p (Profiles u)) as [l|] eqn:H; [|done].
  intros [= <-]. apply updateProfileIn_ok in H as [H1 H2].
  unfold profilesOK. simpl. by rewrite H1, H2.
Qed.

Lemma countMain_promoteHead (l : list Profile) :
  l <> [] -> countMain l = 0%nat -> countMain (promoteHead l) = 1%nat.
Proof.
  destruct l as [|p l]; [done|]. intros _. unfold countMain. simpl.
  destruct (MainProfile p); simpl; [done | lia].
Qed.

Lemma countMain_promoteHead_le (l : list Profile) :
  countMain l = 0%nat -> (countMain (promoteHead l) <= 1)%nat.
Proof.
  destruct l as [|p l]; [simpl; lia|]. unfold countMain. simpl.
  destruct (MainProfile p); simpl; lia.
Qed.

Lemma removeProfileFrom_ok (id : string) (l l' : list Profile) :
  removeProfileFrom id l = Some l' ->
  (countMain l <= 1)%nat ->
  S (List.length l') = List.length l
  /\ (countMain l' <= 1)%nat
  /\ (countMain l = 0%nat -> countMain l' = 0%nat).
Proof.
  revert l'. induction l as [|q l IH]; intros l' H Hc; simpl in H; [done|].
  destruct (String.eqb (pID q) id).
  - inversion H; subst. unfold countMain in *. simpl in *.
    destruct (MainProfile q) eqn:Hq; simpl in *.
    + split; [by destruct l|]. split; [|lia].
      apply countMain_promoteHead_le. unfold countMain. lia.
    + split; [done|]. split; [lia | done].
  - destruct (removeProfileFrom id l) as [r|]; [|done]. inversion H; subst.
    unfold countMain in *. simpl in *.
    destruct (MainProfile q) eqn:Hq; simpl in *.
    + destruct (IH r eq_refl ltac:(lia)) as (H1 & H2 & H3).
      split; [lia|]. split; [|lia]. rewrite H3; lia.
    + destruct (IH r eq_refl Hc) as (H1 & H2 & H3). split; [lia|]. split; [lia | done].
Qed.

Lemma RemoveProfile_ok (id : string) (u u' : User) :
  Models.RemoveProfile id u = Ok u' ->
  profilesOK (Profiles u) = true -> profilesOK (Profiles u') = true.
Proof.
  unfold Models.RemoveProfile.
  destruct (List.length (Profiles u) <=? 1)%nat eqn:Hlen; [done|].
  apply Nat.leb_gt in Hlen.
  destruct (removeProfileFrom id (Profiles u)) as [l|] eqn:H; [|done].
  intros [= <-]. rewrite !profilesOK_spec. intros [_ Hc]. simpl.
  destruct (removeProfileFrom_ok _ _ _ H ltac:(lia)) as (H1 & H2 & _).
  assert (Hl : l <> []) by (intros ->; simpl in H1; lia).
  rewrite existsb_countMain.
  destruct (Nat.eqb (countMain l) 0) eqn:E; simpl.
  - apply Nat.eqb_eq in E. split; [by destruct l|]. by apply countMain_promoteHead.
  - apply Nat.eqb_neq in E. split; [done | lia].
Qed.

Lemma save_preserves (now : Z) (instanceID : string) (user : User) (alias : string)
    (tid : string) (s : Server) :
  dbProfilesOK (userDBservice s) ->
  profilesOK (Profiles user) = true ->
  dbProfilesOK (userDBservice (fst
    match UpdateUser now instanceID user (userDBservice s) with
    | (db', Err e) => (withUserDB db' s, Err (mkStatus Internal e))
    | (db', Ok updUser) =>
        (SaveLogEvent instanceID tid LogEventType_LOG LOG_EVENT_PROFILE_SAVED alias
           (withUserDB db' s), Ok updUser)
    end)).
Proof.
  intros Hdb Hu. rewrite UpdateUser_lookup. cbn zeta.
  destruct (userDBservice s !! (instanceID, ID user)); simpl; [|done].
  unfold dbProfilesOK. apply map_Forall_insert_2; [|done]. exact Hu.
Qed.

Lemma SaveProfile_preserves (maximumProfilesAllowed : nat) (env : Env) (req : option ProfileRequest)
    (s : Server) :
  dbProfilesOK (userDBservice s) ->
  dbProfilesOK (userDBservice (fst (SaveProfile maximumProfilesAllowed env req s))).
Proof.
  intros Hdb. unfold SaveProfile. destruct req as [req|]; [|done].
  destruct (IsTokenEmpty (prToken req) || _)%bool; [done|].
  rewrite GetUserByID_lookup.
  destruct (userDBservice s !! (tiInstanceId (deref (prToken req)),
                                ObjectIDFromHex (tiId (deref (prToken req)))))
    as [u|] eqn:Hu; [|done].
  pose proof (Hdb _ _ Hu) as Hok. cbn beta in Hok.
  destruct (String.eqb (apId _) "").
  - destruct (maximumProfilesAllowed <? _)%nat; [done|].
    apply save_preserves; [done|]. by apply AddProfile_ok.
  - destruct (UpdateProfile _ _) as [u'|] eqn:Hup; [|done].
    apply save_preserves; [done|]. by apply (UpdateProfile_ok _ _ _ Hup).
Qed.

Lemma RemoveProfile_preserves (env : Env) (req : option ProfileRequest) (s : Server) :
  dbProfilesOK (userDBservice s) ->
  dbProfilesOK (userDBservice (fst (Service.RemoveProfile env req s))).
Proof.
  intros Hdb. unfold Service.RemoveProfile. destruct req as [req|]; [|done].
  destruct (IsTokenEmpty (prToken req) || _)%bool; [done|].
  rewrite GetUserByID_lookup.
  destruct (userDBservice s !! (tiInstanceId (deref (prToken req)),
                                ObjectIDFromHex (tiId (deref (prToken req)))))
    as [u|] eqn:Hu; [|done].
  pose proof (Hdb _ _ Hu) as Hok. cbn beta in Hok.
  destruct (Nat.eqb _ 1); [done|].
  destruct (Models.RemoveProfile _ _) as [u'|] eqn:Hrm; [|done].
  apply (RemoveProfile_ok _ _ _ Hrm) in Hok.
  rewrite UpdateUser_lookup. cbn zeta.
  destruct (userDBservice s !! (_, ID u')); simpl; [|done].
  unfold dbProfilesOK. by apply map_Forall_insert_2.
Qed.

Lemma profileStep_preserves (maximumProfilesAllowed : nat) (s s' : Server) :
  profileStep maximumProfilesAllowed s s' ->
  dbProfilesOK (userDBservice s) -> dbProfilesOK (userDBservice s').
Proof.
  intros [env req s0|env req s0].
  - apply SaveProfile_preserves.
  - apply RemoveProfile_preserves.
Qed.

Lemma RemoveProfile_last (env : Env) (tok : TokenInfos) (p : ApiProfile)
    (s : Server) (u : User) :
  IsTokenEmpty (Some tok) = false ->
  userDBservice s !! (tiInstanceId tok, ObjectIDFromHex (tiId tok)) = Some u ->
  List.length (Profiles u) = 1%nat ->
  Service.RemoveProfile env (Some (mkProfileRequest (Some tok) (Some p))) s
    = (s, Err (mkStatus Internal "can't delete last profile")).
Proof.
  intros Ht Hu Hlen. unfold Service.RemoveProfile.
  cbn [prToken prProfile]. rewrite Ht. cbn [orb deref derefProfile].
  rewrite GetUserByID_lookup, Hu. cbn [Profiles setID]. by rewrite Hlen.
Qed.

(** C5. Starting from a store in which every user has a non-empty profile
    list with exactly one main profile, every store reached by calls of
    [SaveProfile] (adding or updating) and [RemoveProfile] has that property
    again; and [RemoveProfile] for a user with a single profile fails with
    "can't delete last profile" and changes nothing. *)
Theorem profile_invariant (maximumProfilesAllowed : nat) (s s' : Server) :
  dbProfilesOK (userDBservice s) ->
  rtc (profileStep maximumProfilesAllowed) s s' ->
  dbProfilesOK (userDBservice s')
  /\ forall env tok p u,
       IsTokenEmpty (Some tok) = false ->
       userDBservice s' !! (tiInstanceId tok, ObjectIDFromHex (tiId tok)) = Some u ->
       List.length (Profiles u) = 1%nat ->
       Service.RemoveProfile env (Some (mkProfileRequest (Some tok) (Some p))) s'
         = (s', Err (mkStatus Internal "can't delete last profile")).
Proof.
  intros Hdb Hsteps. split.
  - induction Hsteps as [|x y z Hxy _ IH]; [done|].
    apply IH. by apply (profileStep_preserves maximumProfilesAllowed x y).
  - intros env tok p u. apply RemoveProfile_last.
Qed.

Lemma profile_invariant_witness :
  let s := sampleServer twoProfileUser in
  let s' := fst (SaveProfile 6 (sampleEnv 1700000400 "r3")
                   (Some (mkProfileRequest (Some (callerOf twoProfileUser))
                            (Some (newProfile "third")))) s) in
  dbProfilesOK (userDBservice s')
  /\ forall env tok p u,
       IsTokenEmpty (Some tok) = false ->
       userDBservice s' !! (tiInstanceId tok, ObjectIDFromHex (tiId tok)) = Some u ->
       List.length (Profiles u) = 1%nat ->
       Service.RemoveProfile env (Some (mkProfileRequest (Some tok) (Some p))) s'
         = (s', Err (mkStatus Internal "can't delete last profile")).
Proof.
  intros s s'. apply (profile_invariant 6 s s').
  - unfold dbProfilesOK. apply map_Forall_singleton. reflexivity.
  - apply rtc_once. apply step_SaveProfile.
Defined.

(** [SaveProfile] adding a profile, for a stored user. *)
Lemma SaveProfile_add (maximumProfilesAllowed : nat) (env : Env) (tok : TokenInfos) (p : ApiProfile)
    (s : Server) (u : User) :
  IsTokenEmpty (Some tok) = false ->
  apId p = "" ->
  userDBservice s !! (tiInstanceId tok, ObjectIDFromHex (tiId tok)) = Some u ->
  SaveProfile maximumProfilesAllowed env
    (Some (mkProfileRequest (Some tok) (Some p))) s =
    if (maximumProfilesAllowed <? List.length (Profiles u))%nat
    then (SaveLogEvent (tiInstanceId tok) (tiId tok) LogEventType_SECURITY
            LOG_EVENT_PROFILE_SAVED (String.append "too many profiles added" (apAlias p)) s,
          Err (mkStatus Internal "reached profile limit"))
    else
      let added :=
        AddProfile (NewObjectID env) (now env) (ProfileFromAPI p)
          (setID (ObjectIDFromHex (tiId tok)) u) in
      let user := setTimestamps (setUpdatedAt (now env) (timestamps added)) added in
      (SaveLogEvent (tiInstanceId tok) (tiId tok) LogEventType_LOG
         LOG_EVENT_PROFILE_SAVED (apAlias p)
         (withUserDB (<[(tiInstanceId tok, ObjectIDFromHex (tiId tok)) := user]>
                        (userDBservice s)) s),
       Ok user).
Proof.
  intros Ht Hid Hu. unfold SaveProfile.
  cbn [prToken prProfile]. rewrite Ht. cbn [orb deref derefProfile].
  rewrite GetUserByID_lookup, Hu, Hid. cbn [String.eqb Profiles setID].
  destruct (maximumProfilesAllowed <? List.length (Profiles u))%nat; [done|].
  rewrite UpdateUser_lookup. cbn zeta. cbn [ID AddProfile setProfiles setID].
  by rewrite Hu.
Qed.

(** C6, what the code does: a user who holds exactly
    [maximumProfilesAllowed] profiles can still add one; the call succeeds
    and the stored user then holds one profile more than the limit. *)
Theorem SaveProfile_add_at_limit_succeeds
    (maximumProfilesAllowed : nat) (env : Env) (tok : TokenInfos)
    (p : ApiProfile) (s : Server) (u : User) :
  IsTokenEmpty (Some tok) = false ->
  apId p = "" ->
  userDBservice s !! (tiInstanceId tok, ObjectIDFromHex (tiId tok)) = Some u ->
  List.length (Profiles u) = maximumProfilesAllowed ->
  exists s' updUser,
    SaveProfile maximumProfilesAllowed env
      (Some (mkProfileRequest (Some tok) (Some p))) s = (s', Ok updUser)
    /\ userDBservice s' !! (tiInstanceId tok, ObjectIDFromHex (tiId tok)) = Some updUser
    /\ List.length (Profiles updUser) = S maximumProfilesAllowed.
Proof.
  intros Ht Hid Hu Hlen. rewrite (SaveProfile_add maximumProfilesAllowed env tok p s u Ht Hid Hu).
  rewrite Hlen, Nat.ltb_irrefl. cbn zeta.
  eexists _, _. split; [reflexivity|]. split; [apply lookup_insert_eq|].
  cbn. rewrite List.length_app, Hlen. simpl. lia.
Qed.

Lemma SaveProfile_add_at_limit_succeeds_witness :
  exists s' updUser,
    SaveProfile 6 (sampleEnv 1700000400 "r3")
      (Some (mkProfileRequest (Some (callerOf sixProfileUser)) (Some (newProfile "seventh"))))
      (sampleServer sixProfileUser) = (s', Ok updUser)
    /\ userDBservice s' !! ("inst1", "5f0000000000000000000001") = Some updUser
    /\ List.length (Profiles updUser) = 7%nat.
Proof.
  apply (SaveProfile_add_at_limit_succeeds 6 (sampleEnv 1700000400 "r3")
           (callerOf sixProfileUser) (newProfile "seventh")
           (sampleServer sixProfileUser) sixProfileUser);
    reflexivity.
Defined.

(** The guard only stops a user who already holds more profiles than the
    limit. *)
Lemma SaveProfile_add_above_limit (maximumProfilesAllowed : nat) (env : Env) (tok : TokenInfos)
    (p : ApiProfile) (s : Server) (u : User) :
  IsTokenEmpty (Some tok) = false ->
  apId p = "" ->
  userDBservice s !! (tiInstanceId tok, ObjectIDFromHex (tiId tok)) = Some u ->
  (maximumProfilesAllowed < List.length (Profiles u))%nat ->
  exists s',
    SaveProfile maximumProfilesAllowed env
      (Some (mkProfileRequest (Some tok) (Some p))) s
      = (s', Err (mkStatus Internal "reached profile limit"))
    /\ userDBservice s' = userDBservice s.
Proof.
  intros Ht Hid Hu Hlen. rewrite (SaveProfile_add maximumProfilesAllowed env tok p s u Ht Hid Hu).
  apply Nat.ltb_lt in Hlen. rewrite Hlen. eexists. split; reflexivity.
Qed.

End Profiles.

(** ** Account deletion *)

Section AccountDeletion.
Import Bson UserDBService GlobalDBService Models Tokens Utils Service.

Lemma DeleteAllTempTokenForUser_purged (instanceID userID : string) (store : list TempToken)
    (t : TempToken) :
  t ∈ fst (DeleteAllTempTokenForUser instanceID userID "" store) ->
  t ∈ store /\ ~ (InstanceID t = instanceID /\ UserID t = userID).
Proof.
  unfold DeleteAllTempTokenForUser. simpl.
  rewrite list_elem_of_In, List.filter_In, <- list_elem_of_In.
  intros [Hin Hf]. split; [done|]. intros [<- <-].
  unfold forUser in Hf. by rewrite !String.eqb_refl in Hf.
Qed.

(** C7, amended. After every successful [DeleteAccount] call (the caller's
    token id is the user id of the request), the user record of that id is
    gone from the users collection of the caller's instance, and the
    temp-token store holds no token of that user in that instance any
    more, whatever its purpose. The purge goes by instance and user id:
    every token stored under another instance id is still there, also one
    that carries the same user id. *)
Theorem DeleteAccount_removes_user_and_tokens
    (env : Env) (req : UserReference) (s s' : Server) (resp : ServiceStatus) :
  DeleteAccount env (Some req) s = (s', Ok resp) ->
  exists tok,
    urToken req = Some tok
    /\ tiId tok = urUserId req
    /\ is_Some (userDBservice s !! (tiInstanceId tok, ObjectIDFromHex (urUserId req)))
    /\ userDBservice s' !! (tiInstanceId tok, ObjectIDFromHex (urUserId req)) = None
    /\ (forall t, t ∈ globalDBService s' ->
          t ∈ globalDBService s
          /\ ~ (InstanceID t = tiInstanceId tok /\ UserID t = urUserId req))
    /\ (forall t, t ∈ globalDBService s -> InstanceID t <> tiInstanceId tok ->
          t ∈ globalDBService s').
Proof.
  unfold DeleteAccount. destruct (urToken req) as [tok|] eqn:Htok; [|done].
  destruct (IsTokenEmpty (Some tok) || String.eqb (urUserId req) "")%bool; [done|].
  cbn [deref].
  destruct (String.eqb (tiId tok) (urUserId req)) eqn:Hid; [|done].
  apply String.eqb_eq in Hid. cbn [negb].
  rewrite GetUserByID_lookup.
  destruct (userDBservice s !! (tiInstanceId tok, ObjectIDFromHex (urUserId req)))
    as [u|] eqn:Hu; [|done].
  rewrite DeleteUser_lookup. cbn [userDBservice SendInstantEmail].
  rewrite Hu.
  destruct (DeleteAllTempTokenForUser _ _ _ _) as [tt' e] eqn:Hdel.
  intros [= <- <-]. exists tok. split; [done|]. split; [done|]. split; [by eexists|].
  split; [apply lookup_delete_eq|].
  assert (Htt : tt' = fst (DeleteAllTempTokenForUser (tiInstanceId tok) (tiId tok) ""
                        (globalDBService s))) by (cbn in Hdel; by inversion Hdel).
  split.
  - intros t Ht. cbn in Ht. rewrite Htt in Ht.
    apply DeleteAllTempTokenForUser_purged in Ht. by rewrite <- Hid.
  - intros t Hin Hne. cbn. rewrite Htt. unfold DeleteAllTempTokenForUser. cbn [fst].
    apply list_elem_of_In, List.filter_In. split; [by apply list_elem_of_In|].
    apply negb_true_iff. unfold forUser.
    apply String.eqb_neq in Hne. by rewrite Hne.
Qed.

Lemma DeleteAccount_removes_user_and_tokens_witness :
  let req := mkUserReference (Some (callerOf twoProfileUser)) "5f0000000000000000000001" in
  let s' := fst (DeleteAccount (sampleEnv 1700000400 "r3") (Some req) serverWithTokens) in
  exists tok,
    urToken req = Some tok
    /\ tiId tok = urUserId req
    /\ is_Some (userDBservice serverWithTokens
                  !! (tiInstanceId tok, ObjectIDFromHex (urUserId req)))
    /\ userDBservice s' !! (tiInstanceId tok, ObjectIDFromHex (urUserId req)) = None
    /\ (forall t, t ∈ globalDBService s' ->
          t ∈ globalDBService serverWithTokens
          /\ ~ (InstanceID t = tiInstanceId tok /\ UserID t = urUserId req))
    /\ (forall t, t ∈ globalDBService serverWithTokens ->
          InstanceID t <> tiInstanceId tok -> t ∈ globalDBService s').
Proof.
  intros req s'.
  eapply (DeleteAccount_removes_user_and_tokens (sampleEnv 1700000400 "r3") req
            serverWithTokens s').
  vm_compute. reflexivity.
Defined.

(** The sample call leaves the token of the other user and nothing else. *)
Example DeleteAccount_sample_tokens_left :
  globalDBService
    (fst (DeleteAccount (sampleEnv 1700000400 "r3")
            (Some (mkUserReference (Some (callerOf twoProfileUser))
                     "5f0000000000000000000001")) serverWithTokens))
  = [sampleToken "t2" "5f0000000000000000000002" "inst1" "invitation" 1700000900].
Proof. vm_compute. reflexivity. Qed.

(** C7 as stated fails: a temp token generated for the user under the
    instance id "inst2" is still stored, with the user id of the deleted
    user, after the user's [DeleteAccount] call in "inst1" has answered
    "user deleted". *)
Lemma DeleteAccount_keeps_token_of_other_instance :
  let u := "5f0000000000000000000001" in
  let s1 := fst (GenerateTempToken (sampleEnv 1700000000 "tok7")
                   (Some (mkTempTokenInfo u "inst2" "survey-login" [] 0))
                   (sampleServer twoProfileUser)) in
  let kept := mkTempToken "tok7" u "inst2" "survey-login" [] (1700000000 + 240 * 3600) in
  exists s',
    DeleteAccount (sampleEnv 1700000400 "r3")
      (Some (mkUserReference (Some (callerOf twoProfileUser)) u)) s1
    = (s', Ok {| ssStatus := ServiceStatus_NORMAL; ssMsg := "user deleted" |})
    /\ userDBservice s' !! ("inst1", u) = None
    /\ globalDBService s' = [kept]
    /\ UserID kept = u.
Proof.
  intros u s1 kept. eexists. split; [vm_compute; reflexivity|].
  split; [reflexivity|]. split; reflexivity.
Qed.

End AccountDeletion.

(** ** Temp-token endpoints *)

Section TempTokenEndpoints.
Import Bson UserDBService GlobalDBService Models Tokens Utils Service.

Lemma GetExpirationTime_10_days (now : Z) :
  GetExpirationTime now (Hour * 24 * 10) = now + 240 * 3600.
Proof. reflexivity. Qed.

Lemma GenerateTempToken_eq (env : Env) (t : TempTokenInfo) (s : Server) :
  tPurpose t <> "" ->
  GenerateTempToken env (Some t) s =
    let s1 := throttled (now env) s in
    match GenerateUniqueTokenString env with
    | Err e => (withGlobalDB (globalDBService s1) s1, Err (mkStatus Internal e))
    | Ok tok =>
        (withGlobalDB
           (globalDBService s1 ++
            [mkTempToken tok (tUserId t) (tInstanceId t) (tPurpose t) (tInfo t)
               (storedExpiration (now env) t)]) s1,
         Ok {| atToken := tok |})
    end.
Proof.
  intros Hp. apply String.eqb_neq in Hp. unfold GenerateTempToken. rewrite Hp.
  cbn zeta. fold (throttled (now env) s). unfold AddTempToken, storedExpiration.
  cbn [Expiration]. rewrite GetExpirationTime_10_days.
  destruct (GenerateUniqueTokenString env); [|done].
  by destruct (tExpiration t =? 0).
Qed.

Lemma GetOrCreateTemptoken_eq (env : Env) (t : TempTokenInfo) (s : Server) :
  tPurpose t <> "" -> tUserId t <> "" -> tInstanceId t <> "" ->
  GetOrCreateTemptoken env (Some t) s =
    let s1 := throttled (now env) s in
    match List.filter (forUser (tInstanceId t) (tUserId t) (tPurpose t))
            (globalDBService s1) with
    | t0 :: _ => (s1, Ok {| atToken := Token t0 |})
    | [] =>
        match GenerateUniqueTokenString env with
        | Err e => (withGlobalDB (globalDBService s1) s1, Err (mkStatus Internal e))
        | Ok tok =>
            (withGlobalDB
               (globalDBService s1 ++
                [mkTempToken tok (tUserId t) (tInstanceId t) (tPurpose t) (tInfo t)
                   (storedExpiration (now env) t)]) s1,
             Ok {| atToken := tok |})
        end
    end.
Proof.
  intros Hp Hu Hi. apply String.eqb_neq in Hp, Hu, Hi.
  unfold GetOrCreateTemptoken. rewrite Hp, Hu, Hi.
  cbn zeta. cbn [orb]. fold (throttled (now env) s).
  unfold GetTempTokenForUser.
  destruct (List.filter _ _); [|done].
  unfold AddTempToken, storedExpiration.
  cbn [Expiration]. rewrite GetExpirationTime_10_days.
  destruct (GenerateUniqueTokenString env); [|done].
  by destruct (tExpiration t =? 0).
Qed.

Lemma globalDBService_throttled (now : Z) (s : Server) :
  globalDBService (throttled now s) = globalDBService s.
Proof. unfold throttled. by destruct (_ <? _). Qed.

(** C10. A request with a purpose, when the generator delivers the token
    string [tok]: [GenerateTempToken] answers [tok] and appends to the
    temp-token store the token of the request under that string;
    [GetOrCreateTemptoken] does the same when the request names a user and
    an instance and the store holds no token of that user, instance and
    purpose. In both the token is stored with the expiration of the
    request, and with now + 240 hours when the request carries expiration
    0. *)
Theorem temp_token_expiration (env : Env) (t : TempTokenInfo) (s : Server) (tok : string) :
  GenerateUniqueTokenString env = Ok tok ->
  tPurpose t <> "" ->
  let stored :=
    mkTempToken tok (tUserId t) (tInstanceId t) (tPurpose t) (tInfo t)
      (if tExpiration t =? 0 then now env + 240 * 3600 else tExpiration t) in
  (snd (GenerateTempToken env (Some t) s) = Ok {| atToken := tok |}
   /\ globalDBService (fst (GenerateTempToken env (Some t) s))
      = (globalDBService s ++ [stored])%list)
  /\ (tUserId t <> "" -> tInstanceId t <> "" ->
      List.filter (forUser (tInstanceId t) (tUserId t) (tPurpose t)) (globalDBService s)
        = [] ->
      snd (GetOrCreateTemptoken env (Some t) s) = Ok {| atToken := tok |}
      /\ globalDBService (fst (GetOrCreateTemptoken env (Some t) s))
         = (globalDBService s ++ [stored])%list).
Proof.
  intros Hgen Hp stored. split.
  - rewrite (GenerateTempToken_eq env t s Hp). cbn zeta. rewrite Hgen.
    cbn [fst snd globalDBService withGlobalDB].
    by rewrite globalDBService_throttled.
  - intros Hu Hi Hnone.
    rewrite (GetOrCreateTemptoken_eq env t s Hp Hu Hi). cbn zeta.
    rewrite globalDBService_throttled, Hnone, Hgen.
    by cbn [fst snd globalDBService withGlobalDB].
Qed.

Lemma temp_token_expiration_witness :
  let env := sampleEnv 1700000400 "tok9" in
  let stored :=
    mkTempToken "tok9" "5f0000000000000000000001" "inst1" "survey-login" []
      (1700000400 + 240 * 3600) in
  (snd (GenerateTempToken env (Some (sampleRequest 0)) serverWithTokens)
     = Ok {| atToken := "tok9" |}
   /\ globalDBService (fst (GenerateTempToken env (Some (sampleRequest 0))
                              serverWithTokens))
      = (globalDBService serverWithTokens ++ [stored])%list)
  /\ (snd (GetOrCreateTemptoken env (Some (sampleRequest 0)) serverWithTokens)
        = Ok {| atToken := "tok9" |}
      /\ globalDBService (fst (GetOrCreateTemptoken env (Some (sampleRequest 0))
                                 serverWithTokens))
         = (globalDBService serverWithTokens ++ [stored])%list).
Proof.
  intros env stored.
  destruct (temp_token_expiration env (sampleRequest 0) serverWithTokens "tok9")
    as [Hgenerate Hgetorcreate].
  - vm_compute. reflexivity.
  - vm_compute. discriminate.
  - split; [exact Hgenerate|].
    apply Hgetorcreate; vm_compute; first [reflexivity | discriminate].
Defined.

(** A requested expiration other than 0 is stored as given, by both
    endpoints. *)
Example temp_token_expiration_as_requested :
  List.map Expiration
    (globalDBService
       (fst (GenerateTempToken (sampleEnv 1700000400 "tok9")
               (Some (sampleRequest 1700009999)) emptyServer)))
  = [1700009999]
  /\ List.map Expiration
       (globalDBService
          (fst (GetOrCreateTemptoken (sampleEnv 1700000400 "tok9")
                  (Some (sampleRequest 1700009999)) emptyServer)))
     = [1700009999].
Proof. vm_compute. split; reflexivity. Qed.

Lemma runCall_throttle (s : Server) (c : TempTokenCall) :
  throttleState (runCall s c) = throttleState s
  \/ throttleState (runCall s c) = throttleState (throttled (callTime c) s).
Proof.
  destruct c as [env [t|]|env [t|]]; cbn [runCall callTime]; try (left; reflexivity).
  - destruct (String.eqb (tPurpose t) "") eqn:Hp.
    { left. unfold GenerateTempToken. by rewrite Hp. }
    apply String.eqb_neq in Hp. rewrite (GenerateTempToken_eq env t s Hp).
    right. cbn zeta. by destruct (GenerateUniqueTokenString env).
  - destruct (String.eqb (tPurpose t) "" || String.eqb (tUserId t) ""
              || String.eqb (tInstanceId t) "")%bool eqn:Hv.
    { left. unfold GetOrCreateTemptoken. by rewrite Hv. }
    apply orb_false_iff in Hv as [Hv Hi]. apply orb_false_iff in Hv as [Hp Hu].
    apply String.eqb_neq in Hp, Hu, Hi.
    rewrite (GetOrCreateTemptoken_eq env t s Hp Hu Hi). right. cbn zeta.
    destruct (List.filter _ _); [|done].
    by destruct (GenerateUniqueTokenString env).
Qed.

Lemma throttled_step (now : Z) (s : Server) :
  clockOK (lastTempTokenDeleteTime s) ->
  throttleState (throttled now s) = throttleState s
  \/ (lastTempTokenDeleteTime s + deleteTempTokensMinInterval < now
      /\ throttleState (throttled now s) = (now, (started s ++ [cleanupAt now])%list)).
Proof.
  intros Hc. unfold throttled.
  rewrite Int64_add_small.
  2: { unfold clockOK, Int64.InRange, deleteTempTokensMinInterval, Int64.min,
         Int64.max in *. lia. }
  destruct (_ <? now) eqn:E; [|by left].
  apply Z.ltb_lt in E. right. split; [done|]. reflexivity.
Qed.

Lemma runCall_step (s : Server) (c : TempTokenCall) :
  clockOK (lastTempTokenDeleteTime s) ->
  throttleState (runCall s c) = throttleState s
  \/ (lastTempTokenDeleteTime s + deleteTempTokensMinInterval < callTime c
      /\ throttleState (runCall s c) = (callTime c, (started s ++ [cleanupAt (callTime c)])%list)).
Proof.
  intros Hc. destruct (runCall_throttle s c) as [->| ->]; [by left|].
  by apply throttled_step.
Qed.

(** C9. Over any sequence of [GenerateTempToken] and
    [GetOrCreateTemptoken] calls (clock readings within int64 less the
    interval), the goroutines started are [CleanExpiredTemptokens(3600)],
    each started by one of the calls at its clock reading, the first more
    than ten minutes after the initial [lastTempTokenDeleteTime] and each
    further one more than ten minutes after the one before; the variable
    ends at the time of the last start. *)
Theorem cleanup_at_most_once_per_interval (calls : list TempTokenCall) (s : Server) :
  clockOK (lastTempTokenDeleteTime s) ->
  Forall (fun c => clockOK (callTime c)) calls ->
  exists times,
    started (runCalls calls s) = (started s ++ List.map cleanupAt times)%list
    /\ spaced (lastTempTokenDeleteTime s) times
    /\ lastTempTokenDeleteTime (runCalls calls s)
       = default (lastTempTokenDeleteTime s) (last times)
    /\ Forall (fun t => exists c, c ∈ calls /\ callTime c = t) times.
Proof.
  revert s. induction calls as [|c cs IH]; intros s Hs Hcs.
  - exists []. simpl. rewrite app_nil_r. by repeat split.
  - apply Forall_cons in Hcs as [Hc Hcs]. change (runCalls (c :: cs) s) with (runCalls cs (runCall s c)).
    destruct (runCall_step s c Hs) as [Hsame|[Hlt Hnew]].
    + unfold throttleState in Hsame. injection Hsame as Hl Hst.
      destruct (IH (runCall s c)) as (times & H1 & H2 & H3 & H4); [by rewrite Hl | done |].
      exists times. rewrite H1, H3, Hl, Hst.
      split; [|split; [|split]]; try done.
      * by rewrite <- Hl.
      * eapply Forall_impl; [exact H4|]. intros t (c' & Hin & Ht). exists c'. split; [by right | done].
    + unfold throttleState in Hnew. injection Hnew as Hl Hst.
      destruct (IH (runCall s c)) as (times & H1 & H2 & H3 & H4); [by rewrite Hl | done |].
      exists (callTime c :: times). rewrite H1, H3, Hl, Hst.
      split; [|split; [|split]].
      * by rewrite <- List.app_assoc.
      * split; [done | by rewrite <- Hl].
      * rewrite last_cons. by destruct (last times).
      * apply Forall_cons. split; [exists c; split; [left | done]|].
        eapply Forall_impl; [exact H4|]. intros t (c' & Hin & Ht). exists c'. split; [by right | done].
Qed.

Lemma cleanup_at_most_once_per_interval_witness :
  let calls :=
    [ CallGenerateTempToken (sampleEnv 1700000000 "tokA") (Some (sampleRequest 0));
      CallGetOrCreateTemptoken (sampleEnv 1700000300 "tokB") (Some (sampleRequest 0));
      CallGenerateTempToken (sampleEnv 1700000700 "tokC") (Some (sampleRequest 5)) ] in
  exists times,
    started (runCalls calls emptyServer)
      = (started emptyServer ++ List.map cleanupAt times)%list
    /\ spaced (lastTempTokenDeleteTime emptyServer) times
    /\ lastTempTokenDeleteTime (runCalls calls emptyServer)
       = default (lastTempTokenDeleteTime emptyServer) (last times)
    /\ Forall (fun t => exists c, c ∈ calls /\ callTime c = t) times.
Proof.
  intros calls. apply (cleanup_at_most_once_per_interval calls emptyServer).
  - unfold clockOK. vm_compute. split; discriminate.
  - repeat constructor; vm_compute; discriminate.
Defined.

Example cleanup_runs_of_sample_calls :
  started (runCalls
    [ CallGenerateTempToken (sampleEnv 1700000000 "tokA") (Some (sampleRequest 0));
      CallGetOrCreateTemptoken (sampleEnv 1700000300 "tokB") (Some (sampleRequest 0));
      CallGenerateTempToken (sampleEnv 1700000700 "tokC") (Some (sampleRequest 5)) ]
    emptyServer)
  = [cleanupAt 1700000000; cleanupAt 1700000700].
Proof. vm_compute. reflexivity. Qed.

End TempTokenEndpoints.

(** ** Password reset *)

Section PasswordReset.
Import Bson UserDBService GlobalDBService Models Tokens Utils Service.

(** C8. For a request that names an account id and a registered
    instance, [InitiatePasswordReset] answers OK, and two runs on any two
    stores (one holding the account, the other not) and at any two times
    give the same response. *)
Theorem InitiatePasswordReset_same_response
    (env1 env2 : Env) (req : InitiateResetPasswordMsg) (s1 s2 : Server) :
  irAccountId req <> "" ->
  irInstanceId req <> "" ->
  isInstanceIDAllowed s1 (irInstanceId req) = true ->
  isInstanceIDAllowed s2 (irInstanceId req) = true ->
  snd (InitiatePasswordReset env1 (Some req) s1) = Ok statusOK
  /\ snd (InitiatePasswordReset env2 (Some req) s2)
     = snd (InitiatePasswordReset env1 (Some req) s1).
Proof.
  assert (H : forall env s,
             irAccountId req <> "" -> irInstanceId req <> "" ->
             isInstanceIDAllowed s (irInstanceId req) = true ->
             snd (InitiatePasswordReset env (Some req) s) = Ok statusOK).
  { intros env s Ha Hi Hallowed. apply String.eqb_neq in Ha, Hi.
    unfold InitiatePasswordReset. rewrite Ha, Hi, Hallowed. cbn [orb negb].
    destruct (GetUserByAccountID _ _ _) as [user|]; [|done].
    destruct (CanTriggerPasswordReset _ _); [|done].
    destruct (AddTempToken _ _ _) as [tt' [token|e]]; [|done].
    by destruct (SavePasswordResetTrigger _ _ _ _). }
  intros Ha Hi H1 H2. split; [by apply H|]. by rewrite !H.
Qed.

Lemma InitiatePasswordReset_same_response_witness :
  let req := mkInitiateResetPasswordMsg "inst1" "user@example.org" in
  snd (InitiatePasswordReset (sampleEnv 1700000400 "tokR") (Some req)
         (sampleServer twoProfileUser)) = Ok statusOK
  /\ snd (InitiatePasswordReset (sampleEnv 1700000400 "tokR") (Some req) emptyServer)
     = snd (InitiatePasswordReset (sampleEnv 1700000400 "tokR") (Some req)
              (sampleServer twoProfileUser)).
Proof.
  intros req.
  apply (InitiatePasswordReset_same_response (sampleEnv 1700000400 "tokR")
           (sampleEnv 1700000400 "tokR") req (sampleServer twoProfileUser) emptyServer);
    (discriminate || reflexivity).
Defined.

Example InitiatePasswordReset_known_account_sends_email :
  let req := mkInitiateResetPasswordMsg "inst1" "user@example.org" in
  List.length (sentEmails (fst (InitiatePasswordReset (sampleEnv 1700000400 "tokR")
                                  (Some req) (sampleServer twoProfileUser)))) = 1%nat
  /\ fst (InitiatePasswordReset (sampleEnv 1700000400 "tokR") (Some req) emptyServer)
     = emptyServer.
Proof. vm_compute. split; reflexivity. Qed.

End PasswordReset.

(** ** Further facts about the user store *)

Section MoreStoreFacts.
Import Bson UserDBService.

Lemma FindOne_None (instanceID : string) (f : filter) (db : UserDB) :
  FindOne instanceID f db = None <->
  forall k u, db !! (instanceID, k) = Some u -> matches f k u = false.
Proof.
  unfold FindOne. split.
  - intros H k u Hl. apply elem_of_collection, list_elem_of_In in Hl.
    exact (List.find_none _ _ H _ Hl).
  - intros H. destruct (List.find _ _) as [[k u]|] eqn:Hf; [|done].
    apply List.find_some in Hf as [Hin Hm].
    apply list_elem_of_In, elem_of_collection in Hin.
    unfold docMatches in Hm. simpl in Hm. by rewrite (H _ _ Hin) in Hm.
Qed.

Lemma FindOne_Some (instanceID : string) (f : filter) (db : UserDB) (k : ObjectID) (u : User) :
  FindOne instanceID f db = Some (k, u) ->
  db !! (instanceID, k) = Some u /\ matches f k u = true.
Proof.
  unfold FindOne. intros Hf. apply List.find_some in Hf as [Hin Hm].
  by apply list_elem_of_In, elem_of_collection in Hin.
Qed.

(** Only one document of the instance matches: [FindOne] returns it. *)
Lemma FindOne_only (instanceID : string) (f : filter) (db : UserDB) (k : ObjectID) (u : User) :
  db !! (instanceID, k) = Some u ->
  matches f k u = true ->
  (forall k' u', db !! (instanceID, k') = Some u' -> matches f k' u' = true -> k' = k) ->
  FindOne instanceID f db = Some (k, u).
Proof.
  intros Hl Hm Hone. destruct (FindOne instanceID f db) as [[k' u']|] eqn:Hf.
  - apply FindOne_Some in Hf as [Hl' Hm']. pose proof (Hone _ _ Hl' Hm') as ->.
    congruence.
  - rewrite FindOne_None in Hf. by rewrite (Hf _ _ Hl) in Hm.
Qed.

Lemma elem_of_Find (instanceID : string) (f : filter) (db : UserDB) (k : ObjectID) (u : User) :
  (k, u) ∈ Find instanceID f db <->
  db !! (instanceID, k) = Some u /\ matches f k u = true.
Proof.
  unfold Find. rewrite list_elem_of_In, List.filter_In, <- list_elem_of_In.
  by rewrite elem_of_collection.
Qed.

Lemma elem_of_FindQ (instanceID : string) (q : query) (db : UserDB) (k : ObjectID) (u : User) :
  (k, u) ∈ FindQ instanceID q db <->
  db !! (instanceID, k) = Some u /\ matchesQ q k u = true.
Proof.
  unfold FindQ. rewrite list_elem_of_In, List.filter_In, <- list_elem_of_In.
  by rewrite elem_of_collection.
Qed.

Lemma Find_nil (instanceID : string) (f : filter) (db : UserDB) :
  (forall k u, db !! (instanceID, k) = Some u -> matches f k u = false) ->
  Find instanceID f db = [].
Proof.
  intros H. destruct (Find instanceID f db) as [|[k u] l] eqn:E; [done|].
  assert (Hin : (k, u) ∈ Find instanceID f db) by (rewrite E; left).
  apply elem_of_Find in Hin as [Hl Hm]. by rewrite (H _ _ Hl) in Hm.
Qed.

Lemma NoDup_collection_keys (instanceID : string) (db : UserDB) :
  NoDup (List.map fst (collectionRefUsers instanceID db)).
Proof.
  unfold collectionRefUsers.
  pose proof (NoDup_fst_map_to_list db) as H.
  induction (map_to_list db) as [|[[i k] u] l IH]; simpl; [constructor|].
  simpl in H. apply NoDup_cons in H as [Hnotin Hnd].
  destruct (String.eqb i instanceID) eqn:E; simpl; [|by apply IH].
  apply String.eqb_eq in E as ->. apply NoDup_cons. split; [|by apply IH].
  intros Hin. apply Hnotin.
  apply list_elem_of_fmap in Hin as [[k' u'] [Hk Hin]]. simpl in Hk. subst k'.
  apply list_elem_of_omap in Hin as [[[i2 k2] u2] [Hin Hf]]. simpl in Hf.
  destruct (String.eqb i2 instanceID) eqn:E2; [|discriminate].
  apply String.eqb_eq in E2 as ->. inversion Hf; subst.
  apply list_elem_of_fmap. by exists ((instanceID, k), u').
Qed.

Lemma validKeys_lookup (db : UserDB) (i : string) (k : ObjectID) (u : User) :
  validKeys db -> db !! (i, k) = Some u -> ObjectIDFromHex k = k.
Proof. intros Hv Hl. exact (Hv (i, k) u Hl). Qed.

Lemma accountsUnique_singleton (key : string * ObjectID) (u : User) :
  accountsUnique {[ key := u ]}.
Proof.
  intros i k1 k2 u1 u2 H1 H2 _.
  apply lookup_singleton_Some in H1 as [E1 _], H2 as [E2 _]. congruence.
Qed.

End MoreStoreFacts.

(** *** Adding users *)

Section AddUserFacts.
Import Bson UserDBService.

Lemma matches_accountID (a : string) (k : ObjectID) (u : User) :
  matches (FStr "account.accountID" a) k u = String.eqb (AccountID (account u)) a.
Proof. reflexivity. Qed.

Lemma GetUserByAccountID_Err (instanceID a : string) (db : UserDB) (e : string) :
  GetUserByAccountID instanceID a db = Err e ->
  forall k u, db !! (instanceID, k) = Some u -> AccountID (account u) <> a.
Proof.
  unfold GetUserByAccountID.
  destruct (FindOne _ _ _) as [[k v]|] eqn:Hf; [done|].
  intros _ k u Hl. rewrite FindOne_None in Hf. specialize (Hf _ _ Hl).
  rewrite matches_accountID in Hf. by apply String.eqb_neq in Hf.
Qed.

(** X1. [AddUser] with an account id that a user of the instance already
    has (the one [GetUserByAccountID] finds) answers "user already exists"
    and leaves the store as it is. *)
Theorem AddUser_existing_account
    (newID : ObjectID) (instanceID : string) (user u0 : User) (db : UserDB) :
  GetUserByAccountID instanceID (AccountID (account user)) db = Ok u0 ->
  AddUser newID instanceID user db = (db, Err "user already exists").
Proof.
  unfold GetUserByAccountID, AddUser, UpsertSetOnInsert. cbn zeta.
  by destruct (FindOne _ _ _) as [d|].
Qed.

Lemma AddUser_existing_account_witness :
  AddUser "5f00000000000000000000b7" "inst1" (setID NilObjectID unverifiedUser) threeUserDB
  = (threeUserDB, Err "user already exists").
Proof.
  apply (AddUser_existing_account _ _ _ unverifiedUser). vm_compute. reflexivity.
Defined.

(** X2. [AddUser] with an account id no user of the instance has, the
    database handing out the unused object id [newID]: the call returns
    [newID], and afterwards [GetUserByID] of it and [GetUserByAccountID] of
    the account id both return the added user with that id; no other
    document changes. *)
Theorem AddUser_then_lookup
    (newID : ObjectID) (instanceID : string) (user : User) (db : UserDB) (e : string) :
  GetUserByAccountID instanceID (AccountID (account user)) db = Err e ->
  db !! (instanceID, newID) = None ->
  ObjectIDFromHex newID = newID ->
  exists db',
    AddUser newID instanceID user db = (db', Ok newID)
    /\ GetUserByID instanceID newID db' = Ok (setID newID user)
    /\ GetUserByAccountID instanceID (AccountID (account user)) db'
       = Ok (setID newID user)
    /\ forall key, key <> (instanceID, newID) -> db' !! key = db !! key.
Proof.
  intros Hnone Hfree Hid.
  pose proof (GetUserByAccountID_Err _ _ _ _ Hnone) as Hothers.
  exists (<[(instanceID, newID) := user]> db). split; [|split; [|split]].
  - unfold GetUserByAccountID in Hnone. unfold AddUser, UpsertSetOnInsert. cbn zeta.
    destruct (FindOne _ _ _) as [d|]; [done|]. by rewrite Hfree.
  - rewrite GetUserByID_lookup, Hid. by rewrite lookup_insert_eq.
  - unfold GetUserByAccountID.
    rewrite (FindOne_only _ _ _ newID user); [done | apply lookup_insert_eq | |].
    + rewrite matches_accountID. apply String.eqb_refl.
    + intros k' u' Hl Hm. destruct (decide (k' = newID)) as [->|Hne]; [done|].
      rewrite lookup_insert_ne in Hl by congruence.
      rewrite matches_accountID in Hm. apply String.eqb_eq in Hm.
      by destruct (Hothers _ _ Hl).
  - intros key Hkey. by rewrite lookup_insert_ne.
Qed.

Lemma AddUser_then_lookup_witness :
  let db := oneUserDB "5f0000000000000000000001" 0 in
  let newID := "5f0000000000000000000002" in
  exists db',
    AddUser newID "inst1" unverifiedUser db = (db', Ok newID)
    /\ GetUserByID "inst1" newID db' = Ok (setID newID unverifiedUser)
    /\ GetUserByAccountID "inst1" (AccountID (account unverifiedUser)) db'
       = Ok (setID newID unverifiedUser)
    /\ forall key, key <> ("inst1", newID) -> db' !! key = db !! key.
Proof.
  intros db newID.
  apply (AddUser_then_lookup newID "inst1" unverifiedUser db ErrNoDocuments);
    vm_compute; reflexivity.
Defined.

(** X3. [AddUser] keeps the account ids of an instance pairwise distinct:
    if no two documents of an instance share an account id before the call,
    none do after it, whether it succeeds or not. *)
Theorem AddUser_keeps_accounts_unique
    (newID : ObjectID) (instanceID : string) (user : User) (db : UserDB) :
  accountsUnique db -> accountsUnique (fst (AddUser newID instanceID user db)).
Proof.
  intros Hu. unfold AddUser, UpsertSetOnInsert. cbn zeta.
  destruct (FindOne _ _ _) as [d|] eqn:Hf; [done|].
  destruct (db !! (instanceID, newID)) eqn:Hfree; [done|]. simpl.
  rewrite FindOne_None in Hf.
  assert (Hothers : forall k u, db !! (instanceID, k) = Some u ->
                      AccountID (account u) <> AccountID (account user)).
  { intros k u Hl. specialize (Hf _ _ Hl). rewrite matches_accountID in Hf.
    by apply String.eqb_neq in Hf. }
  intros i k1 k2 u1 u2 H1 H2 Ha.
  destruct (decide ((i, k1) = (instanceID, newID))) as [E1|N1];
    destruct (decide ((i, k2) = (instanceID, newID))) as [E2|N2].
  - congruence.
  - inversion E1; subst. rewrite lookup_insert_eq in H1. inversion H1; subst.
    rewrite lookup_insert_ne in H2 by congruence.
    destruct (Hothers _ _ H2). done.
  - inversion E2; subst. rewrite lookup_insert_eq in H2. inversion H2; subst.
    rewrite lookup_insert_ne in H1 by congruence.
    destruct (Hothers _ _ H1). done.
  - rewrite lookup_insert_ne in H1 by congruence.
    rewrite lookup_insert_ne in H2 by congruence. eauto.
Qed.

Lemma AddUser_keeps_accounts_unique_witness :
  accountsUnique
    (fst (AddUser "5f0000000000000000000002" "inst1" unverifiedUser
            (oneUserDB "5f0000000000000000000001" 0))).
Proof.
  apply (AddUser_keeps_accounts_unique "5f0000000000000000000002" "inst1"
           unverifiedUser (oneUserDB "5f0000000000000000000001" 0)).
  unfold oneUserDB. apply accountsUnique_singleton.
Defined.

End AddUserFacts.

(** *** Operations on one user *)

Section ByIdFacts.
Import Bson UserDBService.

Lemma UpdateOneFields_id (instanceID : string) (id : ObjectID) (fs : list fieldUpdate)
    (db : UserDB) :
  UpdateOneFields instanceID (FId id) fs db =
    match db !! (instanceID, id) with
    | Some u => (<[(instanceID, id) := applyFields fs u]> db, {| MatchedCount := 1 |})
    | None => (db, {| MatchedCount := 0 |})
    end.
Proof.
  unfold UpdateOneFields. rewrite FindOne_FId.
  by destruct (db !! (instanceID, id)).
Qed.

Lemma FindOneAndUpdate_id (instanceID : string) (id : ObjectID) (fs : list fieldUpdate)
    (db : UserDB) :
  FindOneAndUpdate instanceID (FId id) fs db =
    match db !! (instanceID, id) with
    | Some u => (<[(instanceID, id) := applyFields fs u]> db,
                 Ok (setID id (applyFields fs u)))
    | None => (db, Err ErrNoDocuments)
    end.
Proof.
  unfold FindOneAndUpdate. rewrite FindOne_FId.
  by destruct (db !! (instanceID, id)).
Qed.

Lemma UpdateLoginTime_stored (now : Z) (instanceID id : string) (db : UserDB) (u : User) :
  db !! (instanceID, ObjectIDFromHex id) = Some u ->
  UpdateLoginTime now instanceID id db
    = (<[(instanceID, ObjectIDFromHex id) := loggedIn now u]> db, None).
Proof.
  intros H. unfold UpdateLoginTime. cbn zeta. rewrite UpdateOneFields_id, H.
  cbn iota. rewrite UpdateMarkedForDeletionTime_reset, lookup_insert_eq.
  rewrite insert_insert_eq. reflexivity.
Qed.

(** X4. A user read with [GetUserByID] and written back with [UpdateUser]
    (changed in any field but the id): the call returns the written user
    with [updatedAt] set to the time of the call, a following [GetUserByID]
    returns the same, and no other document changes. *)
Theorem GetUserByID_then_UpdateUser
    (now : Z) (instanceID id : string) (db : UserDB) (u u' : User) :
  GetUserByID instanceID id db = Ok u ->
  ID u' = ID u ->
  let saved := setTimestamps (setUpdatedAt now (timestamps u')) u' in
  exists db',
    UpdateUser now instanceID u' db = (db', Ok saved)
    /\ GetUserByID instanceID id db' = Ok saved
    /\ forall key, key <> (instanceID, ObjectIDFromHex id) -> db' !! key = db !! key.
Proof.
  intros Hget Hid saved. rewrite GetUserByID_lookup in Hget.
  destruct (db !! (instanceID, ObjectIDFromHex id)) as [v|] eqn:Hl; [|done].
  injection Hget as <-. simpl in Hid.
  exists (<[(instanceID, ObjectIDFromHex id) := saved]> db).
  split; [|split].
  - rewrite UpdateUser_lookup. cbn zeta. by rewrite Hid, Hl.
  - rewrite GetUserByID_lookup, lookup_insert_eq. f_equal.
    subst saved. destruct u'. simpl in *. by subst.
  - intros key Hkey. by rewrite lookup_insert_ne.
Qed.

Lemma GetUserByID_then_UpdateUser_witness :
  let id := "5f0000000000000000000001" in
  let db := oneUserDB id 0 in
  let u' := withMarkedForDeletion 1700000100 (someUser id 0) in
  let saved := setTimestamps (setUpdatedAt 1700000000 (timestamps u')) u' in
  exists db',
    UpdateUser 1700000000 "inst1" u' db = (db', Ok saved)
    /\ GetUserByID "inst1" id db' = Ok saved
    /\ forall key, key <> ("inst1", ObjectIDFromHex id) -> db' !! key = db !! key.
Proof.
  intros id db u' saved.
  apply (GetUserByID_then_UpdateUser 1700000000 "inst1" id db (someUser id 0) u');
    vm_compute; reflexivity.
Defined.

(** X5. [DeleteUser] of a user that [GetUserByID] finds succeeds; after it
    [GetUserByID] of that id fails with the no-documents error, a second
    [DeleteUser] answers "no user found with the given id", the store holds
    one document less, and every other document is as before. *)
Theorem DeleteUser_then_lookup (instanceID id : string) (db : UserDB) (u : User) :
  GetUserByID instanceID id db = Ok u ->
  exists db',
    DeleteUser instanceID id db = (db', None)
    /\ GetUserByID instanceID id db' = Err ErrNoDocuments
    /\ DeleteUser instanceID id db' = (db', Some "no user found with the given id")
    /\ S (size db') = size db
    /\ forall key, key <> (instanceID, ObjectIDFromHex id) -> db' !! key = db !! key.
Proof.
  intros Hget. rewrite GetUserByID_lookup in Hget.
  destruct (db !! (instanceID, ObjectIDFromHex id)) as [v|] eqn:Hl; [|done].
  exists (delete (instanceID, ObjectIDFromHex id) db). repeat split.
  - by rewrite DeleteUser_lookup, Hl.
  - by rewrite GetUserByID_lookup, lookup_delete_eq.
  - by rewrite DeleteUser_lookup, lookup_delete_eq.
  - rewrite map_size_delete, Hl.
    assert (size db <> 0%nat); [|lia].
    apply map_size_non_empty_iff. intros ->. by rewrite lookup_empty in Hl.
  - intros key Hkey. by rewrite lookup_delete_ne.
Qed.

Lemma DeleteUser_then_lookup_witness :
  let id := "5f0000000000000000000001" in
  let db := oneUserDB id 0 in
  exists db',
    DeleteUser "inst1" id db = (db', None)
    /\ GetUserByID "inst1" id db' = Err ErrNoDocuments
    /\ DeleteUser "inst1" id db' = (db', Some "no user found with the given id")
    /\ S (size db') = size db
    /\ forall key, key <> ("inst1", ObjectIDFromHex id) -> db' !! key = db !! key.
Proof.
  intros id db.
  apply (DeleteUser_then_lookup "inst1" id db (someUser id 0)).
  vm_compute. reflexivity.
Defined.

(** X6. An id no document of the instance has: the field updates
    ([UpdateUserPassword], [SaveFailedLoginAttempt],
    [SavePasswordResetTrigger], [UpdateLoginTime],
    [UpdateReminderToConfirmSentAtTime]) report no error,
    [UpdateMarkedForDeletionTime] answers false without an error, and
    [GetUserByID], [UpdateAccountPreferredLang], [UpdateUser] and
    [DeleteUser] answer an error; none of them changes the store. *)
Theorem unknown_id_behaviour
    (now : Z) (instanceID id v : string) (dT2 : Z) (reset : bool) (user : User)
    (db : UserDB) :
  db !! (instanceID, ObjectIDFromHex id) = None ->
  UpdateUserPassword now instanceID id v db = (db, None)
  /\ SaveFailedLoginAttempt now instanceID id db = (db, None)
  /\ SavePasswordResetTrigger now instanceID id db = (db, None)
  /\ UpdateLoginTime now instanceID id db = (db, None)
  /\ UpdateReminderToConfirmSentAtTime now instanceID id db = (db, None)
  /\ UpdateMarkedForDeletionTime now instanceID id dT2 reset db = (db, (false, None))
  /\ GetUserByID instanceID id db = Err ErrNoDocuments
  /\ UpdateAccountPreferredLang now instanceID id v db = (db, Err ErrNoDocuments)
  /\ DeleteUser instanceID id db = (db, Some "no user found with the given id")
  /\ UpdateUser now instanceID (setID (ObjectIDFromHex id) user) db
     = (db, Err ErrNoDocuments).
Proof.
  intros H. repeat split.
  - unfold UpdateUserPassword. cbn zeta. by rewrite UpdateOneFields_id, H.
  - unfold SaveFailedLoginAttempt. cbn zeta. by rewrite UpdateOneFields_id, H.
  - unfold SavePasswordResetTrigger, UpdateOne. cbn zeta. by rewrite FindOne_FId, H.
  - unfold UpdateLoginTime. cbn zeta. rewrite UpdateOneFields_id, H. cbn iota.
    by rewrite UpdateMarkedForDeletionTime_reset, H.
  - unfold UpdateReminderToConfirmSentAtTime. cbn zeta.
    by rewrite UpdateOneFields_id, H.
  - destruct reset.
    + by rewrite UpdateMarkedForDeletionTime_reset, H.
    + by rewrite UpdateMarkedForDeletionTime_mark, H.
  - by rewrite GetUserByID_lookup, H.
  - unfold UpdateAccountPreferredLang. cbn zeta. by rewrite FindOneAndUpdate_id, H.
  - by rewrite DeleteUser_lookup, H.
  - rewrite UpdateUser_lookup. cbn zeta. cbn [ID setID]. by rewrite H.
Qed.

Lemma unknown_id_behaviour_witness :
  let id := "5f0000000000000000000099" in
  let db := oneUserDB "5f0000000000000000000001" 0 in
  UpdateUserPassword 1700000000 "inst1" id "hash2" db = (db, None)
  /\ SaveFailedLoginAttempt 1700000000 "inst1" id db = (db, None)
  /\ SavePasswordResetTrigger 1700000000 "inst1" id db = (db, None)
  /\ UpdateLoginTime 1700000000 "inst1" id db = (db, None)
  /\ UpdateReminderToConfirmSentAtTime 1700000000 "inst1" id db = (db, None)
  /\ UpdateMarkedForDeletionTime 1700000000 "inst1" id 100 false db
     = (db, (false, None))
  /\ GetUserByID "inst1" id db = Err ErrNoDocuments
  /\ UpdateAccountPreferredLang 1700000000 "inst1" id "hash2" db
     = (db, Err ErrNoDocuments)
  /\ DeleteUser "inst1" id db = (db, Some "no user found with the given id")
  /\ UpdateUser 1700000000 "inst1" (setID (ObjectIDFromHex id) unverifiedUser) db
     = (db, Err ErrNoDocuments).
Proof.
  intros id db.
  apply (unknown_id_behaviour 1700000000 "inst1" id "hash2" 100 false unverifiedUser db).
  vm_compute. reflexivity.
Defined.

(** X7. The methods ignore the error of [ObjectIDFromHex]: an id that is
    not 24 characters long is taken for the nil object id, so
    [GetUserByID], [DeleteUser] and [UpdateMarkedForDeletionTime] act on
    the document stored under the nil id, if there is one. *)
Theorem malformed_id_is_nil_id (now : Z) (instanceID id : string) (dT2 : Z)
    (reset : bool) (db : UserDB) :
  List.length (list_ascii_of_string id) <> 24%nat ->
  GetUserByID instanceID id db = GetUserByID instanceID NilObjectID db
  /\ DeleteUser instanceID id db = DeleteUser instanceID NilObjectID db
  /\ UpdateMarkedForDeletionTime now instanceID id dT2 reset db
     = UpdateMarkedForDeletionTime now instanceID NilObjectID dT2 reset db.
Proof.
  intros Hlen.
  assert (E : ObjectIDFromHex id = ObjectIDFromHex NilObjectID).
  { unfold ObjectIDFromHex at 1. apply Nat.eqb_neq in Hlen. by rewrite Hlen. }
  split; [|split].
  - by rewrite !GetUserByID_lookup, E.
  - by rewrite !DeleteUser_lookup, E.
  - destruct reset.
    + by rewrite !UpdateMarkedForDeletionTime_reset, E.
    + by rewrite !UpdateMarkedForDeletionTime_mark, E.
Qed.

Lemma malformed_id_is_nil_id_witness :
  let db := oneUserDB NilObjectID 0 in
  GetUserByID "inst1" "no-object-id" db = GetUserByID "inst1" NilObjectID db
  /\ DeleteUser "inst1" "no-object-id" db = DeleteUser "inst1" NilObjectID db
  /\ UpdateMarkedForDeletionTime 1700000000 "inst1" "no-object-id" 100 false db
     = UpdateMarkedForDeletionTime 1700000000 "inst1" NilObjectID 100 false db.
Proof.
  intros db.
  apply (malformed_id_is_nil_id 1700000000 "inst1" "no-object-id" 100 false db).
  vm_compute. lia.
Defined.

(** The sample store holds a document under the nil id, and the malformed
    id reads it. *)
Example malformed_id_reads_nil_document :
  GetUserByID "inst1" "no-object-id" (oneUserDB NilObjectID 0)
  = Ok (someUser NilObjectID 0).
Proof. vm_compute. reflexivity. Qed.

End ByIdFacts.

(** *** The queries on roles and activity *)

Section InactiveFacts.
Import Bson UserDBService.

Lemma elem_of_FindInactiveUsers (now1 now2 : Z) (instanceID : string) (dT1 : Z)
    (db : UserDB) (u : User) :
  u ∈ fst (FindInactiveUsers now1 now2 instanceID dT1 db) <->
  exists k v,
    db !! (instanceID, k) = Some v /\ u = setID k v
    /\ hasStaffRole v = false
    /\ LastLogin (timestamps v) < sub64 now1 dT1
    /\ LastTokenRefresh (timestamps v) < sub64 now2 dT1
    /\ MarkedForDeletion (timestamps v) <= 0.
Proof.
  unfold FindInactiveUsers. cbn [fst]. rewrite list_elem_of_fmap. split.
  - intros [[k v] [-> Hin]]. apply elem_of_FindQ in Hin as [Hl Hm].
    exists k, v. split; [done|]. split; [done|].
    cbn [matchesQ forallb evalRoles matches] in Hm.
    rewrite !andb_true_iff in Hm. destruct Hm as (Hr & H1 & H2 & H3 & _).
    apply negb_true_iff in Hr.
    change (evalQ (QLt (sub64 now1 dT1)) (Some (LastLogin (timestamps v))) = true) in H1.
    change (evalQ (QLt (sub64 now2 dT1)) (Some (LastTokenRefresh (timestamps v))) = true)
      in H2.
    change (evalQ (QNot (QGt 0)) (Some (MarkedForDeletion (timestamps v))) = true) in H3.
    cbn [evalQ] in H1, H2, H3. apply Z.ltb_lt in H1, H2.
    apply negb_true_iff, Z.ltb_ge in H3. by repeat split.
  - intros (k & v & Hl & -> & Hr & H1 & H2 & H3). exists (k, v). split; [done|].
    apply elem_of_FindQ. split; [done|].
    cbn [matchesQ forallb evalRoles matches].
    change (fieldInt "timestamps.lastLogin" v) with (Some (LastLogin (timestamps v))).
    change (fieldInt "timestamps.lastTokenRefresh" v)
      with (Some (LastTokenRefresh (timestamps v))).
    change (fieldInt "timestamps.markedForDeletion" v)
      with (Some (MarkedForDeletion (timestamps v))).
    cbn [evalQ]. unfold hasStaffRole, staffRoles in Hr. rewrite Hr. cbn [negb andb].
    apply Z.ltb_lt in H1, H2. rewrite H1, H2. cbn [andb].
    rewrite andb_true_r. apply negb_true_iff, Z.ltb_ge. lia.
Qed.

Lemma elem_of_FindNonParticipantUsers (instanceID : string) (db : UserDB) (u : User) :
  u ∈ fst (FindNonParticipantUsers instanceID db) <->
  exists k v, db !! (instanceID, k) = Some v /\ u = setID k v /\ hasStaffRole v = true.
Proof.
  unfold FindNonParticipantUsers. cbn [fst]. rewrite list_elem_of_fmap. split.
  - intros [[k v] [-> Hin]]. apply elem_of_FindQ in Hin as [Hl Hm].
    exists k, v. by repeat split.
  - intros (k & v & Hl & -> & Hr). exists (k, v). split; [done|].
    apply elem_of_FindQ. by split.
Qed.

Lemma FindInactiveUsers_by_key (now1 now2 : Z) (instanceID : string) (dT1 : Z)
    (db : UserDB) (u v : User) :
  u ∈ fst (FindInactiveUsers now1 now2 instanceID dT1 db) ->
  db !! (instanceID, ID u) = Some v ->
  hasStaffRole v = false
  /\ LastLogin (timestamps v) < sub64 now1 dT1
  /\ LastTokenRefresh (timestamps v) < sub64 now2 dT1
  /\ MarkedForDeletion (timestamps v) <= 0.
Proof.
  intros Hin Hl. apply elem_of_FindInactiveUsers in Hin
    as (k & v' & Hl' & -> & H). simpl in Hl. by replace v with v' by congruence.
Qed.

(** X8. [FindInactiveUsers] returns exactly the users of the instance that
    hold none of the roles SERVICE_ACCOUNT, RESEARCHER and ADMIN, whose
    last login and last token refresh both lie before the clock minus
    [dT1], and whose deletion mark is not above 0; [FindNonParticipantUsers]
    returns exactly the users of the instance that hold one of the three
    roles. Each user comes with the [_id] of its document; neither call
    reports an error. *)
Theorem role_queries_spec (now1 now2 : Z) (instanceID : string) (dT1 : Z)
    (db : UserDB) (u : User) :
  (u ∈ fst (FindInactiveUsers now1 now2 instanceID dT1 db) <->
   exists k v,
     db !! (instanceID, k) = Some v /\ u = setID k v
     /\ hasStaffRole v = false
     /\ LastLogin (timestamps v) < sub64 now1 dT1
     /\ LastTokenRefresh (timestamps v) < sub64 now2 dT1
     /\ MarkedForDeletion (timestamps v) <= 0)
  /\ (u ∈ fst (FindNonParticipantUsers instanceID db) <->
      exists k v,
        db !! (instanceID, k) = Some v /\ u = setID k v /\ hasStaffRole v = true)
  /\ snd (FindInactiveUsers now1 now2 instanceID dT1 db) = None
  /\ snd (FindNonParticipantUsers instanceID db) = None.
Proof.
  split; [apply elem_of_FindInactiveUsers|].
  split; [apply elem_of_FindNonParticipantUsers|]. done.
Qed.

(** X9. A stored user with one of the three roles is returned by
    [FindNonParticipantUsers], and is returned by no [FindInactiveUsers]
    call, however long ago the last login was. *)
Theorem staff_never_found_inactive (instanceID : string) (k : ObjectID) (v : User)
    (db : UserDB) :
  db !! (instanceID, k) = Some v ->
  hasStaffRole v = true ->
  setID k v ∈ fst (FindNonParticipantUsers instanceID db)
  /\ forall now1 now2 dT1,
       Forall (fun u => ID u <> k)
         (fst (FindInactiveUsers now1 now2 instanceID dT1 db)).
Proof.
  intros Hl Hr. split.
  - apply elem_of_FindNonParticipantUsers. by exists k, v.
  - intros now1 now2 dT1. apply Forall_forall. intros u Hin <-.
    destruct (FindInactiveUsers_by_key _ _ _ _ _ _ _ Hin Hl) as [H _]. congruence.
Qed.

Lemma staff_never_found_inactive_witness :
  setID (ID staffUser) staffUser ∈ fst (FindNonParticipantUsers "inst1" threeUserDB)
  /\ forall now1 now2 dT1,
       Forall (fun u => ID u <> ID staffUser)
         (fst (FindInactiveUsers now1 now2 "inst1" dT1 threeUserDB)).
Proof.
  apply (staff_never_found_inactive "inst1" (ID staffUser) staffUser threeUserDB);
    vm_compute; reflexivity.
Defined.

(** X10. After [UpdateLoginTime] of a stored user at second [now0], no
    [FindInactiveUsers] call whose bound for the last login (its clock
    minus [dT1]) is at most [now0] returns that user. *)
Theorem login_ends_inactivity (now0 : Z) (instanceID id : string) (db : UserDB) (v : User)
    (now1 now2 dT1 : Z) :
  db !! (instanceID, ObjectIDFromHex id) = Some v ->
  sub64 now1 dT1 <= now0 ->
  Forall (fun u => ID u <> ObjectIDFromHex id)
    (fst (FindInactiveUsers now1 now2 instanceID dT1
            (fst (UpdateLoginTime now0 instanceID id db)))).
Proof.
  intros Hl Hle. apply Forall_forall. intros u Hin Hid.
  rewrite (UpdateLoginTime_stored now0 instanceID id db v Hl) in Hin. cbn [fst] in Hin.
  eapply FindInactiveUsers_by_key in Hin as (_ & H & _).
  2: { rewrite Hid. apply lookup_insert_eq. }
  simpl in H. lia.
Qed.

Lemma login_ends_inactivity_witness :
  Forall (fun u => ID u <> ObjectIDFromHex "5f0000000000000000000001")
    (fst (FindInactiveUsers 1700000500 1700000500 "inst1" 1000
            (fst (UpdateLoginTime 1700000000 "inst1" "5f0000000000000000000001"
                    threeUserDB)))).
Proof.
  apply (login_ends_inactivity 1700000000 "inst1" "5f0000000000000000000001"
           threeUserDB twoProfileUser 1700000500 1700000500 1000).
  - vm_compute. reflexivity.
  - vm_compute. discriminate.
Defined.

(** X11. A user that [UpdateMarkedForDeletionTime] has marked (the call
    answered true, the mark [now0 + dT2] is above 0) is returned by no
    [FindInactiveUsers] call on the store it left. *)
Theorem marked_user_not_found_inactive
    (now0 : Z) (instanceID id : string) (dT2 : Z) (db db' : UserDB)
    (now1 now2 dT1 : Z) :
  UpdateMarkedForDeletionTime now0 instanceID id dT2 false db = (db', (true, None)) ->
  Int64.add now0 dT2 > 0 ->
  Forall (fun u => ID u <> ObjectIDFromHex id)
    (fst (FindInactiveUsers now1 now2 instanceID dT1 db')).
Proof.
  intros Hupd Hpos. apply Forall_forall. intros u Hin Hid.
  rewrite UpdateMarkedForDeletionTime_mark in Hupd.
  destruct (db !! (instanceID, ObjectIDFromHex id)) as [v|]; [|done].
  destruct (0 <? MarkedForDeletion (timestamps v)); [done|].
  injection Hupd as <-.
  eapply FindInactiveUsers_by_key in Hin as (_ & _ & _ & H).
  2: { rewrite Hid. apply lookup_insert_eq. }
  simpl in H. lia.
Qed.

Lemma marked_user_not_found_inactive_witness :
  let id := "5f0000000000000000000001" in
  let db' := fst (UpdateMarkedForDeletionTime 1700000000 "inst1" id 100 false
                    threeUserDB) in
  Forall (fun u => ID u <> ObjectIDFromHex id)
    (fst (FindInactiveUsers 1800000000 1800000000 "inst1" 1000 db')).
Proof.
  intros id db'.
  apply (marked_user_not_found_inactive 1700000000 "inst1" id 100 threeUserDB db'
           1800000000 1800000000 1000).
  - vm_compute. reflexivity.
  - vm_compute. reflexivity.
Defined.

(** Without the mark the sample user is found inactive at that time. *)
Example unmarked_user_found_inactive :
  List.map ID (fst (FindInactiveUsers 1800000000 1800000000 "inst1" 1000 threeUserDB))
  = ["5f0000000000000000000001"; "5f0000000000000000000002"].
Proof. vm_compute. reflexivity. Qed.

End InactiveFacts.

(** *** Deleting unverified users, counting new users *)

Section BulkFacts.
Import Bson UserDBService.

Lemma lookup_foldr_delete_in (instanceID : string) (ds : list (ObjectID * User))
    (db : UserDB) (k : ObjectID) :
  k ∈ List.map fst ds ->
  foldr (fun d m => delete (instanceID, fst d) m) db ds !! (instanceID, k) = None.
Proof.
  induction ds as [|d ds IH]; simpl; intros Hin.
  - by apply elem_of_nil in Hin.
  - destruct (decide (k = d.1)) as [->|Hne].
    + apply lookup_delete_eq.
    + rewrite lookup_delete_ne by congruence. apply IH.
      apply elem_of_cons in Hin as [?|?]; [done|done].
Qed.

Lemma lookup_foldr_delete_notin (instanceID : string) (ds : list (ObjectID * User))
    (db : UserDB) (key : string * ObjectID) :
  (forall d, d ∈ ds -> key <> (instanceID, fst d)) ->
  foldr (fun d m => delete (instanceID, fst d) m) db ds !! key = db !! key.
Proof.
  induction ds as [|d ds IH]; simpl; intros Hn; [done|].
  rewrite lookup_delete_ne.
  - apply IH. intros d' Hd'. apply Hn. by right.
  - intros E. apply (Hn d); [left | done].
Qed.

Lemma size_foldr_delete (instanceID : string) (ds : list (ObjectID * User)) (db : UserDB) :
  NoDup (List.map fst ds) ->
  (forall d, d ∈ ds -> is_Some (db !! (instanceID, fst d))) ->
  (size (foldr (fun d m => delete (instanceID, fst d) m) db ds) + List.length ds
   = size db)%nat.
Proof.
  induction ds as [|d ds IH]; simpl; intros Hnd Hin; [lia|].
  apply NoDup_cons in Hnd as [Hd Hnd].
  rewrite map_size_delete.
  rewrite lookup_foldr_delete_notin.
  - destruct (Hin d) as [v Hv]; [left|]. rewrite Hv.
    specialize (IH Hnd). rewrite <- IH.
    + assert (0 < size (foldr (fun d m => delete (instanceID, d.1) m) db ds))%nat; [|lia].
      assert (Hs : foldr (fun d m => delete (instanceID, d.1) m) db ds
                     !! (instanceID, d.1) = Some v).
      { rewrite lookup_foldr_delete_notin; [done|].
        intros d' Hd' E. apply Hd. injection E as ->.
        apply list_elem_of_fmap. by exists d'. }
      destruct (decide (size (foldr (fun d m => delete (instanceID, d.1) m) db ds) = 0%nat))
        as [E|E]; [|lia].
      apply map_size_empty_inv in E. rewrite E in Hs. by rewrite lookup_empty in Hs.
    + intros d' Hd'. apply Hin. by right.
  - intros d' Hd' E. apply Hd. injection E as ->.
    apply list_elem_of_fmap. by exists d'.
Qed.

Lemma NoDup_fst_filter (P : ObjectID * User -> bool) (l : list (ObjectID * User)) :
  NoDup (List.map fst l) -> NoDup (List.map fst (List.filter P l)).
Proof.
  induction l as [|d l IH]; simpl; intros H; [constructor|].
  apply NoDup_cons in H as [Hd Hnd]. destruct (P d); simpl; [|by apply IH].
  apply NoDup_cons. split; [|by apply IH].
  intros Hin. apply Hd. apply list_elem_of_fmap in Hin as [d' [-> Hin]].
  apply list_elem_of_fmap. exists d'. split; [done|].
  apply list_elem_of_In. apply list_elem_of_In, List.filter_In in Hin. tauto.
Qed.

Lemma NoDup_Find_keys (instanceID : string) (f : filter) (db : UserDB) :
  NoDup (List.map fst (Find instanceID f db)).
Proof. apply NoDup_fst_filter, NoDup_collection_keys. Qed.

Lemma matches_unverified (createdBefore : Z) (k : ObjectID) (u : User) :
  matches (FAnd [ FInt "account.accountConfirmedAt" (QEq 0);
                  FInt "timestamps.createdAt" (QLt createdBefore) ]) k u
  = unverifiedBefore createdBefore u.
Proof. unfold unverifiedBefore. simpl. by rewrite andb_true_r. Qed.

Lemma DeleteMany_lookup (instanceID : string) (f : filter) (db : UserDB) (k : ObjectID) :
  fst (DeleteMany instanceID f db) !! (instanceID, k) =
    match db !! (instanceID, k) with
    | Some u => if matches f k u then None else Some u
    | None => None
    end.
Proof.
  unfold DeleteMany. cbn [fst].
  destruct (db !! (instanceID, k)) as [u|] eqn:Hl.
  - destruct (matches f k u) eqn:Hm.
    + apply lookup_foldr_delete_in. apply list_elem_of_fmap. exists (k, u).
      split; [done|]. by apply elem_of_Find.
    + rewrite lookup_foldr_delete_notin; [done|].
      intros [k' u'] Hin E. simpl in E. injection E as <-.
      apply elem_of_Find in Hin as [Hl' Hm']. congruence.
  - rewrite lookup_foldr_delete_notin; [done|].
    intros [k' u'] Hin E. simpl in E. injection E as <-.
    apply elem_of_Find in Hin as [Hl' Hm']. congruence.
Qed.

Lemma DeleteMany_other_instance (instanceID : string) (f : filter) (db : UserDB)
    (i : string) (k : ObjectID) :
  i <> instanceID ->
  fst (DeleteMany instanceID f db) !! (i, k) = db !! (i, k).
Proof.
  intros Hne. unfold DeleteMany. cbn [fst].
  apply lookup_foldr_delete_notin. intros d _ E. congruence.
Qed.

Lemma DeleteMany_count (instanceID : string) (f : filter) (db : UserDB) :
  DeletedCount (snd (DeleteMany instanceID f db))
  + Z.of_nat (size (fst (DeleteMany instanceID f db))) = Z.of_nat (size db).
Proof.
  unfold DeleteMany. cbn [fst snd DeletedCount].
  pose proof (size_foldr_delete instanceID (Find instanceID f db) db
                (NoDup_Find_keys instanceID f db)) as H.
  rewrite <- H; [lia|].
  intros [k u] Hin. apply elem_of_Find in Hin as [Hl _]. by exists u.
Qed.

(** X12. [DeleteUnverfiedUsers] removes from the instance exactly the
    users whose account was never confirmed ([accountConfirmedAt] is 0) and
    that were created before the given second; every other user of the
    instance and the users of the other instances stay as they are; it
    reports no error. *)
Theorem DeleteUnverfiedUsers_effect (instanceID : string) (createdBefore : Z) (db : UserDB) :
  let db' := fst (DeleteUnverfiedUsers instanceID createdBefore db) in
  snd (snd (DeleteUnverfiedUsers instanceID createdBefore db)) = None
  /\ (forall k,
        db' !! (instanceID, k) =
          match db !! (instanceID, k) with
          | Some u => if unverifiedBefore createdBefore u then None else Some u
          | None => None
          end)
  /\ (forall i k, i <> instanceID -> db' !! (i, k) = db !! (i, k)).
Proof.
  unfold DeleteUnverfiedUsers.
  destruct (DeleteMany _ _ db) as [db1 res] eqn:E. cbn [fst snd].
  assert (db1 = fst (DeleteMany instanceID
            (FAnd [ FInt "account.accountConfirmedAt" (QEq 0);
                    FInt "timestamps.createdAt" (QLt createdBefore) ]) db)) as ->
    by (by rewrite E).
  split; [done|]. split.
  - intros k. rewrite DeleteMany_lookup.
    destruct (db !! (instanceID, k)) as [u|]; [|done].
    by rewrite matches_unverified.
  - intros i k Hne. by apply DeleteMany_other_instance.
Qed.

(** X13. The count [DeleteUnverfiedUsers] returns is the number of
    documents the store lost, and a second call with the same bound on the
    store it left deletes nothing and returns 0. *)
Theorem DeleteUnverfiedUsers_count (instanceID : string) (createdBefore : Z) (db : UserDB) :
  let r := DeleteUnverfiedUsers instanceID createdBefore db in
  fst (snd r) + Z.of_nat (size (fst r)) = Z.of_nat (size db)
  /\ DeleteUnverfiedUsers instanceID createdBefore (fst r) = (fst r, (0, None)).
Proof.
  unfold DeleteUnverfiedUsers.
  set (f := FAnd _).
  pose proof (DeleteMany_count instanceID f db) as Hc.
  pose proof (DeleteMany_lookup instanceID f db) as Hl.
  destruct (DeleteMany instanceID f db) as [db1 res] eqn:E. cbn [fst snd] in *.
  split; [done|].
  unfold DeleteMany. rewrite Find_nil; [done|].
  intros k u Hk. specialize (Hl k). rewrite Hk in Hl.
  destruct (db !! (instanceID, k)) as [u0|]; [|done].
  destruct (matches f k u0) eqn:Hm; [done|]. congruence.
Qed.

(** The sample store loses its one unverified user. *)
Example DeleteUnverfiedUsers_sample :
  snd (DeleteUnverfiedUsers "inst1" 1700000000 threeUserDB) = (1, None)
  /\ fst (DeleteUnverfiedUsers "inst1" 1700000000 threeUserDB)
       !! ("inst1", ID unverifiedUser) = None.
Proof. vm_compute. split; reflexivity. Qed.

Lemma length_filter_Permutation {A : Type} (P : A -> bool) (l1 l2 : list A) :
  l1 ≡ₚ l2 -> List.length (List.filter P l1) = List.length (List.filter P l2).
Proof.
  induction 1 as [|x l1 l2 _ IH|x y l|l1 l2 l3 _ IH1 _ IH2]; simpl.
  - done.
  - destruct (P x); simpl; congruence.
  - destruct (P x), (P y); simpl; congruence.
  - congruence.
Qed.

Lemma length_filter_le {A : Type} (P Q : A -> bool) (l : list A) :
  (forall x, P x = true -> Q x = true) ->
  (List.length (List.filter P l) <= List.length (List.filter Q l))%nat.
Proof.
  intros H. induction l as [|x l IH]; simpl; [lia|].
  destruct (P x) eqn:E.
  - rewrite (H _ E). simpl. lia.
  - destruct (Q x); simpl; lia.
Qed.

Lemma collection_insert_fresh (instanceID : string) (k : ObjectID) (u : User) (db : UserDB) :
  db !! (instanceID, k) = None ->
  collectionRefUsers instanceID (<[(instanceID, k) := u]> db)
    ≡ₚ (k, u) :: collectionRefUsers instanceID db.
Proof.
  intros Hl. unfold collectionRefUsers.
  rewrite (map_to_list_insert db (instanceID, k) u Hl). simpl.
  by rewrite String.eqb_refl.
Qed.

Lemma length_collection_le (instanceID : string) (db : UserDB) :
  (List.length (collectionRefUsers instanceID db) <= size db)%nat.
Proof.
  unfold collectionRefUsers. rewrite <- length_map_to_list.
  induction (map_to_list db) as [|[[i k] u] l IH]; simpl; [lia|].
  destruct (String.eqb i instanceID); simpl; fold (@omap list _ _ _ (fun kv : string * ObjectID * User => if String.eqb kv.1.1 instanceID then Some (kv.1.2, kv.2) else None) l); lia.
Qed.

Lemma CountRecentlyCreatedUsers_eq (now : Z) (instanceID : string) (interval : Z)
    (db : UserDB) :
  CountRecentlyCreatedUsers now instanceID interval db
  = (Z.of_nat (List.length
       (List.filter (fun d => sub64 now interval <? CreatedAt (timestamps (snd d)))
          (collectionRefUsers instanceID db))), None).
Proof.
  reflexivity.
Qed.

(** X14. [CountRecentlyCreatedUsers] grows with the interval: when the
    bound of the second interval (clock minus interval, in int64) is not
    above that of the first, the second count is at least the first; a
    count is never negative and never above the number of stored
    documents. *)
Theorem CountRecentlyCreatedUsers_monotone (now : Z) (instanceID : string)
    (interval1 interval2 : Z) (db : UserDB) :
  sub64 now interval2 <= sub64 now interval1 ->
  0 <= fst (CountRecentlyCreatedUsers now instanceID interval1 db)
    <= fst (CountRecentlyCreatedUsers now instanceID interval2 db)
  /\ fst (CountRecentlyCreatedUsers now instanceID interval2 db) <= Z.of_nat (size db).
Proof.
  intros Hle. rewrite !CountRecentlyCreatedUsers_eq. cbn [fst]. split; [split|].
  - lia.
  - apply Nat2Z.inj_le, length_filter_le. intros [k u]. simpl. lia.
  - apply Nat2Z.inj_le. etrans; [|apply (length_collection_le instanceID)].
    apply List.filter_length_le.
Qed.

Lemma CountRecentlyCreatedUsers_monotone_witness :
  0 <= fst (CountRecentlyCreatedUsers 1650000060 "inst1" 100 threeUserDB)
    <= fst (CountRecentlyCreatedUsers 1650000060 "inst1" 100000000 threeUserDB)
  /\ fst (CountRecentlyCreatedUsers 1650000060 "inst1" 100000000 threeUserDB)
     <= Z.of_nat (size threeUserDB).
Proof.
  apply (CountRecentlyCreatedUsers_monotone 1650000060 "inst1" 100 100000000 threeUserDB).
  vm_compute. discriminate.
Defined.

(** The two counts of the sample store differ. *)
Example CountRecentlyCreatedUsers_sample :
  fst (CountRecentlyCreatedUsers 1650000060 "inst1" 100 threeUserDB) = 1
  /\ fst (CountRecentlyCreatedUsers 1650000060 "inst1" 100000000 threeUserDB) = 3.
Proof. vm_compute. split; reflexivity. Qed.

(** X15. A user that [AddUser] has added is counted by
    [CountRecentlyCreatedUsers] exactly when its [createdAt] lies after the
    bound: the count on the new store is the count on the old one plus 1
    in that case, and the same count otherwise. *)
Theorem AddUser_counted (newID : ObjectID) (instanceID : string) (user : User)
    (db db' : UserDB) (id : string) (now interval : Z) :
  AddUser newID instanceID user db = (db', Ok id) ->
  fst (CountRecentlyCreatedUsers now instanceID interval db')
  = fst (CountRecentlyCreatedUsers now instanceID interval db)
    + (if sub64 now interval <? CreatedAt (timestamps user) then 1 else 0).
Proof.
  unfold AddUser, UpsertSetOnInsert. cbn zeta.
  destruct (FindOne _ _ db) as [d|]; [done|].
  destruct (db !! (instanceID, newID)) eqn:Hl; [done|].
  intros H. simpl in H. injection H as <- _.
  rewrite !CountRecentlyCreatedUsers_eq. cbn [fst].
  rewrite (length_filter_Permutation _ _ _ (collection_insert_fresh _ _ _ _ Hl)).
  simpl. destruct (sub64 now interval <? CreatedAt (timestamps user)); simpl; lia.
Qed.

Lemma AddUser_counted_witness :
  let db := oneUserDB "5f0000000000000000000001" 0 in
  let db' := fst (AddUser "5f0000000000000000000002" "inst1" unverifiedUser db) in
  fst (CountRecentlyCreatedUsers 1650000060 "inst1" 100 db')
  = fst (CountRecentlyCreatedUsers 1650000060 "inst1" 100 db)
    + (if sub64 1650000060 100 <? CreatedAt (timestamps unverifiedUser) then 1 else 0).
Proof.
  intros db db'.
  apply (AddUser_counted "5f0000000000000000000002" "inst1" unverifiedUser db db'
           "5f0000000000000000000002" 1650000060 100).
  vm_compute. reflexivity.
Defined.

End BulkFacts.

(** *** The reminder loop *)

Section ReminderFacts.
Import Bson UserDBService.
Context {W : Type}.

Lemma matches_needsReminder (createdBefore : Z) (k : ObjectID) (u : User) :
  matches (FAnd [ FInt "account.accountConfirmedAt" (QLt 1);
                  FInt "timestamps.reminderToConfirmSentAt" (QLt 1);
                  FInt "timestamps.createdAt" (QLt createdBefore) ]) k u
  = needsReminder createdBefore u.
Proof. unfold needsReminder. simpl. by rewrite andb_true_r, andb_assoc. Qed.

Lemma UpdateReminderToConfirmSentAtTime_eq (now : Z) (instanceID id : string) (db : UserDB) :
  UpdateReminderToConfirmSentAtTime now instanceID id db
  = (match db !! (instanceID, ObjectIDFromHex id) with
     | Some u => <[(instanceID, ObjectIDFromHex id) := reminded now u]> db
     | None => db
     end, None).
Proof.
  unfold UpdateReminderToConfirmSentAtTime. cbn zeta. rewrite UpdateOneFields_id.
  by destruct (db !! (instanceID, ObjectIDFromHex id)).
Qed.

(** The store after the update of one row. *)
Lemma lookup_after_reminder (now : Z) (instanceID : string) (k : ObjectID) (db : UserDB)
    (key : string * ObjectID) :
  match db !! (instanceID, k) with
  | Some u => <[(instanceID, k) := reminded now u]> db
  | None => db
  end !! key
  = if decide (key = (instanceID, k)) then reminded now <$> db !! key else db !! key.
Proof.
  destruct (decide _) as [->|Hne].
  - destruct (db !! (instanceID, k)) as [u0|] eqn:E.
    + by rewrite lookup_insert_eq.
    + by rewrite E.
  - destruct (db !! (instanceID, k)); [|done]. by rewrite lookup_insert_ne.
Qed.

(** What a sweep can do to a document: nothing, or stamp it with a
    reading of the clock. *)
Lemma reminderRows_frame (ctxErr : nat -> option dberror)
    (cbk : string -> User -> W -> W * option dberror) (clock : nat -> Z)
    (instanceID : string) (cur : list (ObjectID * User)) :
  forall (row : nat) (db : UserDB) (w : W) (key : string * ObjectID),
    let db' := fst (fst (reminderRows ctxErr cbk clock instanceID row cur db w)) in
    db' !! key = db !! key
    \/ (exists k row', key = (instanceID, ObjectIDFromHex k) /\ k ∈ List.map fst cur
                       /\ db' !! key = reminded (clock row') <$> db !! key).
Proof.
  induction cur as [|[k u] cur IH]; intros row db w key; simpl; [by left|].
  destruct (ctxErr row); [by left|].
  destruct (cbk instanceID (Decode (k, u)) w) as [w' [e|]].
  - destruct (IH (S row) db w' key) as [H|(k' & row' & -> & Hin & H)]; [by left|].
    right. exists k', row'. split; [done|]. split; [by right | done].
  - rewrite UpdateReminderToConfirmSentAtTime_eq. cbn [ID Decode setID fst].
    set (db1 := match db !! (instanceID, ObjectIDFromHex k) with
                | Some u0 => _ | None => db end).
    pose proof (lookup_after_reminder (clock row) instanceID (ObjectIDFromHex k) db)
      as Hdb1. fold db1 in Hdb1.
    destruct (IH (S row) db1 w' key) as [H|(k' & row' & -> & Hin & H)].
    + rewrite H, Hdb1. destruct (decide _) as [->|Hne]; [|by left].
      right. exists k, row. split; [done|]. split; [left | done].
    + right. exists k', row'. split; [done|]. split; [by right|].
      rewrite H, Hdb1. destruct (decide _) as [E|Hne]; [|done].
      rewrite <- option_fmap_compose. by destruct (db !! _).
Qed.

(** A user for whom the callback fails is not stamped. *)
Lemma reminderRows_skips (ctxErr : nat -> option dberror)
    (cbk : string -> User -> W -> W * option dberror) (clock : nat -> Z)
    (instanceID : string) (k : ObjectID) (cur : list (ObjectID * User)) :
  (forall d, d ∈ cur -> ObjectIDFromHex (fst d) = fst d) ->
  (forall d w, d ∈ cur -> fst d = k -> snd (cbk instanceID (Decode d) w) <> None) ->
  forall (row : nat) (db : UserDB) (w : W),
    fst (fst (reminderRows ctxErr cbk clock instanceID row cur db w)) !! (instanceID, k)
    = db !! (instanceID, k).
Proof.
  induction cur as [|[k' u'] cur IH]; intros Hv Hf row db w; simpl; [done|].
  destruct (ctxErr row); [done|].
  assert (Hv' : forall d, d ∈ cur -> ObjectIDFromHex d.1 = d.1)
    by (intros d Hd; apply Hv; by right).
  assert (Hf' : forall d w, d ∈ cur -> d.1 = k -> (cbk instanceID (Decode d) w).2 <> None)
    by (intros d w0 Hd; apply Hf; by right).
  destruct (cbk instanceID (Decode (k', u')) w) as [w' [e|]] eqn:Hc.
  - by apply IH.
  - rewrite UpdateReminderToConfirmSentAtTime_eq. cbn [ID Decode setID fst].
    assert (Hne : k' <> k).
    { intros ->. apply (Hf (k, u') w); [left | done |].
      by rewrite Hc. }
    assert (Hk' : ObjectIDFromHex k' = k') by (apply (Hv (k', u')); left).
    rewrite Hk'.
    match goal with
    | |- (reminderRows _ _ _ _ _ _ ?d _).1.1 !! _ = _ =>
        rewrite (IH Hv' Hf' (S row) d w')
    end.
    destruct (db !! (instanceID, k')); [|done].
    rewrite lookup_insert_ne; [done | congruence].
Qed.

(** With a context that is not cancelled and a callback that succeeds,
    every row is stamped. *)
Lemma reminderRows_all (ctxErr : nat -> option dberror)
    (cbk : string -> User -> W -> W * option dberror) (clock : nat -> Z)
    (instanceID : string) (cur : list (ObjectID * User)) :
  (forall row, ctxErr row = None) ->
  (forall i u w, snd (cbk i u w) = None) ->
  forall (row : nat) (db : UserDB) (w : W),
    snd (reminderRows ctxErr cbk clock instanceID row cur db w) = None
    /\ forall k, k ∈ List.map fst cur ->
         exists row',
           fst (fst (reminderRows ctxErr cbk clock instanceID row cur db w))
             !! (instanceID, ObjectIDFromHex k)
           = reminded (clock row') <$> db !! (instanceID, ObjectIDFromHex k).
Proof.
  intros Hctx Hcbk. induction cur as [|[k u] cur IH]; intros row db w; simpl.
  - split; [done|]. intros k Hk. by apply elem_of_nil in Hk.
  - rewrite Hctx. pose proof (Hcbk instanceID (Decode (k, u)) w) as Hc.
    destruct (cbk instanceID (Decode (k, u)) w) as [w' [e|]]; [done|].
    rewrite UpdateReminderToConfirmSentAtTime_eq. cbn [ID Decode setID fst].
    set (db1 := match db !! (instanceID, ObjectIDFromHex k) with
                | Some u0 => _ | None => db end).
    pose proof (lookup_after_reminder (clock row) instanceID (ObjectIDFromHex k) db)
      as Hdb1. fold db1 in Hdb1.
    destruct (IH (S row) db1 w') as [He Hall]. split; [done|].
    intros k0 Hk0.
    destruct (decide (k0 ∈ List.map fst cur)) as [Hin|Hnin].
    + destruct (Hall _ Hin) as [row' Hrow']. exists row'.
      rewrite Hrow', Hdb1. destruct (decide _) as [E|Hne]; [|done].
      rewrite <- option_fmap_compose. by destruct (db !! _).
    + apply elem_of_cons in Hk0 as [->|?]; [|done].
      destruct (reminderRows_frame ctxErr cbk clock instanceID cur (S row) db1 w'
                  (instanceID, ObjectIDFromHex k)) as [H|(k' & row' & _ & _ & H)];
        cbn zeta in H.
      * exists row. by rewrite H, Hdb1, decide_True.
      * exists row'. rewrite H, Hdb1, decide_True by done.
        rewrite <- option_fmap_compose. by destruct (db !! _).
Qed.

(** X16. Whatever the context and the callback do,
    [SendReminderToConfirmAccountLoop] changes nothing in the store but the
    [reminderToConfirmSentAt] time of users of the instance that matched
    its filter (account not confirmed, no reminder sent, created before the
    given second), which it sets to a reading of the clock: every document
    is as before or is such a user with that one field set. *)
Theorem reminder_sweep_only_stamps (ctxErr : nat -> option dberror)
    (cbk : string -> User -> W -> W * option dberror) (clock : nat -> Z)
    (instanceID : string) (createdBefore : Z) (db : UserDB) (w : W) :
  validKeys db ->
  let db' := fst (fst (SendReminderToConfirmAccountLoop ctxErr cbk clock instanceID
                         createdBefore db w)) in
  forall (i : string) (k : ObjectID),
    db' !! (i, k) = db !! (i, k)
    \/ (i = instanceID
        /\ exists u row, db !! (i, k) = Some u /\ needsReminder createdBefore u = true
                         /\ db' !! (i, k) = Some (reminded (clock row) u)).
Proof.
  intros Hv db' i k. subst db'. unfold SendReminderToConfirmAccountLoop.
  destruct (reminderRows_frame ctxErr cbk clock instanceID
              (Find instanceID (FAnd [ FInt "account.accountConfirmedAt" (QLt 1);
                  FInt "timestamps.reminderToConfirmSentAt" (QLt 1);
                  FInt "timestamps.createdAt" (QLt createdBefore) ]) db)
              0%nat db w (i, k)) as [H|(k' & row' & E & Hin & H)]; [by left|].
  right. apply list_elem_of_fmap in Hin as [[k0 u] [Hk0 Hin]]. simpl in Hk0. subst k0.
  apply elem_of_Find in Hin as [Hl Hm]. rewrite matches_needsReminder in Hm.
  rewrite (validKeys_lookup _ _ _ _ Hv Hl) in E. injection E as -> ->. split; [done|].
  exists u, row'. split; [done|]. split; [done|].
  cbn zeta in H. by rewrite H, Hl.
Qed.

(** X17. A stored user for whom the callback reports an error is left as
    it is by the sweep, whatever happens to the other rows: its
    [reminderToConfirmSentAt] is not set, so that a later sweep finds it
    again. *)
Theorem reminder_failed_callback_leaves_user (ctxErr : nat -> option dberror)
    (cbk : string -> User -> W -> W * option dberror) (clock : nat -> Z)
    (instanceID : string) (createdBefore : Z) (db : UserDB) (w : W)
    (k : ObjectID) (u : User) :
  validKeys db ->
  db !! (instanceID, k) = Some u ->
  (forall w0, snd (cbk instanceID (setID k u) w0) <> None) ->
  fst (fst (SendReminderToConfirmAccountLoop ctxErr cbk clock instanceID
              createdBefore db w)) !! (instanceID, k) = Some u.
Proof.
  intros Hv Hl Hf. unfold SendReminderToConfirmAccountLoop.
  rewrite reminderRows_skips; [done| |].
  - intros [k' u'] Hin. apply elem_of_Find in Hin as [Hl' _].
    exact (validKeys_lookup _ _ _ _ Hv Hl').
  - intros [k' u'] w0 Hin Hk. simpl in Hk. subst k'.
    apply elem_of_Find in Hin as [Hl' _]. replace u' with u by congruence.
    apply Hf.
Qed.

(** X18. When the context is not cancelled, the callback succeeds for
    every user and the clock is at 1 or later, the sweep returns no error
    and sets [reminderToConfirmSentAt] of exactly the users that matched
    its filter; a second sweep with the same bound on the store it left,
    with any context, callback and clock, finds no user: it leaves the
    store and the world of the callback as they are. *)
Theorem reminder_sweep_stamps_once (ctxErr : nat -> option dberror)
    (cbk : string -> User -> W -> W * option dberror) (clock : nat -> Z)
    (instanceID : string) (createdBefore : Z) (db : UserDB) (w : W) :
  validKeys db ->
  (forall row, ctxErr row = None) ->
  (forall i u w0, snd (cbk i u w0) = None) ->
  (forall row, 1 <= clock row) ->
  exists db' w',
    SendReminderToConfirmAccountLoop ctxErr cbk clock instanceID createdBefore db w
      = (db', w', None)
    /\ (forall k u, db !! (instanceID, k) = Some u ->
          if needsReminder createdBefore u
          then exists row, db' !! (instanceID, k) = Some (reminded (clock row) u)
          else db' !! (instanceID, k) = Some u)
    /\ forall (ctxErr2 : nat -> option dberror)
         (cbk2 : string -> User -> W -> W * option dberror) (clock2 : nat -> Z) (w2 : W),
         SendReminderToConfirmAccountLoop ctxErr2 cbk2 clock2 instanceID createdBefore
           db' w2
         = (db', w2, None).
Proof.
  intros Hv Hctx Hcbk Hnow.
  set (f := FAnd [ FInt "account.accountConfirmedAt" (QLt 1);
                   FInt "timestamps.reminderToConfirmSentAt" (QLt 1);
                   FInt "timestamps.createdAt" (QLt createdBefore) ]).
  destruct (reminderRows_all ctxErr cbk clock instanceID (Find instanceID f db)
              Hctx Hcbk 0%nat db w) as [He Hall].
  pose proof (reminderRows_frame ctxErr cbk clock instanceID (Find instanceID f db)
                0%nat db w) as Hfr. cbn zeta in Hfr.
  unfold SendReminderToConfirmAccountLoop. fold f.
  destruct (reminderRows ctxErr cbk clock instanceID 0 (Find instanceID f db) db w)
    as [[db' w'] e]. cbn [fst snd] in *. subst e.
  exists db', w'. split; [done|].
  assert (Hnew : forall k u, db !! (instanceID, k) = Some u ->
            if needsReminder createdBefore u
            then exists row, db' !! (instanceID, k) = Some (reminded (clock row) u)
            else db' !! (instanceID, k) = Some u).
  { intros k u Hl. destruct (needsReminder createdBefore u) eqn:Hn.
    - assert (Hin : k ∈ List.map fst (Find instanceID f db)).
      { apply list_elem_of_fmap. exists (k, u). split; [done|].
        apply elem_of_Find. split; [done|]. subst f. by rewrite matches_needsReminder. }
      destruct (Hall k Hin) as [row Hrow]. exists row.
      rewrite (validKeys_lookup _ _ _ _ Hv Hl) in Hrow. by rewrite Hrow, Hl.
    - destruct (Hfr (instanceID, k)) as [H|(k' & row' & E & Hin & H)]; [by rewrite H|].
      apply list_elem_of_fmap in Hin as [[k0 u0] [Hk0 Hin]]. simpl in Hk0. subst k0.
      apply elem_of_Find in Hin as [Hl' Hm]. subst f. rewrite matches_needsReminder in Hm.
      rewrite (validKeys_lookup _ _ _ _ Hv Hl') in E. injection E as ->. congruence. }
  split; [exact Hnew|].
  intros ctxErr2 cbk2 clock2 w2. rewrite Find_nil; [done|].
  intros k u' Hl'. subst f. rewrite matches_needsReminder.
  assert (exists u, db !! (instanceID, k) = Some u) as [u Hl].
  { destruct (Hfr (instanceID, k)) as [H|(k' & row' & _ & _ & H)]; rewrite Hl' in H.
    - by exists u'.
    - destruct (db !! (instanceID, k)) as [u|]; [by exists u | done]. }
  pose proof (Hnew _ _ Hl) as Hk.
  destruct (needsReminder createdBefore u) eqn:Hn.
  - destruct Hk as [row Hrow]. rewrite Hrow in Hl'. injection Hl' as <-.
    unfold needsReminder, reminded. simpl.
    replace (clock row <? 1) with false
      by (symmetry; apply Z.ltb_ge; apply Hnow).
    by rewrite andb_false_r.
  - congruence.
Qed.

End ReminderFacts.

Section ReminderWitnesses.
Import Bson UserDBService.

Lemma validKeys_threeUserDB : validKeys threeUserDB.
Proof.
  unfold validKeys, threeUserDB.
  repeat (apply map_Forall_insert_2; [reflexivity|]). apply map_Forall_empty.
Qed.

Lemma reminder_sweep_only_stamps_witness :
  let db' := fst (fst (SendReminderToConfirmAccountLoop neverCancelled recordingCallback
                         (constantClock 1700000000) "inst1" 1700000000 threeUserDB [])) in
  validKeys threeUserDB
  /\ forall (i : string) (k : ObjectID),
       db' !! (i, k) = threeUserDB !! (i, k)
       \/ (i = "inst1"
           /\ exists u row, threeUserDB !! (i, k) = Some u
                            /\ needsReminder 1700000000 u = true
                            /\ db' !! (i, k)
                               = Some (reminded (constantClock 1700000000 row) u)).
Proof.
  intros db'. split; [apply validKeys_threeUserDB|].
  apply (reminder_sweep_only_stamps neverCancelled recordingCallback
           (constantClock 1700000000) "inst1" 1700000000 threeUserDB []).
  apply validKeys_threeUserDB.
Defined.

Lemma reminder_failed_callback_leaves_user_witness :
  fst (fst (SendReminderToConfirmAccountLoop neverCancelled failingCallback
              (constantClock 1700000000) "inst1" 1700000000 threeUserDB []))
    !! ("inst1", ID unverifiedUser) = Some unverifiedUser.
Proof.
  apply (reminder_failed_callback_leaves_user neverCancelled failingCallback
           (constantClock 1700000000) "inst1" 1700000000 threeUserDB []
           (ID unverifiedUser) unverifiedUser).
  - apply validKeys_threeUserDB.
  - vm_compute. reflexivity.
  - intros w0. vm_compute. discriminate.
Defined.

Lemma reminder_sweep_stamps_once_witness :
  exists db' w',
    SendReminderToConfirmAccountLoop neverCancelled recordingCallback
      (constantClock 1700000000) "inst1" 1700000000 threeUserDB []
      = (db', w', None)
    /\ (forall k u, threeUserDB !! ("inst1", k) = Some u ->
          if needsReminder 1700000000 u
          then exists row,
                 db' !! ("inst1", k) = Some (reminded (constantClock 1700000000 row) u)
          else db' !! ("inst1", k) = Some u)
    /\ forall (ctxErr2 : nat -> option dberror)
         (cbk2 : string -> User -> list ObjectID -> list ObjectID * option dberror)
         (clock2 : nat -> Z) (w2 : list ObjectID),
         SendReminderToConfirmAccountLoop ctxErr2 cbk2 clock2 "inst1" 1700000000 db' w2
         = (db', w2, None).
Proof.
  apply (reminder_sweep_stamps_once neverCancelled recordingCallback
           (constantClock 1700000000) "inst1" 1700000000 threeUserDB []).
  - apply validKeys_threeUserDB.
  - intros row. reflexivity.
  - intros i u w0. reflexivity.
  - intros row. vm_compute. discriminate.
Defined.

(** The sample sweep calls the callback for the one unverified user. *)
Example reminder_sweep_sample :
  snd (fst (SendReminderToConfirmAccountLoop neverCancelled recordingCallback
              (constantClock 1700000000) "inst1" 1700000000 threeUserDB []))
  = [ID unverifiedUser].
Proof. vm_compute. reflexivity. Qed.

End ReminderWitnesses.

(** ** Further facts about the endpoints *)

Section EndpointFacts.
Import Bson UserDBService GlobalDBService Models Tokens Utils Service.

(** X19. [GetUser] answers with a user only for the caller's own record:
    the request names no user id or the id of the caller's token, the user
    returned is the document stored under the token's id in the token's
    instance, and the call changes nothing in the server. *)
Theorem GetUser_own_record_only (req : option UserReference) (s s' : Server) (u : User) :
  GetUser req s = (s', Ok u) ->
  s' = s
  /\ exists r tok v,
       req = Some r /\ urToken r = Some tok
       /\ (urUserId r = "" \/ urUserId r = tiId tok)
       /\ userDBservice s !! (tiInstanceId tok, ObjectIDFromHex (tiId tok)) = Some v
       /\ u = setID (ObjectIDFromHex (tiId tok)) v.
Proof.
  destruct req as [r|]; [|done]. unfold GetUser.
  destruct (urToken r) as [tok|] eqn:Htok; [|done].
  destruct (IsTokenEmpty (Some tok)); [done|]. cbn [deref].
  destruct (String.eqb (urUserId r) "") eqn:Hid.
  - apply String.eqb_eq in Hid. rewrite String.eqb_refl. cbn [negb].
    rewrite GetUserByID_lookup.
    destruct (userDBservice s !! (tiInstanceId tok, ObjectIDFromHex (tiId tok)))
      as [v|] eqn:Hv; [|done].
    intros [= <- <-]. split; [done|]. exists r, tok, v. repeat split; try done. by left.
  - destruct (String.eqb (tiId tok) (urUserId r)) eqn:Hsame; [|done].
    apply String.eqb_eq in Hsame. cbn [negb]. rewrite GetUserByID_lookup, <- Hsame.
    destruct (userDBservice s !! (tiInstanceId tok, ObjectIDFromHex (tiId tok)))
      as [v|] eqn:Hv; [|done].
    intros [= <- <-]. split; [done|]. exists r, tok, v. repeat split; try done. by right.
Qed.

Lemma GetUser_own_record_only_witness :
  let s := sampleServer twoProfileUser in
  let req := mkUserReference (Some (callerOf twoProfileUser)) "" in
  s = s
  /\ exists r tok v,
       Some req = Some r /\ urToken r = Some tok
       /\ (urUserId r = "" \/ urUserId r = tiId tok)
       /\ userDBservice s !! (tiInstanceId tok, ObjectIDFromHex (tiId tok)) = Some v
       /\ twoProfileUser = setID (ObjectIDFromHex (tiId tok)) v.
Proof.
  intros s req.
  apply (GetUser_own_record_only (Some req) s s twoProfileUser).
  vm_compute. reflexivity.
Defined.

(** The sample caller asking for the record of another user is refused. *)
Example GetUser_other_user_refused :
  GetUser (Some (mkUserReference (Some (callerOf twoProfileUser))
                   "5f0000000000000000000002"))
    (sampleServer twoProfileUser)
  = (sampleServer twoProfileUser, Err (mkStatus PermissionDenied "not authorized")).
Proof. vm_compute. reflexivity. Qed.

Lemma RevokeAllRefreshTokens_success (env : Env) (req : RevokeRefreshTokensReq)
    (s s' : Server) (resp : ServiceStatus) :
  RevokeAllRefreshTokens env (Some req) s = (s', Ok resp) ->
  exists tok v,
    rrToken req = Some tok
    /\ userDBservice s !! (tiInstanceId tok, ObjectIDFromHex (tiId tok)) = Some v
    /\ s' = withUserDB
              (<[(tiInstanceId tok, ObjectIDFromHex (tiId tok)) :=
                   revoked (now env) (ObjectIDFromHex (tiId tok)) v]> (userDBservice s)) s
    /\ resp = {| ssStatus := ServiceStatus_NORMAL; ssMsg := "refresh tokens revoked" |}.
Proof.
  unfold RevokeAllRefreshTokens. destruct (rrToken req) as [tok|] eqn:Htok; [|done].
  destruct (IsTokenEmpty (Some tok)); [done|]. cbn [deref].
  rewrite GetUserByID_lookup.
  destruct (userDBservice s !! (tiInstanceId tok, ObjectIDFromHex (tiId tok)))
    as [v|] eqn:Hv; [|done].
  rewrite UpdateUser_lookup. cbn [ID setID setAccount setTimestamps]. cbn zeta.
  cbn [ID setID setAccount setTimestamps]. rewrite Hv.
  intros [= <- <-]. by exists tok, v.
Qed.

(** X20. After a successful [RevokeAllRefreshTokens] the stored user of
    the token has no refresh token and [updatedAt] at the time of the call;
    its account id, password, profiles and roles are as before, and so are
    all other documents, the temp tokens, the audit events and the emails. *)
Theorem RevokeAllRefreshTokens_clears_tokens (env : Env) (req : RevokeRefreshTokensReq)
    (s s' : Server) (resp : ServiceStatus) :
  RevokeAllRefreshTokens env (Some req) s = (s', Ok resp) ->
  exists tok v v',
    rrToken req = Some tok
    /\ userDBservice s !! (tiInstanceId tok, ObjectIDFromHex (tiId tok)) = Some v
    /\ userDBservice s' !! (tiInstanceId tok, ObjectIDFromHex (tiId tok)) = Some v'
    /\ RefreshTokens (account v') = []
    /\ UpdatedAt (timestamps v') = now env
    /\ AccountID (account v') = AccountID (account v)
    /\ Password (account v') = Password (account v)
    /\ Profiles v' = Profiles v /\ Roles v' = Roles v
    /\ (forall key, key <> (tiInstanceId tok, ObjectIDFromHex (tiId tok)) ->
          userDBservice s' !! key = userDBservice s !! key)
    /\ globalDBService s' = globalDBService s
    /\ logEvents s' = logEvents s /\ sentEmails s' = sentEmails s.
Proof.
  intros H. apply RevokeAllRefreshTokens_success in H as (tok & v & Htok & Hv & -> & _).
  exists tok, v, (revoked (now env) (ObjectIDFromHex (tiId tok)) v).
  split; [done|]. split; [done|]. split; [apply lookup_insert_eq|].
  repeat (split; [done|]). split; [|done].
  intros key Hne. cbn [userDBservice withUserDB]. by rewrite lookup_insert_ne.
Qed.

Lemma RevokeAllRefreshTokens_clears_tokens_witness :
  let env := sampleEnv 1700000400 "r3" in
  let req := mkRevokeRefreshTokensReq (Some (callerOf twoProfileUser)) in
  let s := serverWithTokens in
  let s' := fst (RevokeAllRefreshTokens env (Some req) s) in
  exists tok v v',
    rrToken req = Some tok
    /\ userDBservice s !! (tiInstanceId tok, ObjectIDFromHex (tiId tok)) = Some v
    /\ userDBservice s' !! (tiInstanceId tok, ObjectIDFromHex (tiId tok)) = Some v'
    /\ RefreshTokens (account v') = []
    /\ UpdatedAt (timestamps v') = now env
    /\ AccountID (account v') = AccountID (account v)
    /\ Password (account v') = Password (account v)
    /\ Profiles v' = Profiles v /\ Roles v' = Roles v
    /\ (forall key, key <> (tiInstanceId tok, ObjectIDFromHex (tiId tok)) ->
          userDBservice s' !! key = userDBservice s !! key)
    /\ globalDBService s' = globalDBService s
    /\ logEvents s' = logEvents s /\ sentEmails s' = sentEmails s.
Proof.
  intros env req s s'.
  apply (RevokeAllRefreshTokens_clears_tokens env req s s'
           {| ssStatus := ServiceStatus_NORMAL; ssMsg := "refresh tokens revoked" |}).
  vm_compute. reflexivity.
Defined.

(** X21. After a successful [RevokeAllRefreshTokens], [RenewJWT] on the
    server it left fails for every signed access token of that user,
    whatever refresh token is presented with it. *)
Theorem RevokeAllRefreshTokens_blocks_renewal (env : Env) (req : RevokeRefreshTokensReq)
    (s s' : Server) (resp : ServiceStatus) (tok : TokenInfos)
    (env2 : Env) (c : UserClaims) (r : string) :
  RevokeAllRefreshTokens env (Some req) s = (s', Ok resp) ->
  rrToken req = Some tok ->
  cInstanceID c = tiInstanceId tok ->
  ObjectIDFromHex (cID c) = ObjectIDFromHex (tiId tok) ->
  exists st,
    snd (RenewJWT env2 (Some (mkRefreshJWTRequest (Signed c) r)) s') = Err st.
Proof.
  intros H Htok Hi Hid.
  apply RevokeAllRefreshTokens_success in H as (tok' & v & Htok' & Hv & -> & _).
  replace tok' with tok in * by congruence.
  destruct (RenewJWT env2 _ _) as [s2 [resp2|st]] eqn:Hrenew; [|by exists st].
  apply RenewJWT_success_inv in Hrenew
    as (c' & u & l & t & [= <-] & _ & Hu & Hrem & _).
  cbn [userDBservice withUserDB] in Hu. rewrite Hi, Hid, lookup_insert_eq in Hu.
  injection Hu as <-. discriminate.
Qed.

Lemma RevokeAllRefreshTokens_blocks_renewal_witness :
  let env := sampleEnv 1700000400 "r3" in
  let req := mkRevokeRefreshTokensReq (Some (callerOf twoProfileUser)) in
  let s' := fst (RevokeAllRefreshTokens env (Some req) serverWithTokens) in
  exists st,
    snd (RenewJWT (sampleEnv 1700000500 "r4")
           (Some (mkRefreshJWTRequest (Signed secondProfileClaims) "r1")) s') = Err st.
Proof.
  intros env req s'.
  apply (RevokeAllRefreshTokens_blocks_renewal env req serverWithTokens s'
           {| ssStatus := ServiceStatus_NORMAL; ssMsg := "refresh tokens revoked" |}
           (callerOf twoProfileUser) (sampleEnv 1700000500 "r4") secondProfileClaims "r1");
    vm_compute; reflexivity.
Defined.

(** Before the revocation the sample renewal succeeds. *)
Example RenewJWT_before_revocation :
  exists s2 resp2,
    RenewJWT (sampleEnv 1700000500 "r4")
      (Some (mkRefreshJWTRequest (Signed secondProfileClaims) "r1")) serverWithTokens
    = (s2, Ok resp2).
Proof. eexists _, _. vm_compute. reflexivity. Qed.

(** X22. After a successful [ChangePreferredLanguage] the user returned is
    the stored user of the token with the new language and [updatedAt] at
    the time of the call, [GetUser] of that caller returns the same user,
    and no other document has changed. *)
Theorem ChangePreferredLanguage_then_GetUser (env : Env) (req : LanguageChangeMsg)
    (s s' : Server) (u : User) :
  ChangePreferredLanguage env (Some req) s = (s', Ok u) ->
  exists tok v,
    lcToken req = Some tok
    /\ userDBservice s !! (tiInstanceId tok, ObjectIDFromHex (tiId tok)) = Some v
    /\ u = setID (ObjectIDFromHex (tiId tok))
             (setTimestamps (setUpdatedAt (now env) (timestamps v))
                (setAccount (setPreferredLanguage (lcLanguageCode req) (account v)) v))
    /\ GetUser (Some (mkUserReference (Some tok) "")) s' = (s', Ok u)
    /\ (forall key, key <> (tiInstanceId tok, ObjectIDFromHex (tiId tok)) ->
          userDBservice s' !! key = userDBservice s !! key).
Proof.
  unfold ChangePreferredLanguage. destruct (lcToken req) as [tok|] eqn:Htok; [|done].
  destruct (IsTokenEmpty (Some tok)) eqn:Hemp; [done|].
  destruct (String.eqb (lcLanguageCode req) ""); [done|]. cbn [orb deref].
  unfold UpdateAccountPreferredLang. cbn zeta. rewrite FindOneAndUpdate_id.
  destruct (userDBservice s !! (tiInstanceId tok, ObjectIDFromHex (tiId tok)))
    as [v|] eqn:Hv; [|done].
  intros [= <- <-]. exists tok, v. split; [done|]. split; [done|]. split; [done|].
  split.
  - unfold GetUser. cbn [urToken urUserId]. rewrite Hemp. cbn [deref].
    rewrite String.eqb_refl, String.eqb_refl. cbn [negb].
    rewrite GetUserByID_lookup. cbn [userDBservice withUserDB].
    by rewrite lookup_insert_eq.
  - intros key Hne. cbn [userDBservice withUserDB]. by rewrite lookup_insert_ne.
Qed.

Lemma ChangePreferredLanguage_then_GetUser_witness :
  let env := sampleEnv 1700000400 "r3" in
  let req := mkLanguageChangeMsg (Some (callerOf twoProfileUser)) "fr" in
  let s := sampleServer twoProfileUser in
  let s' := fst (ChangePreferredLanguage env (Some req) s) in
  let u := setTimestamps (setUpdatedAt 1700000400 (timestamps twoProfileUser))
             (setAccount (setPreferredLanguage "fr" (account twoProfileUser))
                twoProfileUser) in
  exists tok v,
    lcToken req = Some tok
    /\ userDBservice s !! (tiInstanceId tok, ObjectIDFromHex (tiId tok)) = Some v
    /\ u = setID (ObjectIDFromHex (tiId tok))
             (setTimestamps (setUpdatedAt (now env) (timestamps v))
                (setAccount (setPreferredLanguage (lcLanguageCode req) (account v)) v))
    /\ GetUser (Some (mkUserReference (Some tok) "")) s' = (s', Ok u)
    /\ (forall key, key <> (tiInstanceId tok, ObjectIDFromHex (tiId tok)) ->
          userDBservice s' !! key = userDBservice s !! key).
Proof.
  intros env req s s' u.
  apply (ChangePreferredLanguage_then_GetUser env req s s' u).
  vm_compute. reflexivity.
Defined.

(** X23. A successful [DeleteAccount] leaves every other document of the
    user store and every temp token of other users or other instances in
    place; it sends one account-deleted email, to the account id of the
    deleted user in that user's preferred language, and writes one audit
    event. *)
Theorem DeleteAccount_frame (env : Env) (req : UserReference) (s s' : Server)
    (resp : ServiceStatus) :
  DeleteAccount env (Some req) s = (s', Ok resp) ->
  exists tok v,
    urToken req = Some tok
    /\ userDBservice s !! (tiInstanceId tok, ObjectIDFromHex (tiId tok)) = Some v
    /\ (forall key, key <> (tiInstanceId tok, ObjectIDFromHex (tiId tok)) ->
          userDBservice s' !! key = userDBservice s !! key)
    /\ (forall t, t ∈ globalDBService s ->
          ~ (InstanceID t = tiInstanceId tok /\ UserID t = tiId tok) ->
          t ∈ globalDBService s')
    /\ sentEmails s' =
         (sentEmails s ++
          [ {| seInstanceId := tiInstanceId tok;
               seTo := [AccountID (account v)];
               seMessageType := EMAIL_TYPE_ACCOUNT_DELETED;
               seContentInfos := [];
               sePreferredLanguage := PreferredLanguage (account v);
               seUseLowPrio := true |} ])%list
    /\ logEvents s' =
         (logEvents s ++
          [ mkLogEvent (tiInstanceId tok) (tiId tok) LogEventType_LOG
              LOG_EVENT_ACCOUNT_DELETED (AccountID (account v)) ])%list.
Proof.
  unfold DeleteAccount. destruct (urToken req) as [tok|] eqn:Htok; [|done].
  destruct (IsTokenEmpty (Some tok) || String.eqb (urUserId req) "")%bool; [done|].
  cbn [deref].
  destruct (String.eqb (tiId tok) (urUserId req)) eqn:Hid; [|done].
  apply String.eqb_eq in Hid. cbn [negb]. rewrite <- Hid.
  rewrite GetUserByID_lookup.
  destruct (userDBservice s !! (tiInstanceId tok, ObjectIDFromHex (tiId tok)))
    as [v|] eqn:Hv; [|done].
  rewrite DeleteUser_lookup. cbn [userDBservice SendInstantEmail].
  rewrite Hv.
  intros [= <- <-]. exists tok, v. split; [done|]. split; [done|]. split; [|split].
  - intros key Hne. cbn. by rewrite lookup_delete_ne.
  - intros t Hin Hnot. cbn. apply list_elem_of_In, List.filter_In. split.
    + by apply list_elem_of_In.
    + apply negb_true_iff. unfold forUser. 
      destruct (String.eqb (InstanceID t) (tiInstanceId tok)) eqn:E1; [|done].
      destruct (String.eqb (UserID t) (tiId tok)) eqn:E2; [|done].
      apply String.eqb_eq in E1, E2. tauto.
  - done.
Qed.

Lemma DeleteAccount_frame_witness :
  let env := sampleEnv 1700000400 "r3" in
  let req := mkUserReference (Some (callerOf twoProfileUser)) "5f0000000000000000000001" in
  let s := serverWithTokens in
  let s' := fst (DeleteAccount env (Some req) s) in
  exists tok v,
    urToken req = Some tok
    /\ userDBservice s !! (tiInstanceId tok, ObjectIDFromHex (tiId tok)) = Some v
    /\ (forall key, key <> (tiInstanceId tok, ObjectIDFromHex (tiId tok)) ->
          userDBservice s' !! key = userDBservice s !! key)
    /\ (forall t, t ∈ globalDBService s ->
          ~ (InstanceID t = tiInstanceId tok /\ UserID t = tiId tok) ->
          t ∈ globalDBService s')
    /\ sentEmails s' =
         (sentEmails s ++
          [ {| seInstanceId := tiInstanceId tok;
               seTo := [AccountID (account v)];
               seMessageType := EMAIL_TYPE_ACCOUNT_DELETED;
               seContentInfos := [];
               sePreferredLanguage := PreferredLanguage (account v);
               seUseLowPrio := true |} ])%list
    /\ logEvents s' =
         (logEvents s ++
          [ mkLogEvent (tiInstanceId tok) (tiId tok) LogEventType_LOG
              LOG_EVENT_ACCOUNT_DELETED (AccountID (account v)) ])%list.
Proof.
  intros env req s s'.
  apply (DeleteAccount_frame env req s s'
           {| ssStatus := ServiceStatus_NORMAL; ssMsg := "user deleted" |}).
  vm_compute. reflexivity.
Defined.

Lemma length_promoteHead (l : list Profile) :
  List.length (promoteHead l) = List.length l.
Proof. by destruct l. Qed.

Lemma removeProfileFrom_length (id : string) (l l' : list Profile) :
  removeProfileFrom id l = Some l' -> S (List.length l') = List.length l.
Proof.
  revert l'. induction l as [|q l IH]; intros l' H; simpl in H; [done|].
  destruct (String.eqb (pID q) id).
  - injection H as <-. destruct (MainProfile q); simpl; [|done].
    by rewrite length_promoteHead.
  - destruct (removeProfileFrom id l) as [r|]; [|done]. injection H as <-.
    simpl. by rewrite (IH r).
Qed.

Lemma UpdateUser_bounded (n : nat) (now : Z) (instanceID : string) (user : User)
    (db : UserDB) :
  dbProfilesBounded n db ->
  (List.length (Profiles user) <= n)%nat ->
  dbProfilesBounded n (fst (UpdateUser now instanceID user db)).
Proof.
  intros Hdb Hu. rewrite UpdateUser_lookup. cbn zeta.
  destruct (db !! (instanceID, ID user)); simpl; [|done].
  unfold dbProfilesBounded. by apply map_Forall_insert_2.
Qed.

Lemma SaveProfile_bounded (maximumProfilesAllowed : nat) (env : Env)
    (req : option ProfileRequest) (s : Server) :
  dbProfilesBounded (S maximumProfilesAllowed) (userDBservice s) ->
  dbProfilesBounded (S maximumProfilesAllowed)
    (userDBservice (fst (SaveProfile maximumProfilesAllowed env req s))).
Proof.
  intros Hdb. unfold SaveProfile. destruct req as [req|]; [|done].
  destruct (IsTokenEmpty (prToken req) || _)%bool; [done|].
  rewrite GetUserByID_lookup.
  destruct (userDBservice s !! (tiInstanceId (deref (prToken req)),
                                ObjectIDFromHex (tiId (deref (prToken req)))))
    as [u|] eqn:Hu; [|done].
  pose proof (Hdb _ _ Hu) as Hok. cbn beta in Hok.
  destruct (String.eqb (apId _) "").
  - destruct (maximumProfilesAllowed <? _)%nat eqn:Hlim; [done|].
    apply Nat.ltb_ge in Hlim. cbn [Profiles setID] in Hlim.
    match goal with
    | |- context [UpdateUser ?n ?i ?usr ?db] =>
        pose proof (UpdateUser_bounded (S maximumProfilesAllowed) n i usr db Hdb) as Hb;
        destruct (UpdateUser n i usr db) as [db' [updUser|e]]
    end; cbn [fst] in Hb; simpl; apply Hb;
      unfold AddProfile; simpl; rewrite length_app; simpl; lia.
  - destruct (UpdateProfile _ _) as [u'|] eqn:Hup; [|done].
    unfold UpdateProfile in Hup. cbn [Profiles setID] in Hup.
    destruct (updateProfileIn _ (Profiles u)) as [l|] eqn:Hl; [|done].
    injection Hup as <-. apply updateProfileIn_ok in Hl as [Hlen _].
    match goal with
    | |- context [UpdateUser ?n ?i ?usr ?db] =>
        pose proof (UpdateUser_bounded (S maximumProfilesAllowed) n i usr db Hdb) as Hb;
        destruct (UpdateUser n i usr db) as [db' [updUser|e]]
    end; cbn [fst] in Hb; simpl; apply Hb; simpl; lia.
Qed.

Lemma RemoveProfile_bounded (n : nat) (env : Env) (req : option ProfileRequest)
    (s : Server) :
  dbProfilesBounded n (userDBservice s) ->
  dbProfilesBounded n (userDBservice (fst (Service.RemoveProfile env req s))).
Proof.
  intros Hdb. unfold Service.RemoveProfile. destruct req as [req|]; [|done].
  destruct (IsTokenEmpty (prToken req) || _)%bool; [done|].
  rewrite GetUserByID_lookup.
  destruct (userDBservice s !! (tiInstanceId (deref (prToken req)),
                                ObjectIDFromHex (tiId (deref (prToken req)))))
    as [u|] eqn:Hu; [|done].
  pose proof (Hdb _ _ Hu) as Hok. cbn beta in Hok.
  destruct (Nat.eqb _ 1); [done|].
  destruct (Models.RemoveProfile _ _) as [u'|] eqn:Hrm; [|done].
  unfold Models.RemoveProfile in Hrm. cbn [Profiles setID] in Hrm.
  destruct (List.length (Profiles u) <=? 1)%nat; [done|].
  destruct (removeProfileFrom _ (Profiles u)) as [l|] eqn:Hl; [|done].
  injection Hrm as <-. apply removeProfileFrom_length in Hl.
  match goal with
  | |- context [UpdateUser ?t ?i ?usr ?db] =>
      pose proof (UpdateUser_bounded n t i usr db Hdb) as Hb;
      destruct (UpdateUser t i usr db) as [db' [updUser|e]]
  end; cbn [fst] in Hb; simpl; apply Hb; simpl;
    destruct (existsb MainProfile l); rewrite ?length_promoteHead; lia.
Qed.

(** X24. With the limit [maximumProfilesAllowed] no user ever holds more
    than [maximumProfilesAllowed + 1] profiles: when no user of the store
    does, none does after any sequence of [SaveProfile] and [RemoveProfile]
    calls. *)
Theorem profile_count_bounded (maximumProfilesAllowed : nat) (s s' : Server) :
  dbProfilesBounded (S maximumProfilesAllowed) (userDBservice s) ->
  rtc (profileStep maximumProfilesAllowed) s s' ->
  dbProfilesBounded (S maximumProfilesAllowed) (userDBservice s').
Proof.
  intros Hdb Hsteps. induction Hsteps as [|x y z Hxy _ IH]; [done|].
  apply IH. destruct Hxy as [env req s0|env req s0].
  - by apply SaveProfile_bounded.
  - by apply RemoveProfile_bounded.
Qed.

Lemma profile_count_bounded_witness :
  let s := sampleServer sixProfileUser in
  let s' := fst (SaveProfile 6 (sampleEnv 1700000400 "r3")
                   (Some (mkProfileRequest (Some (callerOf sixProfileUser))
                            (Some (newProfile "seventh")))) s) in
  dbProfilesBounded 7 (userDBservice s').
Proof.
  intros s s'. apply (profile_count_bounded 6 s s').
  - unfold dbProfilesBounded. apply map_Forall_singleton. vm_compute. lia.
  - apply rtc_once. apply step_SaveProfile.
Defined.

(** The sample call brings the user to seven profiles. *)
Example profile_count_sample :
  List.length
    (Profiles
       (default sixProfileUser
          (userDBservice
             (fst (SaveProfile 6 (sampleEnv 1700000400 "r3")
                     (Some (mkProfileRequest (Some (callerOf sixProfileUser))
                              (Some (newProfile "seventh"))))
                     (sampleServer sixProfileUser)))
           !! ("inst1", ID sixProfileUser)))) = 7%nat.
Proof. vm_compute. reflexivity. Qed.

End EndpointFacts.
